(** * AutoProcessor resolution and the Wav2Vec2 checkpoint converter

    A shallow embedding of
    - [src/transformers/models/auto/processing_auto.py]
      ([processor_class_from_name], [AutoProcessor]) and
    - [src/transformers/models/wav2vec2/convert_wav2vec2_original_pytorch_checkpoint_to_pytorch.py]
      ([set_recursively], [rename_dict], [load_wav2vec2_layer],
      [load_conv_layer], [recursively_load_weights]).

    Python strings are [string]s, dictionaries that are iterated in
    insertion order are association lists, and code that mutates objects,
    logs or raises runs in a small state-and-exception monad. *)

From Stdlib Require Import String Ascii List Bool Arith Lia DecimalString Sorted.
Import ListNotations.
Open Scope string_scope.

(** ** Python string primitives *)

Module PyStr.

(** [s.startswith(p)] *)
Fixpoint startswith (p s : string) : bool :=
  match p with
  | EmptyString => true
  | String a p' =>
      match s with
      | EmptyString => false
      | String b s' => Ascii.eqb a b && startswith p' s'
      end
  end.

(** [sub in s] *)
Fixpoint contains (sub s : string) : bool :=
  startswith sub s
  || match s with
     | EmptyString => false
     | String _ s' => contains sub s'
     end.

(** [s.endswith(suf)]: some suffix of [s] is [suf]. *)
Fixpoint endswith (suf s : string) : bool :=
  String.eqb suf s
  || match s with
     | EmptyString => false
     | String _ s' => endswith suf s'
     end.

(** [s.find(sub)], with [None] for Python's [-1]. *)
Fixpoint find (sub s : string) : option nat :=
  if startswith sub s then Some 0
  else match s with
       | EmptyString => None
       | String _ s' => option_map S (find sub s')
       end.

(** The first [n] characters, [s[:n]]. *)
Fixpoint take (n : nat) (s : string) : string :=
  match n, s with
  | S k, String c s' => String c (take k s')
  | _, _ => EmptyString
  end.

(** Prepend a character to the piece under construction. *)
Definition cons_head (c : ascii) (l : list string) : list string :=
  match l with
  | h :: t => String c h :: t
  | [] => [String c EmptyString]
  end.

(** [s.split(sep)] for a non-empty [sep]: occurrences are taken left to
    right and do not overlap.  [skip] counts the characters of a separator
    that has just been recognised and is still to be passed over. *)
Fixpoint split_from (sep : string) (skip : nat) (s : string) : list string :=
  match s with
  | EmptyString => [EmptyString]
  | String c s' =>
      match skip with
      | S k => split_from sep k s'
      | O =>
          if startswith sep s
          then EmptyString :: split_from sep (String.length sep - 1) s'
          else cons_head c (split_from sep 0 s')
      end
  end.

Definition split (sep s : string) : list string := split_from sep 0 s.

(** [s.replace(old, new)] for a non-empty [old]. *)
Fixpoint replace_from (old new : string) (skip : nat) (s : string) : string :=
  match s with
  | EmptyString => EmptyString
  | String c s' =>
      match skip with
      | S k => replace_from old new k s'
      | O =>
          if startswith old s
          then new ++ replace_from old new (String.length old - 1) s'
          else String c (replace_from old new 0 s')
      end
  end.

Definition replace (old new s : string) : string := replace_from old new 0 s.

(** [sep.join(l)] *)
Definition join (sep : string) (l : list string) : string := String.concat sep l.

(** [x in l] for a list of strings. *)
Definition mem (x : string) (l : list string) : bool :=
  existsb (String.eqb x) l.

(** [l[0]] on a list; [None] stands for [IndexError]. *)
Definition first {A : Type} (l : list A) : option A := hd_error l.

(** [l[-1]] *)
Definition last1 {A : Type} (l : list A) : option A := hd_error (rev l).

(** [l[-2]] *)
Definition last2 {A : Type} (l : list A) : option A :=
  match rev l with
  | _ :: x :: _ => Some x
  | _ => None
  end.

(** [str(n)] for a non-negative integer. *)
Definition str_nat (n : nat) : string := NilEmpty.string_of_uint (Nat.to_uint n).

Definition is_digit (c : ascii) : bool :=
  let n := nat_of_ascii c in ((48 <=? n)%nat && (n <=? 57)%nat)%bool.

Fixpoint all_digits (s : string) : bool :=
  match s with
  | EmptyString => true
  | String c s' => is_digit c && all_digits s'
  end.

Fixpoint digits_value (acc : nat) (s : string) : nat :=
  match s with
  | EmptyString => acc
  | String c s' => digits_value (10 * acc + (nat_of_ascii c - 48)) s'
  end.

(** [int(s)] on the index segments of parameter names.  A non-empty run of
    ASCII decimal digits is read as a number; [None] stands for the
    [ValueError] raised on any other text.  (Python also accepts a sign,
    surrounding blanks and single underscores between digits; [state_dict]
    names carry none of these, and they are left out of the model.) *)
Definition int (s : string) : option nat :=
  match s with
  | EmptyString => None
  | _ => if all_digits s then Some (digits_value 0 s) else None
  end.

End PyStr.

(** ** Exceptions, and a monad for code that mutates, logs and raises *)

Inductive ExcClass : Type :=
| ValueError | OSError | AttributeError | IndexError | KeyError
| TypeError | ImportError | JSONDecodeError
| KeyboardInterrupt | SystemExit.

(** [issubclass(c, Exception)]: the last two derive from [BaseException]
    only, so [except Exception] lets them through. *)
Definition is_Exception (c : ExcClass) : bool :=
  match c with
  | KeyboardInterrupt | SystemExit => false
  | _ => true
  end.

Record PyExc : Type := mkExc { exc_class : ExcClass; exc_msg : string }.

Inductive Outcome (A : Type) : Type :=
| Returned (a : A)
| Raised (e : PyExc).
Arguments Returned {A} a.
Arguments Raised {A} e.

(** A computation over a mutable state [S]: the state at the point of a
    [raise] is kept, as Python keeps every mutation made before it. *)
Definition M (S A : Type) : Type := S -> Outcome A * S.

Definition ret {S A : Type} (a : A) : M S A := fun s => (Returned a, s).

Definition bind {S A B : Type} (m : M S A) (k : A -> M S B) : M S B :=
  fun s =>
    match m s with
    | (Returned a, s') => k a s'
    | (Raised e, s') => (Raised e, s')
    end.

Definition raise {S A : Type} (c : ExcClass) (msg : string) : M S A :=
  fun s => (Raised (mkExc c msg), s).

Definition modify {S : Type} (f : S -> S) : M S unit := fun s => (Returned tt, f s).

Definition gets {S A : Type} (f : S -> A) : M S A := fun s => (Returned (f s), s).

(** [try: body  except Exception: handler] *)
Definition try_except_Exception {S A : Type} (body handler : M S A) : M S A :=
  fun s =>
    match body s with
    | (Returned a, s') => (Returned a, s')
    | (Raised e, s') =>
        if is_Exception (exc_class e) then handler s' else (Raised e, s')
    end.

(** A result that is already known, as a computation. *)
Definition lift {S A : Type} (o : Outcome A) : M S A := fun s => (o, s).

(** An optional value whose absence is the exception [c]. *)
Definition expect {S A : Type} (c : ExcClass) (msg : string) (o : option A) : M S A :=
  match o with
  | Some a => ret a
  | None => raise c msg
  end.

Declare Scope py_scope.
Delimit Scope py_scope with py.
Notation "x <- m ;; k" := (bind m (fun x => k))
  (at level 61, m at next level, right associativity) : py_scope.
Notation "m ;;; k" := (bind m (fun _ => k))
  (at level 61, right associativity) : py_scope.
Open Scope py_scope.

(** ** The checkpoint weight mapper

    [convert_wav2vec2_original_pytorch_checkpoint_to_pytorch.py] *)

Module Convert.

(** *** Tensors and the destination model *)

(** A tensor is its [shape] (a [torch.Size]) and its elements in row-major
    order; the elements are opaque to the converter. *)
Record Tensor : Type := mkTensor { shape : list nat; storage : list nat }.

Definition numel (dims : list nat) : nat := fold_right Nat.mul 1 dims.

(** [value[0]]: the first slice along dimension 0; [None] stands for the
    [IndexError] of a 0-dim tensor or of an empty first dimension. *)
Definition index0 (t : Tensor) : option Tensor :=
  match shape t with
  | [] => None
  | O :: _ => None
  | S _ :: rest => Some (mkTensor rest (firstn (numel rest) (storage t)))
  end.

Definition shape_eqb (a b : list nat) : bool :=
  if list_eq_dec Nat.eq_dec a b then true else false.

(** [f"{shape}"] for a [torch.Size]. *)
Definition repr_Size (dims : list nat) : string :=
  "torch.Size([" ++ PyStr.join ", " (map PyStr.str_nat dims) ++ "])".

(** [f"{names}"] for a list of parameter names (names hold no quote,
    backslash or control character, so [repr] only wraps them in quotes). *)
Definition repr_list (names : list string) : string :=
  "[" ++ PyStr.join ", " (map (fun n => "'" ++ n ++ "'") names) ++ "]".

(** The destination model is a tree of named attributes whose leaves are
    parameters.  An [nn.ModuleList] registers its items under the names
    ["0"], ["1"], ..., so that [getattr(layers, "3")] and [layers[3]] reach
    the same child. *)
#[warnings="-register-all"] Inductive Obj : Type :=
| Param (t : Tensor)
| Module (attrs : list (string * Obj)).

Fixpoint assoc {A : Type} (k : string) (l : list (string * A)) : option A :=
  match l with
  | [] => None
  | (k', v) :: l' => if String.eqb k k' then Some v else assoc k l'
  end.

(** [d[k] = v] on a dictionary kept in insertion order. *)
Fixpoint assoc_set {A : Type} (k : string) (v : A) (l : list (string * A))
  : list (string * A) :=
  match l with
  | [] => [(k, v)]
  | (k', v') :: l' =>
      if String.eqb k k' then (k', v) :: l' else (k', v') :: assoc_set k v l'
  end.

(** A pointer into the model is the attribute path that leads to it from
    the root, so that two names for one object share its mutations. *)
Definition Path : Type := list string.

Definition child (p : Path) (attribute : string) : Path := (p ++ [attribute])%list.

Fixpoint get_path (o : Obj) (p : Path) : option Obj :=
  match p with
  | [] => Some o
  | a :: p' =>
      match o with
      | Module attrs =>
          match assoc a attrs with
          | Some o' => get_path o' p'
          | None => None
          end
      | Param _ => None
      end
  end.

Fixpoint set_path (o : Obj) (p : Path) (v : Obj) : Obj :=
  match p with
  | [] => v
  | a :: p' =>
      match o with
      | Module attrs =>
          Module ((fix upd (l : list (string * Obj)) : list (string * Obj) :=
                     match l with
                     | [] => []
                     | (k, x) :: l' =>
                         if String.eqb a k then (k, set_path x p' v) :: l'
                         else (k, x) :: upd l'
                     end) attrs)
      | Param t => Param t
      end
  end.

Inductive LogRecord : Type :=
| Info (msg : string)
| Warning (msg : string).

(** Everything the converter reads and mutates. *)
Record State : Type := mkState {
  hf_model : Obj;                        (* the destination model *)
  feat_extract_norm : string;            (* hf_model.config.feat_extract_norm *)
  hf_dict : list (string * Tensor);      (* the destination dictionary, when one is passed *)
  unused_weights : list string;
  logs : list LogRecord
}.

Definition Conv (A : Type) : Type := M State A.

Definition logger_info (msg : string) : Conv unit :=
  modify (fun s => mkState (hf_model s) (feat_extract_norm s) (hf_dict s)
                           (unused_weights s) (logs s ++ [Info msg])%list).

Definition logger_warning (msg : string) : Conv unit :=
  modify (fun s => mkState (hf_model s) (feat_extract_norm s) (hf_dict s)
                           (unused_weights s) (logs s ++ [Warning msg])%list).

(** [unused_weights.append(name)] *)
Definition unused_append (name : string) : Conv unit :=
  modify (fun s => mkState (hf_model s) (feat_extract_norm s) (hf_dict s)
                           (unused_weights s ++ [name])%list (logs s)).

Definition unused_reset : Conv unit :=
  modify (fun s => mkState (hf_model s) (feat_extract_norm s) (hf_dict s)
                           [] (logs s)).

Definition hf_dict_set (k : string) (v : Tensor) : Conv unit :=
  modify (fun s => mkState (hf_model s) (feat_extract_norm s)
                           (assoc_set k v (hf_dict s))
                           (unused_weights s) (logs s)).

(** [getattr(pointer, attribute)] *)
Definition getattr (p : Path) (attribute : string) : Conv Path :=
  fun s =>
    match get_path (hf_model s) (child p attribute) with
    | Some _ => (Returned (child p attribute), s)
    | None => (Raised (mkExc AttributeError attribute), s)
    end.

(** [hasattr(pointer, attribute)] *)
Definition hasattr (p : Path) (attribute : string) : Conv bool :=
  gets (fun s => match get_path (hf_model s) (child p attribute) with
                 | Some _ => true
                 | None => false
                 end).

(** [module_list[i]] *)
Definition getitem (p : Path) (i : nat) : Conv Path :=
  fun s =>
    match get_path (hf_model s) (child p (PyStr.str_nat i)) with
    | Some _ => (Returned (child p (PyStr.str_nat i)), s)
    | None => (Raised (mkExc IndexError (PyStr.str_nat i)), s)
    end.

(** [pointer.shape]; only a parameter has one. *)
Definition shape_of (p : Path) : Conv (list nat) :=
  fun s =>
    match get_path (hf_model s) p with
    | Some (Param t) => (Returned (shape t), s)
    | _ => (Raised (mkExc AttributeError "shape"), s)
    end.

(** [pointer.data = value] *)
Definition set_data (p : Path) (value : Tensor) : Conv unit :=
  modify (fun s => mkState (set_path (hf_model s) p (Param value))
                           (feat_extract_norm s) (hf_dict s)
                           (unused_weights s) (logs s)).

(** Walk a dotted attribute string from a pointer. *)
Fixpoint walk (p : Path) (attributes : list string) : Conv Path :=
  match attributes with
  | [] => ret p
  | a :: rest => p' <- getattr p a ;; walk p' rest
  end.

(** *** The static tables *)

Definition MAPPING : list (string * string) :=
  [ ("post_extract_proj", "feature_projection.projection");
    ("encoder.pos_conv.0", "encoder.pos_conv_embed.conv");
    ("self_attn.k_proj", "encoder.layers.*.attention.k_proj");
    ("self_attn.v_proj", "encoder.layers.*.attention.v_proj");
    ("self_attn.q_proj", "encoder.layers.*.attention.q_proj");
    ("self_attn.out_proj", "encoder.layers.*.attention.out_proj");
    ("self_attn_layer_norm", "encoder.layers.*.layer_norm");
    ("fc1", "encoder.layers.*.feed_forward.intermediate_dense");
    ("fc2", "encoder.layers.*.feed_forward.output_dense");
    ("final_layer_norm", "encoder.layers.*.final_layer_norm");
    ("encoder.layer_norm", "encoder.layer_norm");
    ("adapter_layer", "encoder.layers.*.adapter_layer");
    ("w2v_model.layer_norm", "feature_projection.layer_norm");
    ("quantizer.weight_proj", "quantizer.weight_proj");
    ("quantizer.vars", "quantizer.codevectors");
    ("project_q", "project_q");
    ("final_proj", "project_hid");
    ("w2v_encoder.proj", "lm_head");
    ("mask_emb", "masked_spec_embed");
    ("pooling_layer.linear", "projector");
    ("pooling_layer.projection", "classifier") ].

Definition TOP_LEVEL_KEYS : list string :=
  [ "lm_head"; "quantizer.weight_proj"; "quantizer.codevectors"; "project_q";
    "project_hid"; "projector"; "classifier" ].

Definition PARAM_MAPPING : list (string * string) :=
  [ ("W_a", "linear_1.weight");
    ("W_b", "linear_2.weight");
    ("b_a", "linear_1.bias");
    ("b_b", "linear_2.bias");
    ("ln_W", "norm.weight");
    ("ln_b", "norm.bias") ].

(** *** [set_recursively] and [rename_dict] *)

(** The loop over [PARAM_MAPPING] that both functions open with: every key
    the full name ends with sets [hf_param_name] (from the last dotted
    segment of the name) and turns the weight type into ["param"]. *)
Fixpoint param_mapping_loop (param_keys : list string) (full_name : string)
    (hf_param_name weight_type : option string)
  : Conv (option string * option string) :=
  match param_keys with
  | [] => ret (hf_param_name, weight_type)
  | param_key :: rest =>
      if PyStr.endswith param_key full_name then
        segment <- expect IndexError "" (PyStr.last1 (PyStr.split "." full_name)) ;;
        mapped <- expect KeyError segment (assoc segment PARAM_MAPPING) ;;
        param_mapping_loop rest full_name (Some mapped) (Some "param")
      else param_mapping_loop rest full_name hf_param_name weight_type
  end.

(** [key + '.' + weight_type if weight_type is not None else ''] *)
Definition describe (key : string) (weight_type : option string) : string :=
  match weight_type with
  | Some w => key ++ "." ++ w
  | None => ""
  end.

Definition shape_mismatch_message (key : string) (weight_type : option string)
    (hf_shape value_shape : list nat) (full_name : string) : string :=
  "Shape of hf " ++ describe key weight_type ++ " is " ++ repr_Size hf_shape
  ++ ", but should be " ++ repr_Size value_shape ++ " for " ++ full_name.

(** The [if / elif / else] that finds the destination's shape and, for a
    ["param"], reduces the value to [value[0]]. *)
Definition hf_shape_and_value (hf_pointer : Path) (hf_param_name weight_type : option string)
    (value : Tensor) : Conv (list nat * Tensor) :=
  match weight_type with
  | Some w =>
      if negb (String.eqb w "param") then
        (* [hasattr] has no effect, so both tests are read up front *)
        has_g <- hasattr hf_pointer "weight_g" ;;
        has_v <- hasattr hf_pointer "weight_v" ;;
        if String.eqb w "weight_g" && negb has_g then
          q <- walk hf_pointer ["parametrizations"; "weight"; "original0"] ;;
          hf_shape <- shape_of q ;;
          ret (hf_shape, value)
        else if String.eqb w "weight_v" && negb has_v then
          q <- walk hf_pointer ["parametrizations"; "weight"; "original1"] ;;
          hf_shape <- shape_of q ;;
          ret (hf_shape, value)
        else
          q <- getattr hf_pointer w ;;
          hf_shape <- shape_of q ;;
          ret (hf_shape, value)
      else
        name <- expect AttributeError "split" hf_param_name ;;
        shape_pointer <- walk hf_pointer (PyStr.split "." name) ;;
        hf_shape <- shape_of shape_pointer ;;
        (* let's reduce dimension *)
        value0 <- expect IndexError "" (index0 value) ;;
        ret (hf_shape, value0)
  | None =>
      hf_shape <- shape_of hf_pointer ;;
      ret (hf_shape, value)
  end.

(** The chain of assignments that follows the shape test. *)
Definition assign (hf_pointer : Path) (hf_param_name weight_type : option string)
    (value : Tensor) : Conv unit :=
  match weight_type with
  | Some w =>
      if String.eqb w "weight" then
        q <- getattr hf_pointer "weight" ;; set_data q value
      else if String.eqb w "weight_g" then
        has_g <- hasattr hf_pointer "weight_g" ;;
        if has_g then q <- getattr hf_pointer "weight_g" ;; set_data q value
        else q <- walk hf_pointer ["parametrizations"; "weight"; "original0"] ;;
             set_data q value
      else if String.eqb w "weight_v" then
        has_v <- hasattr hf_pointer "weight_v" ;;
        if has_v then q <- getattr hf_pointer "weight_v" ;; set_data q value
        else q <- walk hf_pointer ["parametrizations"; "weight"; "original1"] ;;
             set_data q value
      else if String.eqb w "bias" then
        q <- getattr hf_pointer "bias" ;; set_data q value
      else if String.eqb w "param" then
        name <- expect AttributeError "split" hf_param_name ;;
        q <- walk hf_pointer (PyStr.split "." name) ;;
        set_data q value
      else set_data hf_pointer value
  | None => set_data hf_pointer value
  end.

Definition set_recursively (key : string) (value : Tensor) (full_name : string)
    (weight_type : option string) (hf_pointer : Path) : Conv unit :=
  hf_pointer <- walk hf_pointer (PyStr.split "." key) ;;
  r <- param_mapping_loop (map fst PARAM_MAPPING) full_name None weight_type ;;
  let hf_param_name := fst r in
  let weight_type := snd r in
  sv <- hf_shape_and_value hf_pointer hf_param_name weight_type value ;;
  let hf_shape := fst sv in
  let value := snd sv in
  if negb (shape_eqb hf_shape (shape value)) then
    raise ValueError (shape_mismatch_message key weight_type hf_shape (shape value) full_name)
  else
    assign hf_pointer hf_param_name weight_type value ;;;
    logger_info (describe key weight_type ++ " was initialized from " ++ full_name ++ ".").

Definition rename_dict (key : string) (value : Tensor) (full_name : string)
    (weight_type : option string) : Conv unit :=
  r <- param_mapping_loop (map fst PARAM_MAPPING) full_name None weight_type ;;
  let hf_param_name := fst r in
  let weight_type := snd r in
  full_key <- match weight_type with
              | Some w =>
                  if negb (String.eqb w "param") then ret (PyStr.join "." [key; w])
                  else
                    name <- expect TypeError "join" hf_param_name ;;
                    ret (PyStr.join "." [key; name])
              | None => ret key
              end ;;
  if PyStr.contains "lm_head" full_key then hf_dict_set full_key value
  else
    value0 <- expect IndexError "" (index0 value) ;;
    hf_dict_set full_key value0.

(** *** [load_wav2vec2_layer] *)

(** [key in name or key.split("w2v_model.")[-1] == name.split(".")[0]] *)
Definition key_matches (key name : string) : bool :=
  PyStr.contains key name
  || match PyStr.last1 (PyStr.split "w2v_model." key), PyStr.first (PyStr.split "." name) with
     | Some a, Some b => String.eqb a b
     | _, _ => false
     end.

(** The chain of [if "weight_g" in name ... elif ...] *)
Definition weight_type_of (name : string) : option string :=
  if PyStr.contains "weight_g" name then Some "weight_g"
  else if PyStr.contains "weight_v" name then Some "weight_v"
  else if PyStr.contains "bias" name then Some "bias"
  else if PyStr.contains "weight" name then Some "weight"
  else None.

(** The [for key, mapped_key in MAPPING.items()] loop; the first entry that
    matches returns from the function.  [use_hf_dict] is [hf_dict is not
    None]; the model that [hf_model] names is the root of the state. *)
Fixpoint load_wav2vec2_layer_loop (items : list (string * string))
    (name : string) (value : Tensor) (use_hf_dict : bool) : Conv bool :=
  match items with
  | [] => ret false
  | (key, mapped_key) :: rest =>
      let mapped_key :=
        if negb (PyStr.mem mapped_key TOP_LEVEL_KEYS) then "wav2vec2." ++ mapped_key
        else mapped_key in
      if key_matches key name then
        mapped_key <-
          (if PyStr.contains "*" mapped_key then
             prefix <- expect IndexError "" (PyStr.first (PyStr.split key name)) ;;
             layer_index <- expect IndexError "" (PyStr.last2 (PyStr.split "." prefix)) ;;
             ret (PyStr.replace "*" layer_index mapped_key)
           else ret mapped_key) ;;
        let weight_type := weight_type_of name in
        (if use_hf_dict then rename_dict mapped_key value name weight_type
         else set_recursively mapped_key value name weight_type []) ;;;
        ret true
      else load_wav2vec2_layer_loop rest name value use_hf_dict
  end.

Definition load_wav2vec2_layer (name : string) (value : Tensor) (use_hf_dict : bool)
  : Conv bool :=
  load_wav2vec2_layer_loop MAPPING name value use_hf_dict.

(** *** [load_conv_layer] *)

(** [feature_extractor.conv_layers[layer_id].<sub>.<which>] *)
Definition conv_slot (feature_extractor : Path) (layer_id : nat) (sub which : string)
  : Conv Path :=
  p <- getattr feature_extractor "conv_layers" ;;
  p <- getitem p layer_id ;;
  p <- getattr p sub ;;
  getattr p which.

Definition size_mismatch_message (full_name : string) (value_shape found : list nat)
  : string :=
  full_name ++ " has size " ++ repr_Size value_shape ++ ", but "
  ++ repr_Size found ++ " was found.".

(** One of the four guarded assignments of [load_conv_layer], which differ
    in the slot ([conv] or [layer_norm], [bias] or [weight]) and in the text
    that is logged. *)
Definition copy_checked (full_name : string) (value : Tensor) (feature_extractor : Path)
    (layer_id : nat) (sub which : string) (info : string) : Conv unit :=
  slot <- conv_slot feature_extractor layer_id sub which ;;
  found <- shape_of slot ;;
  if negb (shape_eqb (shape value) found) then
    raise ValueError (size_mismatch_message full_name (shape value) found)
  else
    set_data slot value ;;;
    logger_info info.

Definition conv_info (layer_id : nat) (full_name : string) : string :=
  "Feat extract conv layer " ++ PyStr.str_nat layer_id
  ++ " was initialized from " ++ full_name ++ ".".

Definition layer_norm_info (layer_id : nat) (full_name : string) : string :=
  "Feat extract layer norm weight of layer " ++ PyStr.str_nat layer_id
  ++ " was initialized from " ++ full_name ++ ".".

(** [name = full_name.split("conv_layers.")[-1]] *)
Definition conv_suffix (full_name : string) : option string :=
  PyStr.last1 (PyStr.split "conv_layers." full_name).

(** [items = name.split(".")] and the two [int(items[...])] conversions, in
    order. *)
Definition conv_indices (name : string) : Outcome (nat * nat) :=
  let items := PyStr.split "." name in
  match nth_error items 0 with
  | None => Raised (mkExc IndexError "")
  | Some item0 =>
      match PyStr.int item0 with
      | None => Raised (mkExc ValueError item0)
      | Some layer_id =>
          match nth_error items 1 with
          | None => Raised (mkExc IndexError "")
          | Some item1 =>
              match PyStr.int item1 with
              | None => Raised (mkExc ValueError item1)
              | Some type_id => Returned (layer_id, type_id)
              end
          end
      end
  end.

(** The body of [if type_id == 0]. *)
Definition conv_assignment (full_name : string) (value : Tensor)
    (feature_extractor : Path) (layer_id : nat) (name : string) : Conv unit :=
  if PyStr.contains "bias" name then
    copy_checked full_name value feature_extractor layer_id "conv" "bias"
                 (conv_info layer_id full_name)
  else if PyStr.contains "weight" name then
    copy_checked full_name value feature_extractor layer_id "conv" "weight"
                 (conv_info layer_id full_name)
  else ret tt.

(** The body of the [elif] on [type_id == 2]. *)
Definition layer_norm_assignment (full_name : string) (value : Tensor)
    (feature_extractor : Path) (layer_id : nat) (name : string) : Conv unit :=
  if PyStr.contains "bias" name then
    copy_checked full_name value feature_extractor layer_id "layer_norm" "bias"
                 (layer_norm_info layer_id full_name)
  else if PyStr.contains "weight" name then
    copy_checked full_name value feature_extractor layer_id "layer_norm" "weight"
                 (layer_norm_info layer_id full_name)
  else ret tt.

Definition load_conv_layer (full_name : string) (value : Tensor)
    (feature_extractor : Path) (use_group_norm : bool) : Conv unit :=
  name <- expect IndexError "" (conv_suffix full_name) ;;
  ids <- lift (conv_indices name) ;;
  let layer_id := fst ids in
  let type_id := snd ids in
  if Nat.eqb type_id 0 then
    conv_assignment full_name value feature_extractor layer_id name
  else if (Nat.eqb type_id 2 && negb use_group_norm)
          || (Nat.eqb type_id 2 && Nat.eqb layer_id 0 && use_group_norm) then
    layer_norm_assignment full_name value feature_extractor layer_id name
  else unused_append full_name.

(** *** [recursively_load_weights] *)

(** The [if "conv_layers" in name ... else ...] of the loop body; the result
    is [is_used]. *)
Definition load_weight (name : string) (value : Tensor) (feature_extractor : Path)
  : Conv bool :=
  if PyStr.contains "conv_layers" name then
    use_group_norm <- gets (fun s => String.eqb (feat_extract_norm s) "group") ;;
    load_conv_layer name value feature_extractor use_group_norm ;;;
    ret true
  else load_wav2vec2_layer name value false.

Definition loop_body (name : string) (value : Tensor) (feature_extractor : Path)
  : Conv unit :=
  is_used <- load_weight name value feature_extractor ;;
  if negb is_used then unused_append name else ret tt.

Fixpoint load_all (fairseq_dict : list (string * Tensor)) (feature_extractor : Path)
  : Conv unit :=
  match fairseq_dict with
  | [] => ret tt
  | (name, value) :: rest =>
      loop_body name value feature_extractor ;;;
      load_all rest feature_extractor
  end.

(** [fairseq_dict] is [fairseq_model.state_dict()], in its order;
    [is_headless] is not read by the function. *)
Definition recursively_load_weights (fairseq_dict : list (string * Tensor))
    (is_headless : bool) : Conv unit :=
  unused_reset ;;;
  feature_extractor <- walk [] ["wav2vec2"; "feature_extractor"] ;;
  load_all fairseq_dict feature_extractor ;;;
  unused <- gets unused_weights ;;
  logger_warning ("Unused weights: " ++ repr_list unused).

(** *** A small destination model, for examples *)

Definition full (dims : list nat) (x : nat) : Tensor :=
  mkTensor dims (repeat x (numel dims)).

Definition weight_and_bias (weight_shape bias_shape : list nat) : Obj :=
  Module [("weight", Param (full weight_shape 0)); ("bias", Param (full bias_shape 0))].

Definition demo_conv_layer : Obj :=
  Module [("conv", weight_and_bias [2; 1; 3] [2]);
          ("layer_norm", weight_and_bias [2] [2])].

Definition demo_model : Obj :=
  Module
    [("wav2vec2",
      Module
        [("feature_extractor",
          Module [("conv_layers", Module [("0", demo_conv_layer); ("1", demo_conv_layer)])]);
         ("encoder",
          Module
            [("layers",
              Module
                [("3",
                  Module
                    [("feed_forward",
                      Module [("intermediate_dense", weight_and_bias [3; 3] [3])]);
                     ("adapter_layer",
                      Module [("linear_1", weight_and_bias [2; 3] [2])])])])]);
         ("masked_spec_embed", Param (full [2] 0))]);
     ("lm_head", weight_and_bias [4; 3] [4])].

(** The model before any weight is loaded; [norm] is
    [config.feat_extract_norm]. *)
Definition demo_state (norm : string) : State := mkState demo_model norm [] [] [].

Definition demo_feature_extractor : Path := ["wav2vec2"; "feature_extractor"].

(** A state dictionary with one parameter that [MAPPING] places and two
    that no rule matches when group normalization is in use. *)
Definition demo_fairseq_dict : list (string * Tensor) :=
  [ ("encoder.layers.3.fc1.weight", full [3; 3] 5);
    ("label_embs_concat", full [2] 1);
    ("feature_extractor.conv_layers.1.2.weight", full [2] 7) ].

End Convert.

(** ** The processor resolver

    [processing_auto.py] *)

Module Auto.

(** *** Collaborators *)

(** The file-name constants imported from [...utils] and
    [...tokenization_utils]. *)
Inductive ConfigFile : Type :=
| PROCESSOR_NAME
| FEATURE_EXTRACTOR_NAME
| VIDEO_PROCESSOR_NAME
| TOKENIZER_CONFIG_FILE.

(** A class is known by its [__name__] and the module that defines it. *)
Record PyClass : Type := mkClass { class_name : string; class_module : string }.

Definition NoneType : PyClass := mkClass "NoneType" "builtins".

(** What a loader hands back: an object of some class, loaded for some
    identifier. *)
Record PyObject : Type := mkObject { object_class : PyClass; loaded_from : string }.

(** The two entries the resolver reads in a config dictionary:
    [config_dict.get("processor_class", None)] and
    [config_dict.get("auto_map", {})]. *)
Record ConfigDict : Type := mkDict {
  dict_processor_class : option string;
  dict_auto_map : list (string * string)
}.

(** A model configuration: [type(config)],
    [getattr(config, "processor_class", None)], and [config.auto_map] when
    [hasattr(config, "auto_map")]. *)
Record PretrainedConfig : Type := mkConfig {
  config_type : PyClass;
  config_processor_class : option string;
  config_auto_map : option (list (string * string))
}.

(** The keyword arguments of [from_pretrained]. *)
Record Kwargs : Type := mkKwargs {
  use_auth_token : option string;
  token : option string;
  config : option PretrainedConfig;      (* [None]: no [config] was passed *)
  trust_remote_code : option bool;
  others : list (string * string)
}.

(** The keyword arguments handed on to the collaborators. *)
Record Passed : Type := mkPassed {
  passed_token : option string;
  passed_others : list (string * string)
}.

(** [kwargs.pop(k, None)] on the remaining options. *)
Definition pop (k : string) (p : Passed) : Passed :=
  mkPassed (passed_token p)
           (filter (fun kv => negb (String.eqb k (fst kv))) (passed_others p)).

(** An imported module, seen through [getattr(module, name)]; [None] is
    [AttributeError]. *)
Definition PyModule : Type := string -> option PyClass.

(** The external collaborators, for one state of the hub, the cache and the
    installed packages.  [PROCESSOR_MAPPING] is a [_LazyAutoMapping], whose
    code is in [auto_factory]; its membership test, its lookup and its
    registered extra classes are taken as given. *)
Record World : Type := mkWorld {
  cached_file : string -> ConfigFile -> Passed -> Outcome (option string);
  get_processor_dict : string -> Passed -> Outcome ConfigDict;
  get_image_processor_dict : string -> Passed -> Outcome ConfigDict;
  get_video_processor_dict : string -> Passed -> Outcome ConfigDict;
  get_feature_extractor_dict : string -> Passed -> Outcome ConfigDict;
  json_load : string -> Outcome ConfigDict;
  AutoConfig_from_pretrained : string -> option bool -> Passed -> Outcome PretrainedConfig;
  model_type_to_module_name : string -> string;
  import_module : string -> Outcome PyModule;
  extra_content : list PyClass;
  main_module : Outcome PyModule;
  mapping_contains : PyClass -> bool;
  mapping_getitem : PyClass -> Outcome PyClass;
  resolve_trust_remote_code :
    option bool -> string -> bool -> bool -> option string -> Outcome bool;
  get_class_from_dynamic_module : string -> string -> Passed -> Outcome PyClass;
  register_for_auto_class : PyClass -> Outcome unit;
  class_from_pretrained :
    PyClass -> string -> option (option bool) -> Passed -> Outcome PyObject;
  AutoTokenizer_from_pretrained : string -> option bool -> Passed -> Outcome PyObject;
  AutoImageProcessor_from_pretrained : string -> option bool -> Passed -> Outcome PyObject;
  AutoFeatureExtractor_from_pretrained : string -> option bool -> Passed -> Outcome PyObject
}.

(** The configuration sources, in the order the function names them. *)
Inductive Source : Type :=
| ProcessorConfig
| PreprocessorConfig
| VideoProcessorConfig
| FeatureExtractorConfig
| TokenizerConfig
| ModelConfig.

(** What a run does, in order: every call to a collaborator, every read of
    a static table, and, at the end of each block that looks at a
    configuration source, the source and the class name it declared. *)
Inductive Event : Type :=
| Warn (msg : string)
| CachedFile (f : ConfigFile)
| GetProcessorDict
| GetImageProcessorDict
| GetVideoProcessorDict
| GetFeatureExtractorDict
| JsonLoad (path : string)
| AutoConfigFromPretrained
| Consulted (src : Source) (declared : option string)
| NamesItems                               (* PROCESSOR_MAPPING_NAMES.items() *)
| ImportModule (name : string)
| ExtraContentValues                       (* PROCESSOR_MAPPING._extra_content.values() *)
| ImportMain
| MappingContains (c : PyClass)            (* type(config) in PROCESSOR_MAPPING *)
| MappingGetitem (c : PyClass)             (* PROCESSOR_MAPPING[type(config)] *)
| ResolveTrust
| GetClassFromDynamicModule (reference : string)
| RegisterForAutoClass (c : PyClass)
| ClassFromPretrained (c : PyClass)
| AutoTokenizerFromPretrained
| AutoImageProcessorFromPretrained
| AutoFeatureExtractorFromPretrained.

Definition Trace : Type := list Event.

Definition Res (A : Type) : Type := M Trace A.

Definition emit (ev : Event) : Res unit := modify (fun tr => (tr ++ [ev])%list).

(** A call to a collaborator: it is recorded, then it returns or raises. *)
Definition call {A : Type} (ev : Event) (o : Outcome A) : Res A :=
  emit ev ;;; (fun tr => (o, tr)).

(** *** The static table *)

Definition PROCESSOR_MAPPING_NAMES : list (string * string) :=
  [
    ("aimv2", "CLIPProcessor");
    ("align", "AlignProcessor");
    ("altclip", "AltCLIPProcessor");
    ("aria", "AriaProcessor");
    ("aya_vision", "AyaVisionProcessor");
    ("bark", "BarkProcessor");
    ("blip", "BlipProcessor");
    ("blip-2", "Blip2Processor");
    ("bridgetower", "BridgeTowerProcessor");
    ("chameleon", "ChameleonProcessor");
    ("chinese_clip", "ChineseCLIPProcessor");
    ("clap", "ClapProcessor");
    ("clip", "CLIPProcessor");
    ("clipseg", "CLIPSegProcessor");
    ("clvp", "ClvpProcessor");
    ("colpali", "ColPaliProcessor");
    ("colqwen2", "ColQwen2Processor");
    ("deepseek_vl", "DeepseekVLProcessor");
    ("deepseek_vl_hybrid", "DeepseekVLHybridProcessor");
    ("dia", "DiaProcessor");
    ("emu3", "Emu3Processor");
    ("evolla", "EvollaProcessor");
    ("flava", "FlavaProcessor");
    ("fuyu", "FuyuProcessor");
    ("gemma3", "Gemma3Processor");
    ("gemma3n", "Gemma3nProcessor");
    ("git", "GitProcessor");
    ("glm4v", "Glm4vProcessor");
    ("got_ocr2", "GotOcr2Processor");
    ("granite_speech", "GraniteSpeechProcessor");
    ("grounding-dino", "GroundingDinoProcessor");
    ("groupvit", "CLIPProcessor");
    ("hubert", "Wav2Vec2Processor");
    ("idefics", "IdeficsProcessor");
    ("idefics2", "Idefics2Processor");
    ("idefics3", "Idefics3Processor");
    ("instructblip", "InstructBlipProcessor");
    ("instructblipvideo", "InstructBlipVideoProcessor");
    ("internvl", "InternVLProcessor");
    ("janus", "JanusProcessor");
    ("kosmos-2", "Kosmos2Processor");
    ("kyutai_speech_to_text", "KyutaiSpeechToTextProcessor");
    ("layoutlmv2", "LayoutLMv2Processor");
    ("layoutlmv3", "LayoutLMv3Processor");
    ("llama4", "Llama4Processor");
    ("llava", "LlavaProcessor");
    ("llava_next", "LlavaNextProcessor");
    ("llava_next_video", "LlavaNextVideoProcessor");
    ("llava_onevision", "LlavaOnevisionProcessor");
    ("markuplm", "MarkupLMProcessor");
    ("mctct", "MCTCTProcessor");
    ("mgp-str", "MgpstrProcessor");
    ("mistral3", "PixtralProcessor");
    ("mllama", "MllamaProcessor");
    ("moonshine", "Wav2Vec2Processor");
    ("oneformer", "OneFormerProcessor");
    ("owlv2", "Owlv2Processor");
    ("owlvit", "OwlViTProcessor");
    ("paligemma", "PaliGemmaProcessor");
    ("perception_lm", "PerceptionLMProcessor");
    ("phi4_multimodal", "Phi4MultimodalProcessor");
    ("pix2struct", "Pix2StructProcessor");
    ("pixtral", "PixtralProcessor");
    ("pop2piano", "Pop2PianoProcessor");
    ("qwen2_5_omni", "Qwen2_5OmniProcessor");
    ("qwen2_5_vl", "Qwen2_5_VLProcessor");
    ("qwen2_audio", "Qwen2AudioProcessor");
    ("qwen2_vl", "Qwen2VLProcessor");
    ("sam", "SamProcessor");
    ("sam_hq", "SamHQProcessor");
    ("seamless_m4t", "SeamlessM4TProcessor");
    ("sew", "Wav2Vec2Processor");
    ("sew-d", "Wav2Vec2Processor");
    ("shieldgemma2", "ShieldGemma2Processor");
    ("siglip", "SiglipProcessor");
    ("siglip2", "Siglip2Processor");
    ("smolvlm", "SmolVLMProcessor");
    ("speech_to_text", "Speech2TextProcessor");
    ("speech_to_text_2", "Speech2Text2Processor");
    ("speecht5", "SpeechT5Processor");
    ("trocr", "TrOCRProcessor");
    ("tvlt", "TvltProcessor");
    ("tvp", "TvpProcessor");
    ("udop", "UdopProcessor");
    ("unispeech", "Wav2Vec2Processor");
    ("unispeech-sat", "Wav2Vec2Processor");
    ("video_llava", "VideoLlavaProcessor");
    ("vilt", "ViltProcessor");
    ("vipllava", "LlavaProcessor");
    ("vision-text-dual-encoder", "VisionTextDualEncoderProcessor");
    ("voxtral", "VoxtralProcessor");
    ("wav2vec2", "Wav2Vec2Processor");
    ("wav2vec2-bert", "Wav2Vec2Processor");
    ("wav2vec2-conformer", "Wav2Vec2Processor");
    ("wavlm", "Wav2Vec2Processor");
    ("whisper", "WhisperProcessor");
    ("xclip", "XCLIPProcessor") ].

(** *** [processor_class_from_name] *)

(** The first loop: every entry whose class name contains [class_name]
    ([in] on two strings) has its module imported; an [AttributeError] on
    [getattr] moves on to the next entry. *)
Fixpoint names_loop (w : World) (items : list (string * string)) (class_name : string)
  : Res (option PyClass) :=
  match items with
  | [] => ret None
  | (module_name, processors) :: rest =>
      if PyStr.contains class_name processors then
        let module_name := model_type_to_module_name w module_name in
        module <- call (ImportModule module_name) (import_module w module_name) ;;
        match module class_name with
        | Some c => ret (Some c)
        | None => names_loop w rest class_name
        end
      else names_loop w rest class_name
  end.

Definition processor_class_from_name (w : World) (class_name : string)
  : Res (option PyClass) :=
  emit NamesItems ;;;
  found <- names_loop w PROCESSOR_MAPPING_NAMES class_name ;;
  match found with
  | Some c => ret (Some c)
  | None =>
      emit ExtraContentValues ;;;
      match List.find (fun c => String.eqb (Auto.class_name c) class_name) (extra_content w) with
      | Some c => ret (Some c)
      | None =>
          (* maybe a dependency is missing: look in the main init *)
          main <- call ImportMain (main_module w) ;;
          ret (main class_name)
      end
  end.

(** *** [AutoProcessor.__init__] *)

Definition init_message : string :=
  "AutoProcessor is designed to be instantiated "
  ++ "using the `AutoProcessor.from_pretrained(pretrained_model_name_or_path)` method.".

(** The body of [__init__(self)]. *)
Definition AutoProcessor_init : Res unit := raise OSError init_message.

Definition AutoProcessor : PyClass :=
  mkClass "AutoProcessor" "transformers.models.auto.processing_auto".

(** [AutoProcessor()]: the new object is handed to [__init__] and is the
    value of the call only when [__init__] returns. *)
Definition AutoProcessor_new : Res PyObject :=
  AutoProcessor_init ;;; ret (mkObject AutoProcessor "").

(** *** [AutoProcessor.from_pretrained] *)

(** The two local variables the probes fill in. *)
Record Found : Type := mkFound {
  processor_class : option string;
  processor_auto_map : option string
}.

(** [processor_class = config_dict.get("processor_class", None)], then
    [processor_auto_map] when ["AutoProcessor" in config_dict.get("auto_map", {})]. *)
Definition extract (config_dict : ConfigDict) (v : Found) : Found :=
  mkFound (dict_processor_class config_dict)
          (match Convert.assoc "AutoProcessor" (dict_auto_map config_dict) with
           | Some reference => Some reference
           | None => processor_auto_map v
           end).

Definition deprecation_message : string :=
  "The `use_auth_token` argument is deprecated and will be removed in v5 of Transformers. Please use `token` instead.".

Definition both_tokens_message : string :=
  "`token` and `use_auth_token` are both specified. Please set only the argument `token`.".

(** The handling of [use_auth_token]; the result is [kwargs] as the
    collaborators will see it. *)
Definition prelude (kwargs : Kwargs) : Res Passed :=
  match use_auth_token kwargs with
  | Some t =>
      emit (Warn deprecation_message) ;;;
      match token kwargs with
      | Some _ => raise ValueError both_tokens_message
      | None => ret (mkPassed (Some t) (others kwargs))
      end
  | None => ret (mkPassed (token kwargs) (others kwargs))
  end.

(** [processor_auto_map.split("--")[0]] when ["--"] is in the reference,
    else [None]. *)
Definition upstream_repo (processor_auto_map : string) : option string :=
  if PyStr.contains "--" processor_auto_map
  then PyStr.first (PyStr.split "--" processor_auto_map)
  else None.

Section Probes.

Variable w : World.
Variable pretrained_model_name_or_path : string.
Variable kwargs : Passed.

(** First, a processor config. *)
Definition probe_processor_config (v : Found) : Res Found :=
  processor_config_file <-
    call (CachedFile PROCESSOR_NAME)
         (cached_file w pretrained_model_name_or_path PROCESSOR_NAME kwargs) ;;
  v <- match processor_config_file with
       | Some _ =>
           config_dict <- call GetProcessorDict
                               (get_processor_dict w pretrained_model_name_or_path kwargs) ;;
           ret (extract config_dict v)
       | None => ret v
       end ;;
  emit (Consulted ProcessorConfig (processor_class v)) ;;;
  ret v.

(** The block under the first [if processor_class is None]: an image
    processor config, then, while [preprocessor_config_file] is still
    [None], a video processor config and a feature extractor config. *)
Definition probe_preprocessor_configs (v : Found) : Res Found :=
  preprocessor_config_file <-
    call (CachedFile FEATURE_EXTRACTOR_NAME)
         (cached_file w pretrained_model_name_or_path FEATURE_EXTRACTOR_NAME kwargs) ;;
  v <- match preprocessor_config_file with
       | Some _ =>
           config_dict <- call GetImageProcessorDict
                               (get_image_processor_dict w pretrained_model_name_or_path kwargs) ;;
           ret (extract config_dict v)
       | None => ret v
       end ;;
  emit (Consulted PreprocessorConfig (processor_class v)) ;;;
  (* Saved as video processor *)
  r <- match preprocessor_config_file with
       | None =>
           preprocessor_config_file <-
             call (CachedFile VIDEO_PROCESSOR_NAME)
                  (cached_file w pretrained_model_name_or_path VIDEO_PROCESSOR_NAME kwargs) ;;
           v <- match preprocessor_config_file with
                | Some _ =>
                    config_dict <- call GetVideoProcessorDict
                                        (get_video_processor_dict w pretrained_model_name_or_path kwargs) ;;
                    ret (extract config_dict v)
                | None => ret v
                end ;;
           emit (Consulted VideoProcessorConfig (processor_class v)) ;;;
           ret (preprocessor_config_file, v)
       | Some _ => ret (preprocessor_config_file, v)
       end ;;
  let preprocessor_config_file := fst r in
  let v := snd r in
  (* Saved as feature extractor *)
  match preprocessor_config_file with
  | None =>
      preprocessor_config_file <-
        call (CachedFile FEATURE_EXTRACTOR_NAME)
             (cached_file w pretrained_model_name_or_path FEATURE_EXTRACTOR_NAME kwargs) ;;
      v <- match preprocessor_config_file, processor_class v with
           | Some _, None =>
               config_dict <- call GetFeatureExtractorDict
                                   (get_feature_extractor_dict w pretrained_model_name_or_path kwargs) ;;
               ret (extract config_dict v)
           | _, _ => ret v
           end ;;
      emit (Consulted FeatureExtractorConfig (processor_class v)) ;;;
      ret v
  | Some _ => ret v
  end.

(** Next, a tokenizer config, read with [json.load]. *)
Definition probe_tokenizer_config (v : Found) : Res Found :=
  tokenizer_config_file <-
    call (CachedFile TOKENIZER_CONFIG_FILE)
         (cached_file w pretrained_model_name_or_path TOKENIZER_CONFIG_FILE kwargs) ;;
  v <- match tokenizer_config_file with
       | Some path =>
           config_dict <- call (JsonLoad path) (json_load w path) ;;
           ret (extract config_dict v)
       | None => ret v
       end ;;
  emit (Consulted TokenizerConfig (processor_class v)) ;;;
  ret v.

(** Otherwise, the model configuration, loaded unless one was passed. *)
Definition probe_model_config (config : option PretrainedConfig)
    (trust_remote_code : option bool) (v : Found)
  : Res (option PretrainedConfig * Found) :=
  config <- match config with
            | Some c => ret c
            | None =>
                call AutoConfigFromPretrained
                     (AutoConfig_from_pretrained w pretrained_model_name_or_path
                                                 trust_remote_code kwargs)
            end ;;
  let v := mkFound (config_processor_class config)
                   (match config_auto_map config with
                    | Some auto_map =>
                        match Convert.assoc "AutoProcessor" auto_map with
                        | Some reference => Some reference
                        | None => processor_auto_map v
                        end
                    | None => processor_auto_map v
                    end) in
  emit (Consulted ModelConfig (processor_class v)) ;;;
  ret (Some config, v).

(** All the probes, from [processor_class = None] down to the last
    [if processor_class is None]. *)
Definition probe_sources (config : option PretrainedConfig)
    (trust_remote_code : option bool)
  : Res (option PretrainedConfig * Found) :=
  v <- probe_processor_config (mkFound None None) ;;
  v <- match processor_class v with
       | None => probe_preprocessor_configs v
       | Some _ => ret v
       end ;;
  v <- match processor_class v with
       | None => probe_tokenizer_config v
       | Some _ => ret v
       end ;;
  match processor_class v with
  | None => probe_model_config config trust_remote_code v
  | Some _ => ret (config, v)
  end.

Definition type_of (config : option PretrainedConfig) : PyClass :=
  match config with
  | Some c => config_type c
  | None => NoneType
  end.

Definition unrecognized_message : string :=
  "Unrecognized processing class in " ++ pretrained_model_name_or_path
  ++ ". Can't instantiate a processor, a "
  ++ "tokenizer, an image processor or a feature extractor for this model. Make sure the repository contains "
  ++ "the files of at least one of those processing classes.".

(** The last resort: a tokenizer, then an image processor, then a feature
    extractor, and the error when none loads. *)
Definition last_resort (trust_remote_code : option bool) : Res PyObject :=
  try_except_Exception
    (call AutoTokenizerFromPretrained
          (AutoTokenizer_from_pretrained w pretrained_model_name_or_path trust_remote_code kwargs))
    (try_except_Exception
       (call AutoImageProcessorFromPretrained
             (AutoImageProcessor_from_pretrained w pretrained_model_name_or_path
                                                 trust_remote_code kwargs))
       (try_except_Exception
          (call AutoFeatureExtractorFromPretrained
                (AutoFeatureExtractor_from_pretrained w pretrained_model_name_or_path
                                                      trust_remote_code kwargs))
          (raise ValueError unrecognized_message))).

(** From [if processor_class is not None] to the end of the function. *)
Definition dispatch (config : option PretrainedConfig) (trust_remote_code : option bool)
    (v : Found) : Res PyObject :=
  processor_class <- match processor_class v with
                     | Some name => processor_class_from_name w name
                     | None => ret None
                     end ;;
  let has_remote_code := match processor_auto_map v with Some _ => true | None => false end in
  has_local_code <- match processor_class with
                    | Some _ => ret true
                    | None =>
                        emit (MappingContains (type_of config)) ;;;
                        ret (mapping_contains w (type_of config))
                    end ;;
  trust_remote_code <-
    match processor_auto_map v with
    | Some reference =>
        resolved <- call ResolveTrust
                         (resolve_trust_remote_code w trust_remote_code
                            pretrained_model_name_or_path has_local_code has_remote_code
                            (upstream_repo reference)) ;;
        ret (Some resolved)
    | None => ret trust_remote_code
    end ;;
  match processor_auto_map v, trust_remote_code with
  | Some reference, Some true =>
      processor_class <-
        call (GetClassFromDynamicModule reference)
             (get_class_from_dynamic_module w reference pretrained_model_name_or_path kwargs) ;;
      let kwargs := pop "code_revision" kwargs in
      call (RegisterForAutoClass processor_class)
           (register_for_auto_class w processor_class) ;;;
      call (ClassFromPretrained processor_class)
           (class_from_pretrained w processor_class pretrained_model_name_or_path
                                  (Some trust_remote_code) kwargs)
  | _, _ =>
      match processor_class with
      | Some c =>
          call (ClassFromPretrained c)
               (class_from_pretrained w c pretrained_model_name_or_path
                                      (Some trust_remote_code) kwargs)
      | None =>
          (* Last try: we use the PROCESSOR_MAPPING. *)
          emit (MappingContains (type_of config)) ;;;
          if mapping_contains w (type_of config) then
            c <- call (MappingGetitem (type_of config)) (mapping_getitem w (type_of config)) ;;
            call (ClassFromPretrained c)
                 (class_from_pretrained w c pretrained_model_name_or_path None kwargs)
          else last_resort trust_remote_code
      end
  end.

End Probes.

Definition from_pretrained (w : World) (pretrained_model_name_or_path : string)
    (kwargs : Kwargs) : Res PyObject :=
  passed <- prelude kwargs ;;
  r <- probe_sources w pretrained_model_name_or_path passed
                     (config kwargs) (trust_remote_code kwargs) ;;
  dispatch w pretrained_model_name_or_path passed (fst r) (trust_remote_code kwargs) (snd r).

End Auto.


(** ** Notions used in the statements *)

(** A computation keeps a relation between the state it starts in and the
    state it ends in, however it ends. *)
Definition keeps {S A : Type} (R : S -> S -> Prop) (m : M S A) : Prop :=
  forall s r s', m s = (r, s') -> R s s'.

Module ConvertSpec.

Import Convert.

(** What the weight loaders may do to the bookkeeping: the normalization
    setting stays, and both the unused weights and the log are only
    appended to, the log with [Info] records. *)
Definition grows (s s' : State) : Prop :=
  feat_extract_norm s' = feat_extract_norm s
  /\ (exists more, unused_weights s' = (unused_weights s ++ more)%list)
  /\ (exists infos, logs s' = (logs s ++ map Info infos)%list).


(** The entry of [MAPPING] that wins for a name: the first whose key
    matches. *)
Definition first_match (name : string) : option (string * string) :=
  List.find (fun entry => key_matches (fst entry) name) MAPPING.

(** A source name resolves to the destination path [key] when
    [load_wav2vec2_layer] hands the value on under that key, to
    [set_recursively] from the root of the model or to [rename_dict], and
    reports the parameter as used. *)
Definition resolves_to (name key : string) : Prop :=
  forall value use_hf_dict,
    load_wav2vec2_layer name value use_hf_dict
    = ((if use_hf_dict then rename_dict key value name (weight_type_of name)
        else set_recursively key value name (weight_type_of name) []) ;;;
       ret true).

(** The slot that [load_conv_layer] writes for a parameter with the given
    indices: [conv] or [layer_norm], [bias] or [weight]; [None] when it
    writes none. *)
Definition conv_target (use_group_norm : bool) (name : string) (layer_id type_id : nat)
  : option (string * string) :=
  let which :=
    if PyStr.contains "bias" name then Some "bias"
    else if PyStr.contains "weight" name then Some "weight"
    else None in
  if Nat.eqb type_id 0 then option_map (pair "conv") which
  else if Nat.eqb type_id 2 && (negb use_group_norm || Nat.eqb layer_id 0)
       then option_map (pair "layer_norm") which
       else None.


End ConvertSpec.

Module AutoSpec.

Import Auto.

(** The sources a run has consulted, in order, each with the class name it
    declared. *)
Definition consulted (tr : Trace) : list (Source * option string) :=
  flat_map (fun ev => match ev with
                      | Consulted src declared => [(src, declared)]
                      | _ => []
                      end) tr.

(** A computation is framed when the trace it starts from only sits in
    front of what it records: its result and its new events are those of a
    run from the empty trace. *)
Definition framed {A : Type} (m : Res A) : Prop :=
  forall tr0, m tr0 = (fst (m []), (tr0 ++ snd (m []))%list).

(** Two traces that an observation does not tell apart, and an event
    that the observation does not see. *)
Definition unseen {X : Type} (obs : Trace -> X) (tr tr' : Trace) : Prop :=
  obs tr' = obs tr.

Definition silent {X : Type} (obs : Trace -> X) (ev : Event) : Prop :=
  forall tr, obs (tr ++ [ev])%list = obs tr.








(** The two phases before [dispatch] went through: the keyword arguments
    were accepted and the probes returned [found] (and the configuration
    [cfg], when it was loaded or passed), leaving the trace [tr]. *)
Definition probed (w : World) (pretrained_model_name_or_path : string) (kwargs : Kwargs)
    (passed : Passed) (cfg : option PretrainedConfig) (found : Found) (tr : Trace) : Prop :=
  exists tr0,
    prelude kwargs [] = (Returned passed, tr0)
    /\ probe_sources w pretrained_model_name_or_path passed
                     (config kwargs) (trust_remote_code kwargs) tr0
       = (Returned (cfg, found), tr).

(** Remote code does not apply: none is declared, or the trust policy
    answers no. *)
Definition no_remote_code (w : World) (pretrained_model_name_or_path : string)
    (trust : option bool) (has_local_code : bool) (reference : option string) : Prop :=
  match reference with
  | None => True
  | Some r =>
      resolve_trust_remote_code w trust pretrained_model_name_or_path has_local_code true
                                (upstream_repo r)
      = Returned false
  end.

(** [trust_remote_code] as the loaders receive it: the answer of the
    policy when remote code is declared, else the keyword argument. *)
Definition effective_trust (trust : option bool) (reference : option string) : option bool :=
  match reference with
  | None => trust
  | Some _ => Some false
  end.

(** What [dispatch] records on its way to the last resort: the two
    membership tests on [PROCESSOR_MAPPING] and, between them, the call of
    the trust policy when remote code is declared. *)
Definition before_last_resort (cfg : option PretrainedConfig) (reference : option string)
  : Trace :=
  ([MappingContains (type_of cfg)]
   ++ match reference with
      | Some _ => [ResolveTrust]
      | None => []
      end
   ++ [MappingContains (type_of cfg)])%list.

(** A loader fails when it raises an [Exception]. *)
Definition fails {A : Type} (o : Outcome A) : Prop :=
  exists e, o = Raised e /\ is_Exception (exc_class e) = true.



Definition Wav2Vec2Config : PretrainedConfig :=
  mkConfig (mkClass "Wav2Vec2Config" "transformers.models.wav2vec2.configuration_wav2vec2")
           (Some "Wav2Vec2Processor") None.

(** *** Worlds for examples *)

Definition not_found {A : Type} : Outcome A := Raised (mkExc OSError "not found").

(** A world given by the files in the repository, the processor config,
    the model configuration, the modules of the library and the three
    fallback loaders; every class loads from any identifier. *)
Definition demo_world (files : ConfigFile -> option string)
    (processor_dict : Outcome ConfigDict) (model_config : Outcome PretrainedConfig)
    (modules : string -> PyModule)
    (tokenizer image_processor feature_extractor : Outcome PyObject) : World :=
  mkWorld
    (fun _ f _ => Returned (files f))
    (fun _ _ => processor_dict)
    (fun _ _ => not_found)
    (fun _ _ => not_found)
    (fun _ _ => not_found)
    (fun _ => not_found)
    (fun _ _ _ => model_config)
    (PyStr.replace "-" "_")
    (fun name => Returned (modules name))
    []
    (Returned (fun _ => None))
    (fun _ => false)
    (fun _ => not_found)
    (fun trust _ _ _ _ => Returned (match trust with Some true => true | _ => false end))
    (fun reference _ _ => Returned (mkClass reference "transformers_modules"))
    (fun _ => Returned tt)
    (fun c identifier _ _ => Returned (mkObject c identifier))
    (fun _ _ _ => tokenizer)
    (fun _ _ _ => image_processor)
    (fun _ _ _ => feature_extractor).

Definition no_kwargs : Kwargs := mkKwargs None None None None [].

Definition Wav2Vec2Processor : PyClass :=
  mkClass "Wav2Vec2Processor" "transformers.models.wav2vec2.processing_wav2vec2".

(** The modules of the library, as far as the examples go: only
    [wav2vec2] defines [Wav2Vec2Processor]. *)
Definition library (module_name : string) : PyModule :=
  fun attribute =>
    if String.eqb module_name "wav2vec2" && String.eqb attribute "Wav2Vec2Processor"
    then Some Wav2Vec2Processor
    else None.

Definition only_processor_config (f : ConfigFile) : option string :=
  match f with
  | PROCESSOR_NAME => Some "processor_config.json"
  | _ => None
  end.

(** A repository whose processor config declares [Wav2Vec2Processor]. *)
Definition wav2vec2_repo : World :=
  demo_world only_processor_config
             (Returned (mkDict (Some "Wav2Vec2Processor") []))
             not_found library not_found not_found not_found.

(** The same, with a reference to remote code next to the class name. *)
Definition wav2vec2_repo_with_remote_code : World :=
  demo_world only_processor_config
             (Returned (mkDict (Some "Wav2Vec2Processor")
                               [("AutoProcessor", "processing_custom.CustomProcessor")]))
             not_found library not_found not_found not_found.


Definition CustomProcessor : PyClass :=
  mkClass "processing_custom.CustomProcessor" "transformers_modules".

Definition ViTImageProcessor : PyClass :=
  mkClass "ViTImageProcessor" "transformers.models.vit.image_processing_vit".

Definition UnknownConfig : PretrainedConfig :=
  mkConfig (mkClass "UnknownConfig" "configuration_unknown") None None.

(** A repository with a model configuration of an unmapped type and no
    other config file, and what the three fallback loaders do with it. *)
Definition bare_repo (tokenizer image_processor feature_extractor : Outcome PyObject)
  : World :=
  demo_world (fun _ => None) not_found (Returned UnknownConfig) library
             tokenizer image_processor feature_extractor.

End AutoSpec.

(** ** More of the converter *)

Module ConvertMore.

Import Convert.

(** *** [read_txt_into_dict] *)

(** [c.isspace()] for an ASCII character: tab, line feed, vertical tab,
    form feed, carriage return, the four separators 28 to 31, and the
    space.  (The label files are ASCII text; characters beyond ASCII are not
    represented.) *)
Definition is_space (c : ascii) : bool :=
  let n := nat_of_ascii c in
  ((9 <=? n)%nat && (n <=? 13)%nat) || ((28 <=? n)%nat && (n <=? 32)%nat).

(** [s.lstrip()] *)
Fixpoint lstrip (s : string) : string :=
  match s with
  | EmptyString => EmptyString
  | String c s' => if is_space c then lstrip s' else s
  end.

(** [s.rstrip()] *)
Fixpoint rstrip (s : string) : string :=
  match s with
  | EmptyString => EmptyString
  | String c s' =>
      match rstrip s' with
      | EmptyString => if is_space c then EmptyString else String c EmptyString
      | r => String c r
      end
  end.

(** [s.strip()] *)
Definition strip (s : string) : string := rstrip (lstrip s).

(** The words of [s] together with whether [s] begins inside a word. *)
Fixpoint words_from (s : string) : bool * list string :=
  match s with
  | EmptyString => (false, [])
  | String c s' =>
      let r := words_from s' in
      if is_space c then (false, snd r)
      else if fst r then (true, PyStr.cons_head c (snd r))
           else (true, String c EmptyString :: snd r)
  end.

(** [s.split()]: the runs of characters that are not white space. *)
Definition split_words (s : string) : list string := snd (words_from s).

(** The body of the loop over [enumerate(file)], from line [line_number]
    on; [lines] are the lines as the file yields them. *)
Fixpoint read_lines (line_number : nat) (lines : list string)
    (result : list (nat * string)) : Outcome (list (nat * string)) :=
  match lines with
  | [] => Returned result
  | line :: rest =>
      let line := strip line in
      match line with
      | EmptyString => read_lines (S line_number) rest result
      | _ =>
          match split_words line with
          | [] => Raised (mkExc IndexError "")
          | value :: _ =>
              (* [result[key] = value]: the key is new, so it goes last *)
              read_lines (S line_number) rest (result ++ [(line_number, value)])%list
          end
      end
  end.

(** [read_txt_into_dict(filename)], given the lines of the file. *)
Definition read_txt_into_dict (lines : list string) : Outcome (list (nat * string)) :=
  read_lines 0 lines [].

(** *** Notions used in the statements *)

(** A line that holds nothing but white space. *)
Definition blank (line : string) : bool :=
  match strip line with
  | EmptyString => true
  | _ => false
  end.

Fixpoint no_space (s : string) : bool :=
  match s with
  | EmptyString => true
  | String c s' => negb (is_space c) && no_space s'
  end.

(** The value stored for a key in a dictionary with integer keys. *)
Fixpoint lookup (k : nat) (d : list (nat * string)) : option string :=
  match d with
  | [] => None
  | (k', v) :: d' => if Nat.eqb k k' then Some v else lookup k d'
  end.

(** The model with its tensors emptied: what attributes there are, and the
    shape of every parameter. *)
Fixpoint skeleton (o : Obj) : Obj :=
  match o with
  | Param t => Param (mkTensor (shape t) [])
  | Module attrs =>
      Module ((fix each (l : list (string * Obj)) : list (string * Obj) :=
                 match l with
                 | [] => []
                 | (k, x) :: l' => (k, skeleton x) :: each l'
                 end) attrs)
  end.

Definition same_skeleton (s s' : State) : Prop :=
  skeleton (hf_model s') = skeleton (hf_model s).

(** The state apart from the model and the log: the normalization
    setting, the destination dictionary and the unused weights. *)
Definition same_bookkeeping (s s' : State) : Prop :=
  feat_extract_norm s' = feat_extract_norm s
  /\ hf_dict s' = hf_dict s
  /\ unused_weights s' = unused_weights s.

(** [s'] is [s] after one parameter of the model, of the shape of [v], has
    been given the data of [v] and one record has been logged. *)
Definition written (s s' : State) (v : Tensor) (info : string) : Prop :=
  exists q t,
    get_path (hf_model s) q = Some (Param t)
    /\ shape t = shape v
    /\ s' = mkState (set_path (hf_model s) q (Param v))
                    (feat_extract_norm s) (hf_dict s) (unused_weights s)
                    (logs s ++ [Info info])%list.

(** The ways one parameter can go through the loop body: it raises and
    the state is as it was; or it returns and the state is as it was, or has
    the name as one more unused weight, or has one parameter written. *)
Definition one_parameter (name : string) (value : Tensor) (s : State)
    (r : Outcome unit) (s' : State) : Prop :=
  (exists e, r = Raised e /\ s' = s)
  \/ (r = Returned tt
      /\ (s' = s
          \/ unused_append name s = (Returned tt, s')
          \/ exists v' info, (v' = value \/ index0 value = Some v') /\ written s s' v' info)).

(** The weight types that [load_wav2vec2_layer] hands on. *)
Definition known_weight_type (w : option string) : Prop :=
  w = None \/ w = Some "weight" \/ w = Some "bias"
  \/ w = Some "weight_g" \/ w = Some "weight_v".

(** [l] is [l'] with some elements left out. *)
Inductive sublist {A : Type} : list A -> list A -> Prop :=
| sublist_nil : sublist [] []
| sublist_skip x l l' : sublist l l' -> sublist l (x :: l')
| sublist_keep x l l' : sublist l l' -> sublist (x :: l) (x :: l').

(** The mapped key as [load_wav2vec2_layer] prefixes it. *)
Definition prefixed (mapped_key : string) : string :=
  if negb (PyStr.mem mapped_key TOP_LEVEL_KEYS) then "wav2vec2." ++ mapped_key
  else mapped_key.

(** [name.split(key)[0]]: the text before the first [key], or the whole
    name when [key] is not in it. *)
Definition text_before (key name : string) : string :=
  match PyStr.find key name with
  | Some n => PyStr.take n name
  | None => name
  end.

(** Some key of [PARAM_MAPPING] ends the name. *)
Definition param_suffix (full_name : string) : bool :=
  existsb (fun param_key => PyStr.endswith param_key full_name) (map fst PARAM_MAPPING).

(** The key under which [rename_dict] stores a value whose name has no
    [PARAM_MAPPING] suffix. *)
Definition full_key (key : string) (weight_type : option string) : string :=
  match weight_type with
  | Some w => key ++ "." ++ w
  | None => key
  end.

(** Where a weight-norm parameter lives in a module that has it under
    [parametrizations.weight]. *)
Definition original (weight_type : string) : option string :=
  if String.eqb weight_type "weight_g" then Some "original0"
  else if String.eqb weight_type "weight_v" then Some "original1"
  else None.

(** A model whose positional convolution carries its weight norm under
    [parametrizations.weight], as [nn.utils.parametrizations.weight_norm]
    leaves it. *)
Definition demo_pos_conv_model : Obj :=
  Module
    [("wav2vec2",
      Module
        [("encoder",
          Module
            [("pos_conv_embed",
              Module
                [("conv",
                  Module
                    [("bias", Param (full [4] 0));
                     ("parametrizations",
                      Module
                        [("weight",
                          Module [("original0", Param (full [1; 1; 2] 0));
                                  ("original1", Param (full [4; 2; 2] 0))])])])])])])].

(** The entries that the lines from [line_number] on add: the first word of
    every line that has one, under the number of the line. *)
Fixpoint entries (line_number : nat) (lines : list string) : list (nat * string) :=
  match lines with
  | [] => []
  | line :: rest =>
      match PyStr.first (split_words line) with
      | Some word => (line_number, word) :: entries (S line_number) rest
      | None => entries (S line_number) rest
      end
  end.

End ConvertMore.

(** ** More of the resolver *)

Module AutoMore.

Import Auto AutoSpec.

(** The events that an observation of a run may look for. *)
Definition reads_feature_extractor_dict (ev : Event) : bool :=
  match ev with
  | GetFeatureExtractorDict => true
  | _ => false
  end.

Definition loads_model_config (ev : Event) : bool :=
  match ev with
  | AutoConfigFromPretrained => true
  | _ => false
  end.

(** What the probes record in a repository that holds none of the four
    config files, up to the point where the model configuration is asked
    for. *)
Definition no_file_found : Trace :=
  [ CachedFile PROCESSOR_NAME; Consulted ProcessorConfig None;
    CachedFile FEATURE_EXTRACTOR_NAME; Consulted PreprocessorConfig None;
    CachedFile VIDEO_PROCESSOR_NAME; Consulted VideoProcessorConfig None;
    CachedFile FEATURE_EXTRACTOR_NAME; Consulted FeatureExtractorConfig None;
    CachedFile TOKENIZER_CONFIG_FILE; Consulted TokenizerConfig None ].

(** A repository without any config file whose model configuration cannot
    be loaded, though a tokenizer could be. *)
Definition tokenizer_only_repo : World :=
  demo_world (fun _ => None) not_found not_found library
             (Returned (mkObject (mkClass "BertTokenizerFast"
                                          "transformers.models.bert.tokenization_bert_fast")
                                 "org/model"))
             not_found not_found.

(** A repository without any config file, for which only the feature
    extractor loads. *)
Definition feature_extractor_repo : World :=
  bare_repo not_found not_found
            (Returned (mkObject (mkClass "Wav2Vec2FeatureExtractor"
                                         "transformers.models.wav2vec2.feature_extraction_wav2vec2")
                                "org/model")).

(** A world in which [PROCESSOR_MAPPING] holds the type of
    [Wav2Vec2Config], and whose model configuration declares no class. *)
Definition Wav2Vec2Config_silent : PretrainedConfig :=
  mkConfig (config_type Wav2Vec2Config) None None.

Definition mapped_repo : World :=
  mkWorld
    (fun _ _ _ => Returned None)
    (fun _ _ => not_found)
    (fun _ _ => not_found)
    (fun _ _ => not_found)
    (fun _ _ => not_found)
    (fun _ => not_found)
    (fun _ _ _ => Returned Wav2Vec2Config_silent)
    (PyStr.replace "-" "_")
    (fun name => Returned (library name))
    []
    (Returned (fun _ => None))
    (fun c => String.eqb (class_name c) "Wav2Vec2Config")
    (fun _ => Returned Wav2Vec2Processor)
    (fun trust _ _ _ _ => Returned (match trust with Some true => true | _ => false end))
    (fun reference _ _ => Returned (mkClass reference "transformers_modules"))
    (fun _ => Returned tt)
    (fun c identifier _ _ => Returned (mkObject c identifier))
    (fun _ _ _ => not_found)
    (fun _ _ _ => not_found)
    (fun _ _ _ => not_found).

End AutoMore.
(** * Properties *)

(** ** Strings *)

Example split_dots : PyStr.split "." "encoder.layers.3." = ["encoder"; "layers"; "3"; ""].
Proof. reflexivity. Qed.

Example split_word : PyStr.split "conv_layers." "feature_extractor.conv_layers.0.2.weight"
                     = ["feature_extractor."; "0.2.weight"].
Proof. reflexivity. Qed.

Example split_absent : PyStr.split "w2v_model." "fc1" = ["fc1"].
Proof. reflexivity. Qed.

Example split_overlap : PyStr.split "aa" "aaa" = [""; "a"].
Proof. reflexivity. Qed.

Example replace_star :
  PyStr.replace "*" "12" "encoder.layers.*.layer_norm" = "encoder.layers.12.layer_norm".
Proof. reflexivity. Qed.

Example int_examples :
  PyStr.int "007" = Some 7 /\ PyStr.int "12" = Some 12 /\ PyStr.int "" = None /\ PyStr.int "x" = None.
Proof. repeat split; reflexivity. Qed.

Example str_nat_examples : PyStr.str_nat 0 = "0" /\ PyStr.str_nat 42 = "42".
Proof. split; reflexivity. Qed.

Section StringFacts.

Import PyStr.

Lemma startswith_app (p t : string) : startswith p (p ++ t) = true.
Proof.
  induction p as [|a p IH]; simpl; [reflexivity|].
  now rewrite Ascii.eqb_refl, IH.
Qed.

Lemma contains_here (x b : string) : contains x (x ++ b) = true.
Proof.
  destruct (x ++ b) eqn:E; simpl; rewrite <- E, startswith_app; reflexivity.
Qed.

Lemma append_empty_r (x : string) : (x ++ "")%string = x.
Proof. induction x; simpl; congruence. Qed.

(** The first piece of a split is the text before the first occurrence of
    the separator. *)
Lemma split_first (sep s : string) (n : nat) :
  find sep s = Some n -> first (split sep s) = Some (take n s).
Proof.
  unfold split. revert n.
  induction s as [|c s IH]; intros n H.
  - simpl in *. destruct (startswith sep ""); inversion H; reflexivity.
  - cbn [find] in H. cbn [split_from].
    destruct (startswith sep (String c s)) eqn:E.
    + inversion H; subst. reflexivity.
    + destruct (find sep s) as [m|] eqn:F; simpl in H; inversion H; subst.
      specialize (IH m eq_refl).
      destruct (split_from sep 0 s) as [|h t]; simpl in *; [discriminate|].
      inversion IH; subst. reflexivity.
Qed.

Lemma startswith_mono (x a b : string) :
  startswith x a = true -> startswith x (a ++ b) = true.
Proof.
  revert a. induction x as [|c x IH]; intros a H; [reflexivity|].
  destruct a as [|d a]; simpl in *; [discriminate|].
  apply andb_true_iff in H. destruct H as [H1 H2].
  now rewrite H1, (IH _ H2).
Qed.

Lemma contains_mono (x a b : string) :
  contains x a = true -> contains x (a ++ b) = true.
Proof.
  induction a as [|c a IH]; intros H.
  - simpl in H. rewrite orb_false_r in H.
    destruct x; [|discriminate]. destruct b; reflexivity.
  - simpl in H. apply orb_true_iff in H. destruct H as [H|H].
    + apply (startswith_mono _ _ b) in H. simpl in *. now rewrite H.
    + simpl. rewrite (IH H). apply orb_true_r.
Qed.

Lemma contains_cons (x : string) (c : ascii) (s : string) :
  contains x s = true -> contains x (String c s) = true.
Proof. intros H. simpl. rewrite H. apply orb_true_r. Qed.

(** The first piece of a split is a prefix of the string. *)
Lemma split_head_prefix (sep s : string) :
  exists h t rest, split_from sep 0 s = h :: t /\ s = (h ++ rest)%string.
Proof.
  induction s as [|c s (h & t & rest & E & P)].
  - exists ""%string, [], ""%string. split; reflexivity.
  - cbn [split_from]. destruct (startswith sep (String c s)).
    + exists ""%string. eexists. exists (String c s). split; reflexivity.
    + rewrite E. exists (String c h), t, rest. split; [reflexivity|].
      simpl. now rewrite <- P.
Qed.

(** Every piece of a split is a part of the string. *)
Lemma split_piece_contained (x sep : string) (s : string) : forall skip piece,
  In piece (split_from sep skip s) ->
  contains x piece = true -> contains x s = true.
Proof.
  induction s as [|c s IH]; intros skip piece Hin Hx.
  - simpl in Hin. destruct Hin as [<-|[]]. exact Hx.
  - cbn [split_from] in Hin. destruct skip as [|k].
    + destruct (startswith sep (String c s)).
      * destruct Hin as [<-|Hin].
        -- simpl in Hx. rewrite orb_false_r in Hx.
           destruct x; [reflexivity | discriminate].
        -- apply contains_cons. eapply IH; eassumption.
      * destruct (split_head_prefix sep s) as (h & t & rest & E & P).
        rewrite E in Hin. simpl in Hin. destruct Hin as [<-|Hin].
        -- rewrite P. apply (contains_mono x (String c h) rest Hx).
        -- apply contains_cons. apply (IH 0 piece); [rewrite E; now right | exact Hx].
    + apply contains_cons. eapply IH; eassumption.
Qed.

Lemma contains_right (x a b : string) :
  contains x b = true -> contains x (a ++ b) = true.
Proof.
  intros H. induction a as [|c a IH]; simpl; [exact H|].
  rewrite IH. apply orb_true_r.
Qed.

Lemma contains_refl (x : string) : contains x x = true.
Proof. rewrite <- (append_empty_r x) at 2. apply contains_here. Qed.

Lemma last1_In {A : Type} (l : list A) (x : A) : last1 l = Some x -> In x l.
Proof.
  unfold last1. intros H. apply in_rev.
  destruct (rev l); [discriminate|]. inversion H. now left.
Qed.

(** A string without the separator is the one piece of its split. *)
Lemma split_without_separator (sep s : string) : find sep s = None -> split sep s = [s].
Proof.
  unfold split. induction s as [|c s IH]; intros H; [reflexivity|].
  cbn [find] in H. cbn [split_from].
  destruct (startswith sep (String c s)); [discriminate|].
  destruct (find sep s); [discriminate|].
  now rewrite IH.
Qed.

Lemma first_split (sep s : string) :
  first (split sep s) = Some (ConvertMore.text_before sep s).
Proof.
  unfold ConvertMore.text_before. destruct (find sep s) as [n|] eqn:F.
  - now apply split_first.
  - now rewrite split_without_separator.
Qed.

Lemma split_from_nonempty (sep s : string) : forall skip, split_from sep skip s <> [].
Proof.
  induction s as [|c s IH]; intros skip; cbn [split_from]; [discriminate|].
  destruct skip; [|apply IH].
  destruct (startswith sep (String c s)); [discriminate|].
  unfold cons_head. destruct (split_from sep 0 s); discriminate.
Qed.

(** A split always has a last piece. *)
Lemma last1_split (sep s : string) : exists segment, last1 (split sep s) = Some segment.
Proof.
  unfold last1, split. destruct (rev (split_from sep 0 s)) as [|x l] eqn:E.
  - apply (f_equal (@rev string)) in E. rewrite rev_involutive in E.
    exfalso. exact (split_from_nonempty _ _ _ E).
  - exists x. reflexivity.
Qed.

End StringFacts.

(** ** Computations that keep a relation *)

Section Keeps.

Context {S : Type} (R : S -> S -> Prop).
Hypothesis R_refl : forall s, R s s.
Hypothesis R_trans : forall a b c, R a b -> R b c -> R a c.

Lemma keeps_ret {A : Type} (a : A) : keeps R (ret a).
Proof. intros s r s' H. inversion H. apply R_refl. Qed.

Lemma keeps_raise {A : Type} c msg : keeps R (@raise S A c msg).
Proof. intros s r s' H. inversion H. apply R_refl. Qed.

Lemma keeps_lift {A : Type} (o : Outcome A) : keeps R (lift o).
Proof. intros s r s' H. inversion H. apply R_refl. Qed.

Lemma keeps_gets {A : Type} (f : S -> A) : keeps R (gets f).
Proof. intros s r s' H. inversion H. apply R_refl. Qed.

Lemma keeps_expect {A : Type} c msg (o : option A) : keeps R (expect c msg o).
Proof. destruct o; [apply keeps_ret | apply keeps_raise]. Qed.

Lemma keeps_bind {A B : Type} (m : M S A) (k : A -> M S B) :
  keeps R m -> (forall a, keeps R (k a)) -> keeps R (bind m k).
Proof.
  intros Hm Hk s r s' H. unfold bind in H.
  destruct (m s) as [[a|e] s1] eqn:E.
  - eapply R_trans; [eapply Hm; eassumption | eapply Hk; eassumption].
  - inversion H; subst. eapply Hm; eassumption.
Qed.

Lemma keeps_modify (f : S -> S) : (forall s, R s (f s)) -> keeps R (modify f).
Proof. intros Hf s r s' H. inversion H. apply Hf. Qed.

Lemma keeps_try {A : Type} (body handler : M S A) :
  keeps R body -> keeps R handler -> keeps R (try_except_Exception body handler).
Proof.
  intros Hb Hh s r s' H. unfold try_except_Exception in H.
  destruct (body s) as [[a|e] s1] eqn:E.
  - inversion H; subst. eapply Hb; eassumption.
  - destruct (is_Exception (exc_class e)).
    + eapply R_trans; [eapply Hb; eassumption | eapply Hh; eassumption].
    + inversion H; subst. eapply Hb; eassumption.
Qed.

End Keeps.

(** ** The weight mapper *)

Create HintDb reads.
Create HintDb grows.

Section ConvertFacts.

Import Convert ConvertSpec.

Lemma grows_refl s : grows s s.
Proof.
  repeat split; [exists [] | exists []]; simpl; now rewrite app_nil_r.
Qed.

Lemma grows_trans a b c : grows a b -> grows b c -> grows a c.
Proof.
  intros (N1 & (u1 & U1) & (l1 & L1)) (N2 & (u2 & U2) & (l2 & L2)).
  repeat split.
  - congruence.
  - exists (u1 ++ u2)%list. rewrite U2, U1. now rewrite app_assoc.
  - exists (l1 ++ l2)%list. rewrite L2, L1, map_app. now rewrite app_assoc.
Qed.

#[local] Hint Resolve grows_refl grows_trans : core.

(** The rules by which [keeps] goes through a definition. *)
Ltac preorder :=
  solve [ intros; congruence | exact grows_refl | exact grows_trans ].

Ltac keeps_step :=
  match goal with
  | |- keeps _ (bind _ _) => apply keeps_bind; [preorder | | intros ?]
  | |- keeps _ (ret _) => apply keeps_ret; preorder
  | |- keeps _ (raise _ _) => apply keeps_raise; preorder
  | |- keeps _ (lift _) => apply keeps_lift; preorder
  | |- keeps _ (gets _) => apply keeps_gets; preorder
  | |- keeps _ (expect _ _ _) => apply keeps_expect; preorder
  | |- keeps _ (if ?b then _ else _) => destruct b
  | |- keeps _ (match ?x with _ => _ end) => destruct x
  end.

(** *** Paths *)

Lemma get_path_app (p q : Path) : forall o,
  get_path o (p ++ q)%list = match get_path o p with
                        | Some o' => get_path o' q
                        | None => None
                        end.
Proof.
  induction p as [|a p IH]; intros o; simpl; [reflexivity|].
  destruct o as [|attrs]; [reflexivity|].
  destruct (assoc a attrs); [apply IH | reflexivity].
Qed.

(** Walking to an object that is there arrives, and changes nothing. *)
Lemma walk_found (attributes : list string) : forall (p : Path) (s : State) (o : Obj),
  get_path (hf_model s) (p ++ attributes)%list = Some o ->
  walk p attributes s = (Returned (p ++ attributes)%list, s).
Proof.
  induction attributes as [|a rest IH]; intros p s o H; simpl.
  - now rewrite app_nil_r.
  - unfold bind, getattr, child.
    replace (p ++ a :: rest)%list with ((p ++ [a]) ++ rest)%list in *
      by (rewrite <- app_assoc; reflexivity).
    rewrite get_path_app in H.
    destruct (get_path (hf_model s) (p ++ [a])%list) as [o'|] eqn:E; [|discriminate].
    apply (IH (p ++ [a])%list s o). now rewrite get_path_app, E.
Qed.

(** *** Operations that only read *)

Lemma getattr_reads p a : keeps eq (getattr p a).
Proof. intros s r s' H. unfold getattr in H. destruct get_path; now inversion H. Qed.

Lemma hasattr_reads p a : keeps eq (hasattr p a).
Proof. apply keeps_gets. reflexivity. Qed.

Lemma getitem_reads p i : keeps eq (getitem p i).
Proof. intros s r s' H. unfold getitem in H. destruct get_path; now inversion H. Qed.

Lemma shape_of_reads p : keeps eq (shape_of p).
Proof.
  intros s r s' H. unfold shape_of in H.
  destruct get_path as [[|]|]; now inversion H.
Qed.

#[local] Hint Resolve getattr_reads hasattr_reads getitem_reads shape_of_reads : reads.

Lemma walk_reads attributes : forall p, keeps eq (walk p attributes).
Proof.
  induction attributes as [|a rest IH]; intros p; simpl.
  - apply keeps_ret. reflexivity.
  - apply keeps_bind; [intros; congruence | apply getattr_reads | intros; apply IH].
Qed.

#[local] Hint Resolve walk_reads : reads.

Lemma param_mapping_loop_reads keys : forall full_name n w,
  keeps eq (param_mapping_loop keys full_name n w).
Proof.
  induction keys as [|k rest IH]; intros; simpl.
  - apply keeps_ret. reflexivity.
  - destruct (PyStr.endswith k full_name); [|apply IH].
    repeat (apply keeps_bind; [intros; congruence | apply keeps_expect; reflexivity | intros]).
    apply IH.
Qed.

#[local] Hint Resolve param_mapping_loop_reads : reads.

Ltac reads := repeat (auto with reads; keeps_step); auto with reads.

Lemma hf_shape_and_value_reads p n w v : keeps eq (hf_shape_and_value p n w v).
Proof. unfold hf_shape_and_value. reads. Qed.

Lemma conv_slot_reads fe l sub which : keeps eq (conv_slot fe l sub which).
Proof. unfold conv_slot. reads. Qed.

(** *** Operations that write: the bookkeeping only grows *)

Lemma reads_grows {A : Type} (m : Conv A) : keeps eq m -> keeps grows m.
Proof. intros H s r s' E. rewrite <- (H _ _ _ E). apply grows_refl. Qed.

Lemma set_data_grows p v : keeps grows (set_data p v).
Proof.
  apply keeps_modify. intros s.
  repeat split; simpl; exists []; simpl; now rewrite app_nil_r.
Qed.

Lemma hf_dict_set_grows k v : keeps grows (hf_dict_set k v).
Proof.
  apply keeps_modify. intros s.
  repeat split; simpl; exists []; simpl; now rewrite app_nil_r.
Qed.

Lemma logger_info_grows msg : keeps grows (logger_info msg).
Proof.
  apply keeps_modify. intros s. repeat split; simpl.
  - exists []. now rewrite app_nil_r.
  - exists [msg]. reflexivity.
Qed.

Lemma unused_append_grows name : keeps grows (unused_append name).
Proof.
  apply keeps_modify. intros s. repeat split; simpl.
  - exists [name]. reflexivity.
  - exists []. simpl. now rewrite app_nil_r.
Qed.

#[local] Hint Resolve set_data_grows hf_dict_set_grows logger_info_grows
  unused_append_grows : grows.
#[local] Hint Extern 2 (keeps grows _) => (apply reads_grows; auto with reads; fail) : grows.

Ltac grows := repeat (auto with grows; keeps_step); auto with grows.

Lemma assign_grows p n w v : keeps grows (assign p n w v).
Proof. unfold assign. grows. Qed.

Lemma set_recursively_grows key value full_name w p :
  keeps grows (set_recursively key value full_name w p).
Proof.
  unfold set_recursively. pose proof assign_grows.
  pose proof hf_shape_and_value_reads. grows.
Qed.

Lemma rename_dict_grows key value full_name w :
  keeps grows (rename_dict key value full_name w).
Proof. unfold rename_dict. grows. Qed.

Lemma load_wav2vec2_layer_loop_grows items name value b :
  keeps grows (load_wav2vec2_layer_loop items name value b).
Proof.
  induction items as [|[key mapped_key] rest IH]; simpl.
  - grows.
  - pose proof set_recursively_grows. pose proof rename_dict_grows. grows.
Qed.

Lemma copy_checked_grows full_name value fe l sub which info :
  keeps grows (copy_checked full_name value fe l sub which info).
Proof. unfold copy_checked. pose proof conv_slot_reads. grows. Qed.

Lemma load_conv_layer_grows full_name value fe gn :
  keeps grows (load_conv_layer full_name value fe gn).
Proof.
  unfold load_conv_layer, conv_assignment, layer_norm_assignment.
  pose proof copy_checked_grows. grows.
Qed.

Lemma loop_body_grows name value fe : keeps grows (loop_body name value fe).
Proof.
  unfold loop_body, load_weight, load_wav2vec2_layer.
  pose proof load_conv_layer_grows. pose proof load_wav2vec2_layer_loop_grows. grows.
Qed.

(** How a run of [load_conv_layer] starts, once the indices are known. *)
Lemma load_conv_layer_indices full_name value fe gn name layer_id type_id :
  conv_suffix full_name = Some name ->
  conv_indices name = Returned (layer_id, type_id) ->
  load_conv_layer full_name value fe gn =
    if Nat.eqb type_id 0 then conv_assignment full_name value fe layer_id name
    else if (Nat.eqb type_id 2 && negb gn) || (Nat.eqb type_id 2 && Nat.eqb layer_id 0 && gn)
         then layer_norm_assignment full_name value fe layer_id name
         else unused_append full_name.
Proof.
  intros Hs Hi. unfold load_conv_layer. rewrite Hs.
  cbv beta iota delta [bind ret expect lift]. rewrite Hi. reflexivity.
Qed.

(** C3, as the code has it.  Which layers reach the layer-norm
    assignment depends on whether the destination model uses group
    normalization: when it is USED, only layer 0 does, and a norm parameter
    (type index 2) of any other layer is appended to the unused weights; when
    it is not used, the norm parameter of every layer reaches the
    assignment. *)
Theorem load_conv_layer_norm_by_group_norm :
  forall full_name value feature_extractor name layer_id,
    conv_suffix full_name = Some name ->
    conv_indices name = Returned (layer_id, 2) ->
    (layer_id <> 0 ->
     load_conv_layer full_name value feature_extractor true = unused_append full_name)
    /\ (layer_id = 0 ->
        load_conv_layer full_name value feature_extractor true
        = layer_norm_assignment full_name value feature_extractor layer_id name)
    /\ load_conv_layer full_name value feature_extractor false
       = layer_norm_assignment full_name value feature_extractor layer_id name.
Proof.
  intros full_name value fe name layer_id Hs Hi.
  repeat split; [intros Hl | intros Hl |];
    rewrite (load_conv_layer_indices _ _ _ _ _ _ _ Hs Hi); simpl.
  - apply Nat.eqb_neq in Hl. rewrite Hl. reflexivity.
  - subst layer_id. reflexivity.
  - reflexivity.
Qed.

Lemma load_conv_layer_norm_by_group_norm_witness :
  load_conv_layer "feature_extractor.conv_layers.1.2.weight" (full [2] 7)
                  demo_feature_extractor true
  = unused_append "feature_extractor.conv_layers.1.2.weight"
  /\ load_conv_layer "feature_extractor.conv_layers.1.2.weight" (full [2] 7)
                     demo_feature_extractor false
     = layer_norm_assignment "feature_extractor.conv_layers.1.2.weight" (full [2] 7)
                             demo_feature_extractor 1 "1.2.weight".
Proof.
  destruct (load_conv_layer_norm_by_group_norm
              "feature_extractor.conv_layers.1.2.weight" (full [2] 7)
              demo_feature_extractor "1.2.weight" 1 eq_refl eq_refl) as (Hused & _ & Hunused).
  split; [apply Hused; discriminate | exact Hunused].
Defined.

(** C3 as it is worded fails: without group normalization, the norm weight
    of layer 1 is assigned to the model and nothing is added to the unused
    weights. *)
Lemma norm_of_layer_1_assigned_without_group_norm :
  let full_name := "feature_extractor.conv_layers.1.2.weight" in
  let value := full [2] 7 in
  let slot := ["wav2vec2"; "feature_extractor"; "conv_layers"; "1"; "layer_norm"; "weight"] in
  conv_suffix full_name = Some "1.2.weight"
  /\ conv_indices "1.2.weight" = Returned (1, 2)
  /\ load_conv_layer full_name value demo_feature_extractor false (demo_state "layer")
     = (Returned tt,
        mkState (set_path demo_model slot (Param value)) "layer" [] []
                [Info "Feat extract layer norm weight of layer 1 was initialized from feature_extractor.conv_layers.1.2.weight."])
  /\ get_path demo_model slot = Some (Param (full [2] 0))
  /\ load_conv_layer full_name value demo_feature_extractor false (demo_state "layer")
     <> unused_append full_name (demo_state "layer").
Proof.
  cbv zeta. repeat split; try reflexivity.
  vm_compute. discriminate.
Qed.

(** *** Shape mismatches *)

(** Finds a part of a message that is built with [++]. *)
Ltac find_part :=
  repeat first [ apply contains_refl | apply contains_here | apply contains_right ].

Lemma shape_mismatch_message_parts key w hf_shape value_shape full_name :
  let msg := shape_mismatch_message key w hf_shape value_shape full_name in
  PyStr.contains (repr_Size hf_shape) msg = true
  /\ PyStr.contains (repr_Size value_shape) msg = true
  /\ PyStr.contains full_name msg = true.
Proof. unfold shape_mismatch_message. repeat split; find_part. Qed.

Lemma size_mismatch_message_parts full_name value_shape found :
  let msg := size_mismatch_message full_name value_shape found in
  PyStr.contains (repr_Size found) msg = true
  /\ PyStr.contains (repr_Size value_shape) msg = true
  /\ PyStr.contains full_name msg = true.
Proof. unfold size_mismatch_message. repeat split; find_part. Qed.

Lemma shape_eqb_neq a b : a <> b -> shape_eqb a b = false.
Proof. intros H. unfold shape_eqb. destruct list_eq_dec; [contradiction | reflexivity]. Qed.

Lemma set_recursively_mismatch key value full_name weight_type p s
      hf_pointer r hf_shape value' s1 s2 s3 :
  walk p (PyStr.split "." key) s = (Returned hf_pointer, s1) ->
  param_mapping_loop (map fst PARAM_MAPPING) full_name None weight_type s1 = (Returned r, s2) ->
  hf_shape_and_value hf_pointer (fst r) (snd r) value s2 = (Returned (hf_shape, value'), s3) ->
  hf_shape <> shape value' ->
  set_recursively key value full_name weight_type p s
  = (Raised (mkExc ValueError
               (shape_mismatch_message key (snd r) hf_shape (shape value') full_name)), s).
Proof.
  intros W P H N.
  pose proof (walk_reads _ _ _ _ _ W) as <-.
  pose proof (param_mapping_loop_reads _ _ _ _ _ _ _ P) as <-.
  pose proof (hf_shape_and_value_reads _ _ _ _ _ _ _ H) as <-.
  unfold set_recursively, bind. rewrite W, P, H. simpl.
  now rewrite (shape_eqb_neq _ _ N).
Qed.

Lemma copy_checked_mismatch full_name value fe layer_id sub which info s slot found s1 s2 :
  conv_slot fe layer_id sub which s = (Returned slot, s1) ->
  shape_of slot s1 = (Returned found, s2) ->
  shape value <> found ->
  copy_checked full_name value fe layer_id sub which info s
  = (Raised (mkExc ValueError (size_mismatch_message full_name (shape value) found)), s).
Proof.
  intros C H N.
  pose proof (conv_slot_reads _ _ _ _ _ _ _ C) as <-.
  pose proof (shape_of_reads _ _ _ _ H) as <-.
  unfold copy_checked, bind. rewrite C, H.
  now rewrite (shape_eqb_neq _ _ N).
Qed.

Lemma load_conv_layer_target full_name value fe gn name layer_id type_id sub which :
  conv_suffix full_name = Some name ->
  conv_indices name = Returned (layer_id, type_id) ->
  conv_target gn name layer_id type_id = Some (sub, which) ->
  exists info,
    load_conv_layer full_name value fe gn
    = copy_checked full_name value fe layer_id sub which info.
Proof.
  intros Hs Hi Ht. rewrite (load_conv_layer_indices _ _ _ _ _ _ _ Hs Hi).
  unfold conv_target in Ht. unfold conv_assignment, layer_norm_assignment.
  destruct (Nat.eqb type_id 0).
  - destruct (PyStr.contains "bias" name);
      [|destruct (PyStr.contains "weight" name)];
      inversion Ht; subst; eexists; reflexivity.
  - replace ((Nat.eqb type_id 2 && negb gn) || (Nat.eqb type_id 2 && Nat.eqb layer_id 0 && gn))
      with (Nat.eqb type_id 2 && (negb gn || Nat.eqb layer_id 0))
      by (destruct (Nat.eqb type_id 2), gn, (Nat.eqb layer_id 0); reflexivity).
    destruct (Nat.eqb type_id 2 && (negb gn || Nat.eqb layer_id 0)); [|discriminate].
    destruct (PyStr.contains "bias" name);
      [|destruct (PyStr.contains "weight" name)];
      inversion Ht; subst; eexists; reflexivity.
Qed.

(** C6.  Whenever the shape of the destination differs from the shape of
    the value to assign (the value already reduced to [value[0]] in the
    ["param"] case), [set_recursively] and [load_conv_layer] raise a
    [ValueError] whose message holds both shapes and the name of the source
    parameter, and the state is as it was before the call: nothing was
    assigned. *)
Theorem shape_mismatch_is_fatal :
  forall s full_name value,
    (forall key weight_type p hf_pointer r hf_shape value' s1 s2 s3,
        walk p (PyStr.split "." key) s = (Returned hf_pointer, s1) ->
        param_mapping_loop (map fst PARAM_MAPPING) full_name None weight_type s1
        = (Returned r, s2) ->
        hf_shape_and_value hf_pointer (fst r) (snd r) value s2
        = (Returned (hf_shape, value'), s3) ->
        hf_shape <> shape value' ->
        exists msg,
          set_recursively key value full_name weight_type p s
          = (Raised (mkExc ValueError msg), s)
          /\ PyStr.contains (repr_Size hf_shape) msg = true
          /\ PyStr.contains (repr_Size (shape value')) msg = true
          /\ PyStr.contains full_name msg = true)
    /\ (forall feature_extractor use_group_norm name layer_id type_id sub which
               slot found s1 s2,
          conv_suffix full_name = Some name ->
          conv_indices name = Returned (layer_id, type_id) ->
          conv_target use_group_norm name layer_id type_id = Some (sub, which) ->
          conv_slot feature_extractor layer_id sub which s = (Returned slot, s1) ->
          shape_of slot s1 = (Returned found, s2) ->
          shape value <> found ->
          exists msg,
            load_conv_layer full_name value feature_extractor use_group_norm s
            = (Raised (mkExc ValueError msg), s)
            /\ PyStr.contains (repr_Size found) msg = true
            /\ PyStr.contains (repr_Size (shape value)) msg = true
            /\ PyStr.contains full_name msg = true).
Proof.
  intros s full_name value. split.
  - intros key weight_type p hf_pointer r hf_shape value' s1 s2 s3 W P H N.
    eexists. split.
    + eapply set_recursively_mismatch; eassumption.
    + apply shape_mismatch_message_parts.
  - intros fe gn name layer_id type_id sub which slot found s1 s2 Hs Hi Ht C H N.
    destruct (load_conv_layer_target full_name value fe gn _ _ _ _ _ Hs Hi Ht) as [info E].
    eexists. split.
    + rewrite E. eapply copy_checked_mismatch; eassumption.
    + apply size_mismatch_message_parts.
Qed.

Lemma shape_mismatch_is_fatal_witness :
  let s := demo_state "layer" in
  (exists msg,
      set_recursively "wav2vec2.encoder.layers.3.feed_forward.intermediate_dense"
                      (full [4; 4] 5) "encoder.layers.3.fc1.weight" (Some "weight") [] s
      = (Raised (mkExc ValueError msg), s)
      /\ PyStr.contains (repr_Size [3; 3]) msg = true
      /\ PyStr.contains (repr_Size [4; 4]) msg = true
      /\ PyStr.contains "encoder.layers.3.fc1.weight" msg = true)
  /\ (exists msg,
        load_conv_layer "feature_extractor.conv_layers.0.0.bias" (full [3] 5)
                        demo_feature_extractor true s
        = (Raised (mkExc ValueError msg), s)
        /\ PyStr.contains (repr_Size [2]) msg = true
        /\ PyStr.contains (repr_Size [3]) msg = true
        /\ PyStr.contains "feature_extractor.conv_layers.0.0.bias" msg = true)
  /\ (exists msg,
        set_recursively "wav2vec2.encoder.layers.3.adapter_layer"
                        (full [1; 4; 4] 9) "encoder.layers.3.adapter_layer.W_a" None [] s
        = (Raised (mkExc ValueError msg), s)
        /\ PyStr.contains (repr_Size [2; 3]) msg = true
        /\ PyStr.contains (repr_Size [4; 4]) msg = true
        /\ PyStr.contains "encoder.layers.3.adapter_layer.W_a" msg = true).
Proof.
  cbv zeta. split; [|split].
  - destruct (shape_mismatch_is_fatal (demo_state "layer") "encoder.layers.3.fc1.weight"
                                      (full [4; 4] 5)) as [H _].
    apply (H "wav2vec2.encoder.layers.3.feed_forward.intermediate_dense"
             (Some "weight") []
             ["wav2vec2"; "encoder"; "layers"; "3"; "feed_forward"; "intermediate_dense"]
             (None, Some "weight") [3; 3] (full [4; 4] 5)
             (demo_state "layer") (demo_state "layer") (demo_state "layer"));
      [reflexivity | reflexivity | reflexivity | discriminate].
  - destruct (shape_mismatch_is_fatal (demo_state "layer")
                                      "feature_extractor.conv_layers.0.0.bias"
                                      (full [3] 5)) as [_ H].
    apply (H demo_feature_extractor true "0.0.bias" 0 0 "conv" "bias"
             ["wav2vec2"; "feature_extractor"; "conv_layers"; "0"; "conv"; "bias"]
             [2] (demo_state "layer") (demo_state "layer"));
      [reflexivity | reflexivity | reflexivity | reflexivity | reflexivity | discriminate].
  - destruct (shape_mismatch_is_fatal (demo_state "layer")
                                      "encoder.layers.3.adapter_layer.W_a"
                                      (full [1; 4; 4] 9)) as [H _].
    apply (H "wav2vec2.encoder.layers.3.adapter_layer" None []
             ["wav2vec2"; "encoder"; "layers"; "3"; "adapter_layer"]
             (Some "linear_1.weight", Some "param") [2; 3] (full [4; 4] 9)
             (demo_state "layer") (demo_state "layer") (demo_state "layer"));
      [reflexivity | reflexivity | reflexivity | discriminate].
Defined.

(** *** The destination of a parameter *)

Lemma loop_skips key mapped_key rest name value b :
  key_matches key name = false ->
  load_wav2vec2_layer_loop ((key, mapped_key) :: rest) name value b
  = load_wav2vec2_layer_loop rest name value b.
Proof. intros H. cbn [load_wav2vec2_layer_loop]. cbv zeta. now rewrite H. Qed.

Lemma replace_layer_index_prefixed (N : string) :
  PyStr.replace "*" N ("wav2vec2." ++ "encoder.layers.*.feed_forward.intermediate_dense")
  = "wav2vec2.encoder.layers." ++ N ++ ".feed_forward.intermediate_dense".
Proof. reflexivity. Qed.

(** C4, as the code has it.  When ["fc1"] is the first key of [MAPPING]
    that matches a source name, the destination path is
    ["wav2vec2.encoder.layers.<N>.feed_forward.intermediate_dense"]: the
    table's path under the ["wav2vec2."] prefix, with [N] the segment two
    places from the end in the dot-separated text before the first ["fc1"].
    (Nothing in the mapper looks for ["feature_projection"].) *)
Theorem fc1_destination :
  forall name n N,
    PyStr.contains "feature_projection" name = false ->
    first_match name = Some ("fc1", "encoder.layers.*.feed_forward.intermediate_dense") ->
    PyStr.find "fc1" name = Some n ->
    PyStr.last2 (PyStr.split "." (PyStr.take n name)) = Some N ->
    resolves_to name ("wav2vec2.encoder.layers." ++ N ++ ".feed_forward.intermediate_dense").
Proof.
  intros name n N _ Hfirst Hfind HN value b.
  unfold first_match, MAPPING in Hfirst. cbn [List.find fst] in Hfirst.
  repeat match type of Hfirst with
         | (if key_matches ?k name then _ else _) = _ =>
             destruct (key_matches k name) eqn:?; try discriminate
         end.
  unfold load_wav2vec2_layer, MAPPING.
  rewrite !loop_skips by assumption.
  cbn [load_wav2vec2_layer_loop]. cbv zeta.
  match goal with H : key_matches "fc1" name = true |- _ => rewrite H end.
  change (PyStr.mem "encoder.layers.*.feed_forward.intermediate_dense" TOP_LEVEL_KEYS)
    with false.
  change (PyStr.contains "*" (if negb false then _ else _)) with true.
  cbv beta iota.
  rewrite (split_first _ _ _ Hfind). cbn [expect].
  cbv beta iota delta [bind ret]. rewrite HN. cbn [expect].
  cbv beta iota delta [bind ret negb]. rewrite replace_layer_index_prefixed. reflexivity.
Qed.

Lemma fc1_destination_witness :
  resolves_to "encoder.layers.3.fc1.weight"
              "wav2vec2.encoder.layers.3.feed_forward.intermediate_dense".
Proof.
  exact (fc1_destination "encoder.layers.3.fc1.weight" 17 "3"
                         eq_refl eq_refl eq_refl eq_refl).
Defined.

(** C4 as it is worded fails: the path without the ["wav2vec2."] prefix is
    not the one the value is stored under. *)
Lemma fc1_destination_is_prefixed :
  let name := "encoder.layers.3.fc1.weight" in
  PyStr.contains "feature_projection" name = false
  /\ first_match name = Some ("fc1", "encoder.layers.*.feed_forward.intermediate_dense")
  /\ PyStr.find "fc1" name = Some 17
  /\ PyStr.last2 (PyStr.split "." (PyStr.take 17 name)) = Some "3"
  /\ map fst (hf_dict (snd (load_wav2vec2_layer name (full [3; 3] 5) true (demo_state "layer"))))
     = ["wav2vec2.encoder.layers.3.feed_forward.intermediate_dense.weight"]
  /\ ~ resolves_to name "encoder.layers.3.feed_forward.intermediate_dense".
Proof.
  cbv zeta. repeat split.
  intros H. specialize (H (full [3; 3] 5) true).
  apply (f_equal (fun m => map fst (hf_dict (snd (m (demo_state "layer")))))) in H.
  vm_compute in H. discriminate.
Qed.

(** *** Parameters that no rule matches *)

Lemma load_wav2vec2_layer_loop_no_match items name value b :
  forallb (fun entry => negb (key_matches (fst entry) name)) items = true ->
  load_wav2vec2_layer_loop items name value b = ret false.
Proof.
  induction items as [|[key mapped_key] rest IH]; simpl; intros H.
  - reflexivity.
  - apply andb_true_iff in H. destruct H as [Hk Hr].
    apply negb_true_iff in Hk. rewrite Hk. now apply IH.
Qed.




(** What the last piece after ["conv_layers."] holds, the name holds. *)
Lemma conv_suffix_contained x full_name name :
  conv_suffix full_name = Some name ->
  PyStr.contains x full_name = false -> PyStr.contains x name = false.
Proof.
  intros Hs Hf. destruct (PyStr.contains x name) eqn:E; [|reflexivity].
  rewrite <- Hf. symmetry.
  eapply split_piece_contained; [apply last1_In; exact Hs | exact E].
Qed.

(** A parameter of a convolution (type index 0) that is neither a bias
    nor a weight goes through [load_conv_layer] without a trace. *)
Lemma load_conv_layer_drops full_name value fe gn name layer_id s :
  conv_suffix full_name = Some name ->
  conv_indices name = Returned (layer_id, 0) ->
  PyStr.contains "bias" name = false ->
  PyStr.contains "weight" name = false ->
  load_conv_layer full_name value fe gn s = (Returned tt, s).
Proof.
  intros Hs Hi Hb Hw.
  rewrite (load_conv_layer_indices _ _ _ _ _ _ _ Hs Hi). simpl.
  unfold conv_assignment. now rewrite Hb, Hw.
Qed.



(** C9.  A parameter whose name contains ["conv_layers"] always comes out
    of the loop body as used.  In particular, when its type index is 0 and
    its name contains neither ["bias"] nor ["weight"], [load_conv_layer] and
    the whole loop body leave the state as it was: the model is not
    assigned, the unused weights are not extended, and nothing is logged. *)
Theorem conv_parameter_is_always_used :
  forall name value feature_extractor s,
    PyStr.contains "conv_layers" name = true ->
    (forall is_used s',
        load_weight name value feature_extractor s = (Returned is_used, s') ->
        is_used = true)
    /\ (forall suffix layer_id use_group_norm,
          conv_suffix name = Some suffix ->
          conv_indices suffix = Returned (layer_id, 0) ->
          PyStr.contains "bias" name = false ->
          PyStr.contains "weight" name = false ->
          load_conv_layer name value feature_extractor use_group_norm s = (Returned tt, s)
          /\ load_weight name value feature_extractor s = (Returned true, s)
          /\ loop_body name value feature_extractor s = (Returned tt, s)).
Proof.
  intros name value fe s Hc. split.
  - intros is_used s' H. unfold load_weight in H. rewrite Hc in H.
    cbv beta iota delta [bind gets ret] in H.
    destruct (load_conv_layer name value fe _ s) as [[[]|e] s1]; now inversion H.
  - intros suffix layer_id gn Hs Hi Hb Hw.
    pose proof (conv_suffix_contained _ _ _ Hs Hb) as Hb'.
    pose proof (conv_suffix_contained _ _ _ Hs Hw) as Hw'.
    assert (D : forall g, load_conv_layer name value fe g s = (Returned tt, s))
      by (intros g; eapply load_conv_layer_drops; eassumption).
    assert (W : load_weight name value fe s = (Returned true, s)).
    { unfold load_weight. rewrite Hc. cbv beta iota delta [bind gets ret].
      now rewrite D. }
    repeat split; [apply D | exact W |].
    unfold loop_body, bind. now rewrite W.
Qed.

Lemma conv_parameter_is_always_used_witness :
  let name := "feature_extractor.conv_layers.0.0.num_batches_tracked" in
  let s := demo_state "layer" in
  load_conv_layer name (full [] 3) demo_feature_extractor false s = (Returned tt, s)
  /\ load_weight name (full [] 3) demo_feature_extractor s = (Returned true, s)
  /\ loop_body name (full [] 3) demo_feature_extractor s = (Returned tt, s).
Proof.
  cbv zeta.
  destruct (conv_parameter_is_always_used
              "feature_extractor.conv_layers.0.0.num_batches_tracked" (full [] 3)
              demo_feature_extractor (demo_state "layer") eq_refl) as [_ H].
  exact (H "0.0.num_batches_tracked" 0 false eq_refl eq_refl eq_refl eq_refl).
Defined.

(** *** Assignments: what is written is read back, and shapes stay *)

Import ConvertMore.

Lemma get_set_same (p : Path) : forall o x v,
  get_path o p = Some x -> get_path (set_path o p v) p = Some v.
Proof.
  induction p as [|a p IH]; intros o x v H; [destruct o; reflexivity|].
  destruct o as [t|attrs]; simpl in H; [discriminate|]. simpl.
  induction attrs as [|[k y] rest IHr]; simpl in *; [discriminate|].
  destruct (String.eqb a k) eqn:E.
  - simpl. rewrite E. eapply IH. eassumption.
  - simpl. rewrite E. apply IHr. exact H.
Qed.

Lemma skeleton_set (p : Path) : forall o t v,
  get_path o p = Some (Param t) -> shape t = shape v ->
  skeleton (set_path o p (Param v)) = skeleton o.
Proof.
  induction p as [|a p IH]; intros o t v H E; simpl in *.
  - inversion H; subst. simpl. now rewrite E.
  - destruct o as [t'|attrs]; [discriminate|]. simpl. f_equal.
    induction attrs as [|[k y] rest IHr]; simpl in *; [discriminate|].
    destruct (String.eqb a k).
    + f_equal. f_equal. eapply IH; eassumption.
    + f_equal. apply IHr. exact H.
Qed.

Lemma shape_of_found q s sh s1 :
  shape_of q s = (Returned sh, s1) ->
  exists t, get_path (hf_model s) q = Some (Param t) /\ sh = shape t /\ s1 = s.
Proof.
  unfold shape_of. intros H.
  destruct (get_path (hf_model s) q) as [[t|]|]; inversion H; subst.
  exists t. auto.
Qed.

Ltac case_in H :=
  match type of H with
  | context [match ?x with _ => _ end] =>
      lazymatch x with
      | context [match _ with _ => _ end] => fail
      | _ => destruct x eqn:?; simpl in H
      end
  end.

(** The assignment that follows a shape test is one write, to the slot
    that was tested. *)
Lemma assign_after_check p n w v v' sh s s1 :
  known_weight_type w \/ w = Some "param" ->
  hf_shape_and_value p n w v s = (Returned (sh, v'), s1) ->
  exists q t,
    get_path (hf_model s) q = Some (Param t)
    /\ sh = shape t
    /\ (v' = v \/ index0 v = Some v')
    /\ assign p n w v' s = set_data q v' s.
Proof.
  intros K Hs.
  unfold known_weight_type in K.
  destruct K as [[->|[->|[->|[->| ->]]]]| ->].
  1-5: unfold hf_shape_and_value, assign, walk in Hs |- *;
    unfold bind, hasattr, gets, getattr, expect, shape_of, ret, raise in Hs |- *;
    simpl in Hs |- *;
    repeat case_in Hs; try discriminate;
    inversion Hs; subst;
    eexists; eexists; (split; [eassumption|]); (split; [reflexivity|]);
    (split; [left; reflexivity|]);
    repeat match goal with
           | G : get_path _ _ = _ |- _ => rewrite G; simpl
           end;
    reflexivity.
  (* the "param" case: the path comes from [hf_param_name] *)
  unfold hf_shape_and_value, assign in Hs |- *. simpl in Hs |- *.
  unfold expect, bind, ret, raise in Hs |- *.
  destruct n as [name|]; [|discriminate].
  destruct (walk p (PyStr.split "." name) s) as [[q|e] s2] eqn:W; [|discriminate].
  pose proof (walk_reads _ _ _ _ _ W) as <-.
  destruct (shape_of q s) as [[sh'|e] s3] eqn:Sh; [|discriminate].
  destruct (shape_of_found _ _ _ _ Sh) as (t & G & -> & ->).
  destruct (index0 v) eqn:I0; inversion Hs; subst.
  exists q, t. repeat split; [exact G | now right].
Qed.

Lemma param_mapping_loop_weight_type keys : forall full_name n w s r s1,
  param_mapping_loop keys full_name n w s = (Returned r, s1) ->
  snd r = w \/ snd r = Some "param".
Proof.
  induction keys as [|k rest IH]; intros full_name n w s r s1 H; simpl in H.
  - inversion H. now left.
  - destruct (PyStr.endswith k full_name).
    + unfold bind, expect, ret, raise in H.
      destruct (PyStr.last1 (PyStr.split "." full_name)) as [segment|]; [|discriminate].
      match type of H with
      | context [match ?x with Some _ => _ | None => _ end] => destruct x
      end; [|discriminate].
      right. destruct (IH _ _ _ _ _ _ H) as [E|E]; exact E.
    + eapply IH. eassumption.
Qed.

(** What a call of [set_recursively] comes to: it raises and leaves the
    state as it was, or it writes the value (reduced to [value[0]] for a
    ["param"]) into one parameter of the same shape and logs one record. *)
Lemma set_recursively_outcome key value full_name w p s r s' :
  known_weight_type w \/ w = Some "param" ->
  set_recursively key value full_name w p s = (r, s') ->
  (exists e, r = Raised e /\ s' = s)
  \/ (r = Returned tt
      /\ exists v' info, (v' = value \/ index0 value = Some v') /\ written s s' v' info).
Proof.
  intros K H. unfold set_recursively, bind in H.
  destruct (walk p (PyStr.split "." key) s) as [[hp|e] s1] eqn:W.
  2: { pose proof (walk_reads _ _ _ _ _ W) as <-. left. exists e. now inversion H. }
  pose proof (walk_reads _ _ _ _ _ W) as <-.
  destruct (param_mapping_loop (map fst PARAM_MAPPING) full_name None w s)
    as [[[n' w']|e] s1] eqn:P.
  2: { pose proof (param_mapping_loop_reads _ _ _ _ _ _ _ P) as <-.
       left. exists e. now inversion H. }
  pose proof (param_mapping_loop_reads _ _ _ _ _ _ _ P) as <-.
  pose proof (param_mapping_loop_weight_type _ _ _ _ _ _ _ P) as Kw. simpl in Kw, H.
  assert (K' : known_weight_type w' \/ w' = Some "param")
    by (destruct Kw as [->| ->]; [exact K | now right]).
  destruct (hf_shape_and_value hp n' w' value s) as [[[sh v']|e] s1] eqn:Hsv.
  2: { pose proof (hf_shape_and_value_reads _ _ _ _ _ _ _ Hsv) as <-.
       left. exists e. now inversion H. }
  pose proof (hf_shape_and_value_reads _ _ _ _ _ _ _ Hsv) as <-.
  destruct (assign_after_check _ _ _ _ _ _ _ _ K' Hsv) as (q & t & G & Es & Ev & Ea).
  simpl in H. unfold shape_eqb in H.
  destruct (list_eq_dec Nat.eq_dec sh (shape v')) as [E|N]; simpl in H.
  - rewrite Ea in H. unfold set_data, modify, logger_info in H.
    inversion H; subst. right. split; [reflexivity|].
    exists v'. eexists. split; [exact Ev|].
    exists q, t. repeat split; [exact G | congruence].
  - left. unfold raise in H. inversion H. eexists. split; reflexivity.
Qed.

Lemma copy_checked_outcome full_name value fe layer_id sub which info s r s' :
  copy_checked full_name value fe layer_id sub which info s = (r, s') ->
  (exists e, r = Raised e /\ s' = s)
  \/ (r = Returned tt /\ written s s' value info).
Proof.
  intros H. unfold copy_checked, bind in H.
  destruct (conv_slot fe layer_id sub which s) as [[slot|e] s1] eqn:C.
  2: { pose proof (conv_slot_reads _ _ _ _ _ _ _ C) as <-. left. exists e. now inversion H. }
  pose proof (conv_slot_reads _ _ _ _ _ _ _ C) as <-.
  destruct (shape_of slot s) as [[found|e] s1] eqn:Sh.
  2: { pose proof (shape_of_reads _ _ _ _ Sh) as <-. left. exists e. now inversion H. }
  destruct (shape_of_found _ _ _ _ Sh) as (t & G & -> & ->).
  unfold shape_eqb in H.
  destruct (list_eq_dec Nat.eq_dec (shape value) (shape t)) as [E|N]; simpl in H.
  - unfold set_data, modify, logger_info in H. inversion H; subst.
    right. split; [reflexivity|]. exists slot, t. repeat split; [exact G | congruence].
  - left. unfold raise in H. inversion H. eexists. split; reflexivity.
Qed.

Lemma weight_type_of_known name : known_weight_type (weight_type_of name).
Proof.
  unfold weight_type_of, known_weight_type.
  destruct (PyStr.contains "weight_g" name); [tauto|].
  destruct (PyStr.contains "weight_v" name); [tauto|].
  destruct (PyStr.contains "bias" name); [tauto|].
  destruct (PyStr.contains "weight" name); tauto.
Qed.

Lemma load_conv_layer_outcome full_name value fe gn s r s' :
  load_conv_layer full_name value fe gn s = (r, s') ->
  one_parameter full_name value s r s'.
Proof.
  intros H. unfold one_parameter.
  assert (Copy : forall layer_id sub which info,
             copy_checked full_name value fe layer_id sub which info s = (r, s') ->
             one_parameter full_name value s r s').
  { intros layer_id sub which info C.
    destruct (copy_checked_outcome _ _ _ _ _ _ _ _ _ _ C) as [F|[-> Wr]]; [now left|].
    right. split; [reflexivity|]. right. right. exists value, info. auto. }
  unfold load_conv_layer, bind, expect, lift, ret, raise in H.
  destruct (conv_suffix full_name) as [name|]; [|left; inversion H; eauto].
  destruct (conv_indices name) as [[layer_id type_id]|e]; [|left; inversion H; eauto].
  simpl in H. unfold conv_assignment, layer_norm_assignment in H.
  destruct (Nat.eqb type_id 0).
  - destruct (PyStr.contains "bias" name); [eapply Copy; exact H|].
    destruct (PyStr.contains "weight" name); [eapply Copy; exact H|].
    right. inversion H. auto.
  - destruct ((Nat.eqb type_id 2 && negb gn) || (Nat.eqb type_id 2 && Nat.eqb layer_id 0 && gn)).
    + destruct (PyStr.contains "bias" name); [eapply Copy; exact H|].
      destruct (PyStr.contains "weight" name); [eapply Copy; exact H|].
      right. inversion H. auto.
    + right. inversion H. subst. split; [reflexivity|]. right. left. reflexivity.
Qed.

Lemma load_wav2vec2_layer_loop_outcome items name value : forall s r s',
  load_wav2vec2_layer_loop items name value false s = (r, s') ->
  (exists e, r = Raised e /\ s' = s)
  \/ (r = Returned false /\ s' = s)
  \/ (r = Returned true
      /\ exists v' info, (v' = value \/ index0 value = Some v') /\ written s s' v' info).
Proof.
  induction items as [|[key mapped_key] rest IH]; intros s r s' H; simpl in H.
  - inversion H. right. left. auto.
  - destruct (key_matches key name); [|eapply IH; exact H].
    unfold bind in H.
    match type of H with
    | context [match ?m s with _ => _ end] => destruct (m s) as [[mk|e] s1] eqn:Mk
    end.
    2: { left. exists e.
         destruct (PyStr.contains "*" _) in Mk; unfold bind, expect, ret, raise in Mk;
           repeat case_in Mk; inversion Mk; inversion H; subst; auto. }
    assert (s1 = s) as ->.
    { destruct (PyStr.contains "*" _) in Mk; unfold bind, expect, ret, raise in Mk;
        repeat case_in Mk; now inversion Mk. }
    destruct (set_recursively mk value name (weight_type_of name) [] s) as [[[]|e] s1] eqn:Sr.
    + destruct (set_recursively_outcome _ _ _ _ _ _ _ _
                  (or_introl (weight_type_of_known name)) Sr) as [(e & X & _)|[_ Wr]];
        [discriminate|].
      right. right. inversion H; subst. auto.
    + destruct (set_recursively_outcome _ _ _ _ _ _ _ _
                  (or_introl (weight_type_of_known name)) Sr) as [(e' & X & ->)|[X _]];
        [|discriminate].
      left. inversion H; subst. eauto.
Qed.

(** One parameter at a time: a parameter that raises leaves the state as
    it was; otherwise it is dropped, or reported unused, or written into
    exactly one parameter of the model, of its own shape. *)
Lemma loop_body_outcome name value fe s r s' :
  loop_body name value fe s = (r, s') -> one_parameter name value s r s'.
Proof.
  intros H. unfold loop_body, load_weight, bind in H.
  destruct (PyStr.contains "conv_layers" name).
  - unfold gets in H.
    destruct (load_conv_layer name value fe _ s) as [[[]|e] s1] eqn:L; simpl in H.
    + inversion H; subst. eapply load_conv_layer_outcome. exact L.
    + inversion H; subst. eapply load_conv_layer_outcome. exact L.
  - unfold load_wav2vec2_layer in H.
    destruct (load_wav2vec2_layer_loop MAPPING name value false s) as [[u|e] s1] eqn:L.
    + destruct (load_wav2vec2_layer_loop_outcome _ _ _ _ _ _ L)
        as [(e & X & _)|[(X & ->)|(X & Wr)]]; [discriminate| |]; inversion X; subst;
        simpl in H; unfold one_parameter.
      * right. unfold unused_append, modify in *. inversion H; subst.
        split; [reflexivity|]. right. left. reflexivity.
      * right. inversion H; subst. split; [reflexivity|]. right. right. exact Wr.
    + destruct (load_wav2vec2_layer_loop_outcome _ _ _ _ _ _ L)
        as [(e' & X & ->)|[(X & _)|(X & _)]]; try discriminate.
      left. inversion H; subst. eauto.
Qed.

(** *** A whole run *)

Lemma written_skeleton s s' v info : written s s' v info -> same_skeleton s s'.
Proof.
  intros (q & t & G & E & ->). unfold same_skeleton. simpl.
  eapply skeleton_set; eassumption.
Qed.

Lemma one_parameter_skeleton name value s r s' :
  one_parameter name value s r s' -> same_skeleton s s'.
Proof.
  unfold one_parameter, same_skeleton.
  intros [(e & _ & ->)|(_ & [->|[U|(v' & info & _ & Wr)]])]; try reflexivity.
  - unfold unused_append, modify in U. inversion U. reflexivity.
  - eapply written_skeleton. exact Wr.
Qed.

Lemma one_parameter_unused name value s r s' :
  one_parameter name value s r s' ->
  unused_weights s' = unused_weights s
  \/ unused_weights s' = (unused_weights s ++ [name])%list.
Proof.
  unfold one_parameter.
  intros [(e & _ & ->)|(_ & [->|[U|(v' & info & _ & (q & t & _ & _ & ->))]])]; auto.
  unfold unused_append, modify in U. inversion U. simpl. auto.
Qed.

Lemma load_all_skeleton fairseq_dict fe : forall s r s',
  load_all fairseq_dict fe s = (r, s') -> same_skeleton s s'.
Proof.
  induction fairseq_dict as [|[name value] rest IH]; intros s r s' H; simpl in H.
  - inversion H. reflexivity.
  - unfold bind in H.
    destruct (loop_body name value fe s) as [[[]|e] s1] eqn:E.
    + pose proof (one_parameter_skeleton _ _ _ _ _ (loop_body_outcome _ _ _ _ _ _ E)) as A.
      pose proof (IH _ _ _ H) as B. unfold same_skeleton in *. congruence.
    + inversion H; subst.
      exact (one_parameter_skeleton _ _ _ _ _ (loop_body_outcome _ _ _ _ _ _ E)).
Qed.

Lemma sublist_nil_l {A : Type} (l : list A) : sublist [] l.
Proof. induction l; [apply sublist_nil | now apply sublist_skip]. Qed.

Lemma load_all_unused fairseq_dict fe : forall s r s',
  load_all fairseq_dict fe s = (r, s') ->
  exists more, unused_weights s' = (unused_weights s ++ more)%list
               /\ sublist more (map fst fairseq_dict).
Proof.
  induction fairseq_dict as [|[name value] rest IH]; intros s r s' H; simpl in H.
  - inversion H. exists []. split; [now rewrite app_nil_r | constructor].
  - unfold bind in H.
    destruct (loop_body name value fe s) as [[[]|e] s1] eqn:E.
    + destruct (IH _ _ _ H) as (more & U & S).
      destruct (one_parameter_unused _ _ _ _ _ (loop_body_outcome _ _ _ _ _ _ E)) as [X|X].
      * exists more. split; [congruence | now apply sublist_skip].
      * exists (name :: more). split.
        -- rewrite U, X, <- app_assoc. reflexivity.
        -- simpl. now apply sublist_keep.
    + inversion H; subst.
      destruct (one_parameter_unused _ _ _ _ _ (loop_body_outcome _ _ _ _ _ _ E)) as [X|X].
      * exists []. split; [now rewrite app_nil_r | apply sublist_nil_l].
      * exists [name]. split; [exact X|]. simpl. apply sublist_keep. apply sublist_nil_l.
Qed.

Lemma load_all_grows fairseq_dict fe : keeps grows (load_all fairseq_dict fe).
Proof.
  induction fairseq_dict as [|[name value] rest IH]; simpl.
  - apply keeps_ret. exact grows_refl.
  - apply keeps_bind; [exact grows_trans | apply loop_body_grows | intros; exact IH].
Qed.

(** X1.  Each parameter goes through the loop body in one of four ways: it
    raises and the state is as it was; or it is dropped without a trace; or
    its name is appended to the unused weights and nothing else changes; or
    its value (or [value[0]]) becomes the data of exactly one parameter of
    the model, which had the same shape, and one record is logged. *)
Theorem one_parameter_at_a_time :
  forall name value feature_extractor s r s',
    loop_body name value feature_extractor s = (r, s') ->
    one_parameter name value s r s'.
Proof. intros. eapply loop_body_outcome. eassumption. Qed.

Lemma one_parameter_at_a_time_witness :
  one_parameter "encoder.layers.3.fc1.weight" (full [3; 3] 5) (demo_state "layer")
                (Returned tt)
                (snd (loop_body "encoder.layers.3.fc1.weight" (full [3; 3] 5)
                                demo_feature_extractor (demo_state "layer")))
  /\ one_parameter "encoder.layers.3.fc1.weight" (full [4; 4] 5) (demo_state "layer")
                   (Raised (mkExc ValueError
                      "Shape of hf wav2vec2.encoder.layers.3.feed_forward.intermediate_dense.weight is torch.Size([3, 3]), but should be torch.Size([4, 4]) for encoder.layers.3.fc1.weight"))
                   (demo_state "layer").
Proof.
  split.
  - apply (one_parameter_at_a_time "encoder.layers.3.fc1.weight" (full [3; 3] 5)
                                   demo_feature_extractor (demo_state "layer")).
    vm_compute. reflexivity.
  - apply (one_parameter_at_a_time "encoder.layers.3.fc1.weight" (full [4; 4] 5)
                                   demo_feature_extractor (demo_state "layer")).
    vm_compute. reflexivity.
Defined.

(** X2.  A run of [recursively_load_weights], whether it completes or
    raises on the way, leaves the model with the attributes it had and every
    parameter with the shape it had: only the data of parameters change. *)
Theorem run_keeps_every_shape :
  forall fairseq_dict is_headless s r s',
    recursively_load_weights fairseq_dict is_headless s = (r, s') ->
    skeleton (hf_model s') = skeleton (hf_model s).
Proof.
  intros fairseq_dict h s r s' H. unfold recursively_load_weights in H.
  cbv beta iota delta [bind unused_reset modify] in H.
  set (s0 := mkState (hf_model s) (feat_extract_norm s) (hf_dict s) [] (logs s)) in H.
  destruct (walk [] ["wav2vec2"; "feature_extractor"] s0) as [[fe|e] s1] eqn:W.
  2: { pose proof (walk_reads _ _ _ _ _ W) as <-. inversion H. reflexivity. }
  pose proof (walk_reads _ _ _ _ _ W) as <-.
  destruct (load_all fairseq_dict fe s0) as [[[]|e] s2] eqn:L.
  - pose proof (load_all_skeleton _ _ _ _ _ L) as K. unfold same_skeleton in K.
    unfold gets, logger_warning, modify in H. inversion H; subst. exact K.
  - pose proof (load_all_skeleton _ _ _ _ _ L) as K. inversion H; subst. exact K.
Qed.

Lemma run_keeps_every_shape_witness :
  skeleton (hf_model (snd (recursively_load_weights demo_fairseq_dict false
                                                    (demo_state "group"))))
  = skeleton demo_model
  /\ hf_model (snd (recursively_load_weights demo_fairseq_dict false (demo_state "group")))
     <> demo_model.
Proof.
  split.
  - apply (run_keeps_every_shape demo_fairseq_dict false (demo_state "group")
             (fst (recursively_load_weights demo_fairseq_dict false (demo_state "group")))).
    vm_compute. reflexivity.
  - vm_compute. discriminate.
Defined.

(** X3.  After a run, the unused weights are names of the state
    dictionary, in its order, each entry reported at most once; what the
    list held before the run is gone. *)
Theorem unused_weights_are_source_names_in_order :
  forall fairseq_dict is_headless s r s',
    recursively_load_weights fairseq_dict is_headless s = (r, s') ->
    sublist (unused_weights s') (map fst fairseq_dict).
Proof.
  intros fairseq_dict h s r s' H. unfold recursively_load_weights in H.
  cbv beta iota delta [bind unused_reset modify] in H.
  set (s0 := mkState (hf_model s) (feat_extract_norm s) (hf_dict s) [] (logs s)) in H.
  destruct (walk [] ["wav2vec2"; "feature_extractor"] s0) as [[fe|e] s1] eqn:W.
  2: { pose proof (walk_reads _ _ _ _ _ W) as <-. inversion H. apply sublist_nil_l. }
  pose proof (walk_reads _ _ _ _ _ W) as <-.
  destruct (load_all fairseq_dict fe s0) as [[[]|e] s2] eqn:L;
    destruct (load_all_unused _ _ _ _ _ L) as (more & U & S); simpl in U.
  - unfold gets, logger_warning, modify in H. inversion H; subst. simpl. exact S.
  - inversion H; subst. exact S.
Qed.

Lemma unused_weights_are_source_names_in_order_witness :
  sublist ["label_embs_concat"; "feature_extractor.conv_layers.1.2.weight"]
          (map fst demo_fairseq_dict).
Proof.
  apply (unused_weights_are_source_names_in_order
           demo_fairseq_dict false
           (mkState demo_model "group" [] ["left over"] []) (Returned tt)
           (snd (recursively_load_weights demo_fairseq_dict false
                   (mkState demo_model "group" [] ["left over"] [])))).
  vm_compute. reflexivity.
Defined.

(** X4.  A run that raises has logged no warning: next to what the log
    held, there are only the records of the parameters loaded before the
    failure, and the list of unused weights is never reported. *)
Theorem failed_run_reports_nothing :
  forall fairseq_dict is_headless s e s',
    recursively_load_weights fairseq_dict is_headless s = (Raised e, s') ->
    exists infos, logs s' = (logs s ++ map Info infos)%list.
Proof.
  intros fairseq_dict h s e s' H. unfold recursively_load_weights in H.
  cbv beta iota delta [bind unused_reset modify] in H.
  set (s0 := mkState (hf_model s) (feat_extract_norm s) (hf_dict s) [] (logs s)) in H.
  destruct (walk [] ["wav2vec2"; "feature_extractor"] s0) as [[fe|e0] s1] eqn:W.
  2: { pose proof (walk_reads _ _ _ _ _ W) as <-. inversion H. exists [].
       simpl. now rewrite app_nil_r. }
  pose proof (walk_reads _ _ _ _ _ W) as <-.
  destruct (load_all fairseq_dict fe s0) as [[[]|e0] s2] eqn:L.
  - unfold gets, logger_warning, modify in H. discriminate.
  - destruct (load_all_grows _ _ _ _ _ L) as (_ & _ & (infos & Lg)).
    inversion H; subst. exists infos. exact Lg.
Qed.

Lemma failed_run_reports_nothing_witness :
  exists infos,
    logs (snd (recursively_load_weights
                 [("label_embs_concat", full [2] 1);
                  ("encoder.layers.3.fc1.weight", full [4; 4] 5)]
                 false (demo_state "layer")))
    = ([] ++ map Info infos)%list.
Proof.
  apply (failed_run_reports_nothing
           [("label_embs_concat", full [2] 1);
            ("encoder.layers.3.fc1.weight", full [4; 4] 5)]
           false (demo_state "layer")
           (mkExc ValueError
              "Shape of hf wav2vec2.encoder.layers.3.feed_forward.intermediate_dense.weight is torch.Size([3, 3]), but should be torch.Size([4, 4]) for encoder.layers.3.fc1.weight")).
  vm_compute. reflexivity.
Defined.

(** *** Where a matched parameter goes *)

Lemma loop_finds items name value b key mapped :
  List.find (fun entry => key_matches (fst entry) name) items = Some (key, mapped) ->
  load_wav2vec2_layer_loop items name value b
  = (mapped_key <-
       (if PyStr.contains "*" (prefixed mapped) then
          prefix <- expect IndexError "" (PyStr.first (PyStr.split key name)) ;;
          layer_index <- expect IndexError "" (PyStr.last2 (PyStr.split "." prefix)) ;;
          ret (PyStr.replace "*" layer_index (prefixed mapped))
        else ret (prefixed mapped)) ;;
     (if b then rename_dict mapped_key value name (weight_type_of name)
      else set_recursively mapped_key value name (weight_type_of name) []) ;;;
     ret true).
Proof.
  induction items as [|[k m] rest IH]; intros H; [discriminate|].
  cbn [List.find fst] in H.
  destruct (key_matches k name) eqn:E.
  - inversion H; subst. cbn [load_wav2vec2_layer_loop]. cbv zeta. rewrite E. reflexivity.
  - rewrite loop_skips by exact E. now apply IH.
Qed.

Lemma prefixed_wildcard mapped :
  PyStr.contains "*" (prefixed mapped) = PyStr.contains "*" mapped.
Proof. unfold prefixed. destruct (negb _); reflexivity. Qed.

(** X5.  The destination of a parameter is fixed by the first entry of
    [MAPPING] whose key matches its name: the entry's path, under
    ["wav2vec2."] unless it is a top-level key; and when the path has a
    ["*"], every ["*"] is replaced by the segment two places from the end of
    the dot-separated text before the first occurrence of the key. *)
Theorem matched_parameter_destination :
  forall name key mapped_key,
    first_match name = Some (key, mapped_key) ->
    (PyStr.contains "*" mapped_key = false -> resolves_to name (prefixed mapped_key))
    /\ (forall layer_index,
          PyStr.contains "*" mapped_key = true ->
          PyStr.last2 (PyStr.split "." (text_before key name)) = Some layer_index ->
          resolves_to name (PyStr.replace "*" layer_index (prefixed mapped_key))).
Proof.
  intros name key mapped F. split.
  - intros Hc value b. unfold load_wav2vec2_layer.
    rewrite (loop_finds _ _ value b _ _ F), prefixed_wildcard, Hc. reflexivity.
  - intros N Hc HN value b. unfold load_wav2vec2_layer.
    rewrite (loop_finds _ _ value b _ _ F), prefixed_wildcard, Hc, first_split.
    cbn [expect]. cbv beta iota delta [bind ret]. rewrite HN. reflexivity.
Qed.

Lemma matched_parameter_destination_witness :
  resolves_to "w2v_encoder.proj.bias" "lm_head"
  /\ resolves_to "mask_emb" "wav2vec2.masked_spec_embed"
  /\ resolves_to "encoder.layers.11.self_attn.k_proj.weight"
                 "wav2vec2.encoder.layers.11.attention.k_proj".
Proof.
  split; [|split].
  - exact (proj1 (matched_parameter_destination
                    "w2v_encoder.proj.bias" "w2v_encoder.proj" "lm_head" eq_refl) eq_refl).
  - exact (proj1 (matched_parameter_destination
                    "mask_emb" "mask_emb" "masked_spec_embed" eq_refl) eq_refl).
  - exact (proj2 (matched_parameter_destination
                    "encoder.layers.11.self_attn.k_proj.weight"
                    "self_attn.k_proj" "encoder.layers.*.attention.k_proj" eq_refl)
                 "11" eq_refl eq_refl).
Defined.

(** X6.  When the winning entry has a ["*"] in its path and the text
    before the key has no dot (the name begins with the key, as in
    ["fc1.weight"]), there is no segment two places from the end:
    [load_wav2vec2_layer] raises [IndexError], and nothing has been stored. *)
Theorem wildcard_without_layer_segment :
  forall name key mapped_key value use_hf_dict s,
    first_match name = Some (key, mapped_key) ->
    PyStr.contains "*" mapped_key = true ->
    PyStr.last2 (PyStr.split "." (text_before key name)) = None ->
    exists e, load_wav2vec2_layer name value use_hf_dict s = (Raised e, s)
              /\ exc_class e = IndexError.
Proof.
  intros name key mapped value b s F Hc HN. unfold load_wav2vec2_layer.
  rewrite (loop_finds _ _ value b _ _ F), prefixed_wildcard, Hc, first_split.
  cbn [expect]. cbv beta iota delta [bind ret]. rewrite HN.
  eexists. split; reflexivity.
Qed.

Lemma wildcard_without_layer_segment_witness :
  exists e, load_wav2vec2_layer "fc1.weight" (full [3; 3] 5) false (demo_state "layer")
            = (Raised e, demo_state "layer")
            /\ exc_class e = IndexError.
Proof.
  apply (wildcard_without_layer_segment
           "fc1.weight" "fc1" "encoder.layers.*.feed_forward.intermediate_dense");
    reflexivity.
Defined.

Lemma returns_true {A : Type} (m : Conv A) (k : A -> Conv unit) s u s' :
  (a <- m ;; k a ;;; ret true) s = (Returned u, s') -> u = true.
Proof.
  unfold bind, ret. intros H.
  destruct (m s) as [[a|e] s1]; [|discriminate].
  destruct (k a s1) as [[[]|e] s2]; now inversion H.
Qed.

(** X7.  [load_wav2vec2_layer] answers [True] exactly when some key of
    [MAPPING] matches the name; when it answers [False], nothing has been
    stored, changed or logged. *)
Theorem is_used_iff_some_key_matches :
  forall name value use_hf_dict s is_used s',
    load_wav2vec2_layer name value use_hf_dict s = (Returned is_used, s') ->
    (is_used = true <-> first_match name <> None)
    /\ (is_used = false -> s' = s).
Proof.
  intros name value b s u s' H. unfold load_wav2vec2_layer in H.
  destruct (first_match name) as [[key mapped]|] eqn:F.
  - rewrite (loop_finds _ _ value b _ _ F) in H.
    apply returns_true in H. subst. split; [split; [discriminate | reflexivity]|discriminate].
  - rewrite load_wav2vec2_layer_loop_no_match in H.
    + inversion H; subst. split; [split; [discriminate | congruence] | reflexivity].
    + apply forallb_forall. intros entry Hin. apply negb_true_iff.
      exact (find_none _ _ F entry Hin).
Qed.

Lemma is_used_iff_some_key_matches_witness :
  (true = true <-> first_match "encoder.layers.3.fc1.weight" <> None)
  /\ (true = false ->
      snd (load_wav2vec2_layer "encoder.layers.3.fc1.weight" (full [3; 3] 5) false
                               (demo_state "layer"))
      = demo_state "layer").
Proof.
  apply (is_used_iff_some_key_matches "encoder.layers.3.fc1.weight" (full [3; 3] 5) false
                                      (demo_state "layer")).
  vm_compute. reflexivity.
Defined.

(** *** The suffixes of [PARAM_MAPPING] *)

Lemma param_mapping_loop_settled full_name segment mapped :
  PyStr.last1 (PyStr.split "." full_name) = Some segment ->
  assoc segment PARAM_MAPPING = Some mapped ->
  forall keys s,
    param_mapping_loop keys full_name (Some mapped) (Some "param") s
    = (Returned (Some mapped, Some "param"), s).
Proof.
  intros Hl Ha keys.
  induction keys as [|k rest IH]; intros s; cbn [param_mapping_loop]; [reflexivity|].
  destruct (PyStr.endswith k full_name); [|apply IH].
  unfold bind, expect, ret, raise. rewrite Hl. cbv beta iota. rewrite Ha. apply IH.
Qed.

Lemma param_mapping_loop_suffix full_name segment :
  PyStr.last1 (PyStr.split "." full_name) = Some segment ->
  forall keys n w s,
    existsb (fun k => PyStr.endswith k full_name) keys = true ->
    param_mapping_loop keys full_name n w s
    = (match assoc segment PARAM_MAPPING with
       | Some mapped => Returned (Some mapped, Some "param")
       | None => Raised (mkExc KeyError segment)
       end, s).
Proof.
  intros Hl keys.
  induction keys as [|k rest IH]; intros n w s H; [discriminate|].
  cbn [existsb] in H. cbn [param_mapping_loop].
  destruct (PyStr.endswith k full_name).
  - unfold bind, expect, ret, raise. rewrite Hl. cbv beta iota.
    destruct (assoc segment PARAM_MAPPING) as [mapped|] eqn:Ha; [|reflexivity].
    apply (param_mapping_loop_settled _ _ _ Hl Ha).
  - apply IH. exact H.
Qed.

Lemma param_mapping_loop_plain full_name : forall keys n w,
  existsb (fun k => PyStr.endswith k full_name) keys = false ->
  param_mapping_loop keys full_name n w = ret (n, w).
Proof.
  induction keys as [|k rest IH]; intros n w H; [reflexivity|].
  cbn [existsb] in H. cbn [param_mapping_loop].
  destruct (PyStr.endswith k full_name); [discriminate|]. now apply IH.
Qed.

(** X8.  When the name of a parameter ends with a key of [PARAM_MAPPING],
    the weight type that was read off the name plays no part: whatever it
    is, [rename_dict] and [set_recursively] do the same. *)
Theorem param_suffix_overrides_weight_type :
  forall full_name,
    param_suffix full_name = true ->
    forall key value weight_type weight_type' hf_pointer s,
      rename_dict key value full_name weight_type s
      = rename_dict key value full_name weight_type' s
      /\ set_recursively key value full_name weight_type hf_pointer s
         = set_recursively key value full_name weight_type' hf_pointer s.
Proof.
  intros full_name H key value w w' p s.
  destruct (last1_split "." full_name) as [segment Hl].
  unfold param_suffix in H. split.
  - unfold rename_dict, bind.
    now rewrite !(param_mapping_loop_suffix _ _ Hl _ _ _ _ H).
  - unfold set_recursively, bind.
    destruct (walk p (PyStr.split "." key) s) as [[hp|e] s1]; [|reflexivity].
    now rewrite !(param_mapping_loop_suffix _ _ Hl _ _ _ _ H).
Qed.

Lemma param_suffix_overrides_weight_type_witness :
  rename_dict "wav2vec2.adapter" (full [1; 2] 3) "adapter.W_a" (Some "weight")
              (demo_state "layer")
  = rename_dict "wav2vec2.adapter" (full [1; 2] 3) "adapter.W_a" None (demo_state "layer")
  /\ set_recursively "wav2vec2.adapter" (full [1; 2] 3) "adapter.W_a" (Some "weight") []
                     (demo_state "layer")
     = set_recursively "wav2vec2.adapter" (full [1; 2] 3) "adapter.W_a" None []
                       (demo_state "layer").
Proof.
  apply (param_suffix_overrides_weight_type "adapter.W_a"). reflexivity.
Defined.

(** X9.  A name that ends with a key of [PARAM_MAPPING] without its last
    dotted segment being a key (as ["adapter_layer.xW_a"], which ends with
    ["W_a"]) raises a [KeyError] on that segment: [rename_dict] at once,
    [set_recursively] once it has walked to the module.  Nothing is stored. *)
Theorem param_suffix_inside_a_segment :
  forall full_name segment,
    param_suffix full_name = true ->
    PyStr.last1 (PyStr.split "." full_name) = Some segment ->
    assoc segment PARAM_MAPPING = None ->
    forall key value weight_type s,
      rename_dict key value full_name weight_type s = (Raised (mkExc KeyError segment), s)
      /\ forall p hf_pointer s1,
           walk p (PyStr.split "." key) s = (Returned hf_pointer, s1) ->
           set_recursively key value full_name weight_type p s
           = (Raised (mkExc KeyError segment), s).
Proof.
  intros full_name segment H Hl Ha key value w s. unfold param_suffix in H. split.
  - unfold rename_dict, bind.
    now rewrite (param_mapping_loop_suffix _ _ Hl _ _ _ _ H), Ha.
  - intros p hp s1 W. pose proof (walk_reads _ _ _ _ _ W) as <-.
    unfold set_recursively, bind.
    now rewrite W, (param_mapping_loop_suffix _ _ Hl _ _ _ _ H), Ha.
Qed.

Lemma param_suffix_inside_a_segment_witness :
  set_recursively "wav2vec2.encoder.layers.3.adapter_layer" (full [1; 2; 3] 5)
                  "encoder.layers.3.adapter_layer.xW_a" None [] (demo_state "layer")
  = (Raised (mkExc KeyError "xW_a"), demo_state "layer").
Proof.
  exact (proj2 (param_suffix_inside_a_segment
                  "encoder.layers.3.adapter_layer.xW_a" "xW_a" eq_refl eq_refl eq_refl
                  "wav2vec2.encoder.layers.3.adapter_layer" (full [1; 2; 3] 5) None
                  (demo_state "layer"))
               [] ["wav2vec2"; "encoder"; "layers"; "3"; "adapter_layer"]
               (demo_state "layer") eq_refl).
Defined.

(** *** What a successful call stores *)

Lemma assoc_set_same {A : Type} k (v : A) l : assoc k (assoc_set k v l) = Some v.
Proof.
  induction l as [|[k' v'] l IH]; simpl.
  - now rewrite String.eqb_refl.
  - destruct (String.eqb k k') eqn:E; simpl; rewrite E; [reflexivity | exact IH].
Qed.

Lemma assoc_set_other {A : Type} k k' (v : A) l :
  k' <> k -> assoc k' (assoc_set k v l) = assoc k' l.
Proof.
  intros N. induction l as [|[k0 v0] l IH]; simpl.
  - destruct (String.eqb k' k) eqn:E; [apply String.eqb_eq in E; contradiction | reflexivity].
  - destruct (String.eqb k k0) eqn:E; simpl.
    + apply String.eqb_eq in E. subst k0.
      destruct (String.eqb k' k) eqn:E2; [apply String.eqb_eq in E2; contradiction | reflexivity].
    + destruct (String.eqb k' k0); [reflexivity | exact IH].
Qed.

Lemma rename_dict_plain key value full_name w s :
  known_weight_type w ->
  param_suffix full_name = false ->
  rename_dict key value full_name w s
  = if PyStr.contains "lm_head" (full_key key w) then hf_dict_set (full_key key w) value s
    else match index0 value with
         | Some value0 => hf_dict_set (full_key key w) value0 s
         | None => (Raised (mkExc IndexError ""), s)
         end.
Proof.
  intros K H. unfold rename_dict, param_suffix in *.
  rewrite (param_mapping_loop_plain _ _ _ _ H).
  destruct K as [->|[->|[->|[->| ->]]]]; cbn [full_key];
    cbv beta iota zeta delta [bind ret fst snd negb String.eqb Ascii.eqb Bool.eqb
                              PyStr.join String.concat];
    (destruct (PyStr.contains "lm_head" _); [reflexivity|]);
    unfold expect, ret, raise; destruct (index0 value); reflexivity.
Qed.

(** X10.  For a name without a [PARAM_MAPPING] suffix, [rename_dict]
    stores under the key followed by the weight type (the bare key when
    there is none): the whole value when ["lm_head"] is part of that key,
    [value[0]] otherwise.  Other keys of the dictionary keep their values,
    and the model, the unused weights and the log are not touched.  The one
    failure is the [IndexError] of a value that has no [value[0]]. *)
Theorem rename_dict_stores :
  forall key value full_name weight_type s r s',
    known_weight_type weight_type ->
    param_suffix full_name = false ->
    rename_dict key value full_name weight_type s = (r, s') ->
    (r = Returned tt
     /\ hf_model s' = hf_model s /\ logs s' = logs s
     /\ unused_weights s' = unused_weights s
     /\ (exists stored,
            assoc (full_key key weight_type) (hf_dict s') = Some stored
            /\ if PyStr.contains "lm_head" (full_key key weight_type)
               then stored = value else index0 value = Some stored)
     /\ forall k, k <> full_key key weight_type -> assoc k (hf_dict s') = assoc k (hf_dict s))
    \/ (exists e, r = Raised e /\ exc_class e = IndexError /\ s' = s
                  /\ PyStr.contains "lm_head" (full_key key weight_type) = false
                  /\ index0 value = None).
Proof.
  intros key value full_name w s r s' K H E.
  rewrite (rename_dict_plain _ _ _ _ _ K H) in E.
  assert (Set_ : forall v, hf_dict_set (full_key key w) v s = (r, s') ->
                 r = Returned tt
                 /\ hf_model s' = hf_model s /\ logs s' = logs s
                 /\ unused_weights s' = unused_weights s
                 /\ assoc (full_key key w) (hf_dict s') = Some v
                 /\ forall k, k <> full_key key w -> assoc k (hf_dict s') = assoc k (hf_dict s)).
  { intros v Hv. unfold hf_dict_set, modify in Hv. inversion Hv; subst. simpl.
    repeat split; [apply assoc_set_same | intros k N; now apply assoc_set_other]. }
  destruct (PyStr.contains "lm_head" (full_key key w)) eqn:Lm.
  - left. destruct (Set_ _ E) as (? & ? & ? & ? & ? & ?).
    repeat split; try assumption. exists value. split; [assumption | reflexivity].
  - destruct (index0 value) as [value0|] eqn:I0.
    + left. destruct (Set_ _ E) as (? & ? & ? & ? & ? & ?).
      repeat split; try assumption. exists value0. split; [assumption | reflexivity].
    + right. inversion E; subst. eexists. repeat split; reflexivity.
Qed.

Lemma rename_dict_stores_witness :
  assoc "wav2vec2.encoder.layers.3.feed_forward.intermediate_dense.weight"
        (hf_dict (snd (rename_dict "wav2vec2.encoder.layers.3.feed_forward.intermediate_dense"
                                   (full [2; 3] 5) "encoder.layers.3.fc1.weight"
                                   (Some "weight") (demo_state "layer"))))
  = Some (full [3] 5).
Proof.
  destruct (rename_dict_stores
              "wav2vec2.encoder.layers.3.feed_forward.intermediate_dense"
              (full [2; 3] 5) "encoder.layers.3.fc1.weight" (Some "weight")
              (demo_state "layer") (Returned tt)
              (snd (rename_dict "wav2vec2.encoder.layers.3.feed_forward.intermediate_dense"
                                (full [2; 3] 5) "encoder.layers.3.fc1.weight"
                                (Some "weight") (demo_state "layer")))
              (or_intror (or_introl eq_refl)) eq_refl eq_refl)
    as [(_ & _ & _ & _ & (stored & A & B) & _)|(e & X & _)].
  - transitivity (Some stored); [exact A|].
    vm_compute in B. vm_compute. congruence.
  - discriminate X.
Defined.

Lemma shape_eqb_refl a : shape_eqb a a = true.
Proof. unfold shape_eqb. destruct list_eq_dec; [reflexivity | contradiction]. Qed.

Lemma get_path_prefix o (a b : Path) x :
  get_path o (a ++ b)%list = Some x ->
  exists y, get_path o a = Some y /\ get_path y b = Some x.
Proof.
  rewrite get_path_app. destruct (get_path o a) as [y|]; [|discriminate].
  intros H. exists y. auto.
Qed.

(** The state after [value] has been stored at [q] and [info] logged. *)
Lemma stored_state_reads_back s q t value info :
  get_path (hf_model s) q = Some (Param t) ->
  let s' := mkState (set_path (hf_model s) q (Param value))
                    (feat_extract_norm s) (hf_dict s) (unused_weights s)
                    (logs s ++ [Info info])%list in
  get_path (hf_model s') q = Some (Param value)
  /\ logs s' = (logs s ++ [Info info])%list
  /\ same_bookkeeping s s'.
Proof.
  intros G. cbv zeta. unfold same_bookkeeping. simpl.
  repeat split. eapply get_set_same. exact G.
Qed.



(** X12.  A weight-norm parameter ([weight_g] or [weight_v]) whose
    destination module has no attribute of that name is stored under
    [parametrizations.weight]: [weight_g] as [original0] and [weight_v] as
    [original1], while the record that is logged still names
    [key.weight_g] or [key.weight_v]. *)
Theorem weight_norm_parameter_under_parametrizations :
  forall key value full_name w slot p s t,
    original w = Some slot ->
    param_suffix full_name = false ->
    get_path (hf_model s) (p ++ PyStr.split "." key ++ [w])%list = None ->
    get_path (hf_model s)
             (p ++ PyStr.split "." key ++ ["parametrizations"; "weight"; slot])%list
    = Some (Param t) ->
    shape t = shape value ->
    exists s',
      set_recursively key value full_name (Some w) p s = (Returned tt, s')
      /\ get_path (hf_model s')
                  (p ++ PyStr.split "." key ++ ["parametrizations"; "weight"; slot])%list
         = Some (Param value)
      /\ logs s' = (logs s ++ [Info ((key ++ "." ++ w) ++ " was initialized from "
                                        ++ full_name ++ ".")])%list
      /\ same_bookkeeping s s'.
Proof.
  intros key value full_name w slot p s t Ho H Gn G E.
  rewrite app_assoc in Gn, G |- *.
  set (hp := (p ++ PyStr.split "." key)%list) in *.
  destruct (get_path_prefix _ _ _ _ G) as (y & Gy & _).
  pose proof (walk_found (PyStr.split "." key) p s y Gy) as W. fold hp in W.
  pose proof (walk_found ["parametrizations"; "weight"; slot] hp s _ G) as W2.
  eexists. split; [|apply (stored_state_reads_back s _ t value _ G)].
  unfold set_recursively, param_suffix in *.
  cbv beta iota delta [bind]. rewrite W. cbv beta iota.
  rewrite (param_mapping_loop_plain _ _ _ _ H).
  cbv beta iota delta [ret fst snd].
  unfold original in Ho.
  destruct (String.eqb w "weight_g") eqn:E1;
    [apply String.eqb_eq in E1; inversion Ho; subst w slot
    |destruct (String.eqb w "weight_v") eqn:E2;
     [apply String.eqb_eq in E2; inversion Ho; subst w slot | discriminate]];
    unfold hf_shape_and_value, assign, hasattr, gets, shape_of, child, describe,
      set_data, logger_info, modify;
    cbv beta iota zeta delta [bind ret fst snd negb andb String.eqb Ascii.eqb Bool.eqb];
    rewrite ?Gn; cbv beta iota delta [negb andb fst snd];
    rewrite ?W2; cbv beta iota delta [negb andb fst snd];
    rewrite ?G; cbv beta iota delta [negb andb fst snd];
    rewrite <- E, shape_eqb_refl; cbv beta iota delta [negb];
    rewrite ?Gn; cbv beta iota;
    rewrite ?W2; cbv beta iota; simpl; reflexivity.
Qed.

Lemma weight_norm_parameter_under_parametrizations_witness :
  let s := mkState demo_pos_conv_model "layer" [] [] [] in
  exists s',
    set_recursively "wav2vec2.encoder.pos_conv_embed.conv" (full [1; 1; 2] 7)
                    "encoder.pos_conv.0.weight_g" (Some "weight_g") [] s
    = (Returned tt, s')
    /\ get_path (hf_model s')
                ([] ++ PyStr.split "." "wav2vec2.encoder.pos_conv_embed.conv"
                    ++ ["parametrizations"; "weight"; "original0"])%list
       = Some (Param (full [1; 1; 2] 7))
    /\ logs s' = (logs s ++ [Info (("wav2vec2.encoder.pos_conv_embed.conv" ++ "." ++ "weight_g")
                                      ++ " was initialized from "
                                      ++ "encoder.pos_conv.0.weight_g" ++ ".")])%list
    /\ same_bookkeeping s s'.
Proof.
  cbv zeta.
  apply (weight_norm_parameter_under_parametrizations
           "wav2vec2.encoder.pos_conv_embed.conv" (full [1; 1; 2] 7)
           "encoder.pos_conv.0.weight_g" "weight_g" "original0" []
           (mkState demo_pos_conv_model "layer" [] [] []) (full [1; 1; 2] 0));
    reflexivity.
Defined.

(** *** The convolutional layers *)




(** X14.  A parameter for a convolutional layer that the model does not
    have (its layer index is beyond [conv_layers]) raises [IndexError], and
    the state is as it was. *)
Theorem conv_layer_out_of_range :
  forall full_name value feature_extractor use_group_norm name layer_id type_id sub which
         s layers,
    conv_suffix full_name = Some name ->
    conv_indices name = Returned (layer_id, type_id) ->
    conv_target use_group_norm name layer_id type_id = Some (sub, which) ->
    get_path (hf_model s) (feature_extractor ++ ["conv_layers"])%list = Some layers ->
    get_path (hf_model s) (feature_extractor ++ ["conv_layers"; PyStr.str_nat layer_id])%list
    = None ->
    exists e,
      load_conv_layer full_name value feature_extractor use_group_norm s = (Raised e, s)
      /\ exc_class e = IndexError.
Proof.
  intros full_name value fe gn name layer_id type_id sub which s layers Hs Hi Ht G1 G2.
  destruct (load_conv_layer_target full_name value fe gn _ _ _ _ _ Hs Hi Ht) as (info & L).
  rewrite L. unfold copy_checked, conv_slot, bind, getattr, getitem, child.
  rewrite G1. rewrite <- !app_assoc. cbn [app]. rewrite G2.
  eexists. split; reflexivity.
Qed.

Lemma conv_layer_out_of_range_witness :
  exists e,
    load_conv_layer "feature_extractor.conv_layers.6.0.weight" (full [2; 1; 3] 7)
                    demo_feature_extractor true (demo_state "group")
    = (Raised e, demo_state "group")
    /\ exc_class e = IndexError.
Proof.
  apply (conv_layer_out_of_range
           "feature_extractor.conv_layers.6.0.weight" (full [2; 1; 3] 7)
           demo_feature_extractor true "6.0.weight" 6 0 "conv" "weight" (demo_state "group")
           (Module [("0", demo_conv_layer); ("1", demo_conv_layer)]));
    reflexivity.
Defined.

(** *** [read_txt_into_dict] *)

Lemma lstrip_words s : split_words (lstrip s) = split_words s.
Proof.
  unfold split_words. induction s as [|c s IH]; [reflexivity|].
  cbn [lstrip]. destruct (is_space c) eqn:Sp; [|reflexivity].
  rewrite IH. cbn [words_from]. now rewrite Sp.
Qed.

Lemma rstrip_words s : words_from (rstrip s) = words_from s.
Proof.
  induction s as [|c s IH]; [reflexivity|].
  cbn [rstrip]. destruct (rstrip s) as [|d r] eqn:R.
  - cbn [words_from] in IH |- *. rewrite <- IH.
    destruct (is_space c) eqn:Sp; cbn [words_from fst snd]; now rewrite ?Sp.
  - cbn [words_from]. now rewrite <- IH.
Qed.

Lemma strip_words line : split_words (strip line) = split_words line.
Proof.
  unfold strip. unfold split_words at 1. rewrite rstrip_words. exact (lstrip_words line).
Qed.

Lemma lstrip_head s c r : lstrip s = String c r -> is_space c = false.
Proof.
  induction s as [|d s IH]; [discriminate|].
  cbn [lstrip]. destruct (is_space d) eqn:Sp; [exact IH|].
  intros H. inversion H; subst. exact Sp.
Qed.

Lemma strip_head line c r : strip line = String c r -> is_space c = false.
Proof.
  unfold strip. destruct (lstrip line) as [|d s] eqn:L; [discriminate|].
  pose proof (lstrip_head _ _ _ L) as Sp.
  cbn [rstrip]. destruct (rstrip s); rewrite ?Sp; intros H; inversion H; subst; exact Sp.
Qed.

Lemma words_of_a_word_start c r :
  is_space c = false -> exists w ws, split_words (String c r) = w :: ws.
Proof.
  intros Sp. unfold split_words. cbn [words_from]. rewrite Sp.
  destruct (fst (words_from r)); cbn [snd]; [|eauto].
  unfold PyStr.cons_head. destruct (snd (words_from r)); eauto.
Qed.

Lemma words_have_no_space s : forall w,
  In w (split_words s) -> w <> ""%string /\ no_space w = true.
Proof.
  unfold split_words. induction s as [|c s IH]; intros w Hin; [destruct Hin|].
  cbn [words_from] in Hin. destruct (is_space c) eqn:Sp; [now apply IH|].
  destruct (fst (words_from s)); cbn [snd] in Hin.
  - unfold PyStr.cons_head in Hin. destruct (snd (words_from s)) as [|h t].
    + destruct Hin as [<-|[]]. split; [discriminate | simpl; now rewrite Sp].
    + destruct Hin as [<-|Hin].
      * split; [discriminate|]. simpl. rewrite Sp. simpl. apply IH. now left.
      * apply IH. now right.
  - destruct Hin as [<-|Hin]; [|now apply IH].
    split; [discriminate | simpl; now rewrite Sp].
Qed.

Lemma read_lines_entries lines : forall line_number result,
  read_lines line_number lines result
  = Returned (result ++ entries line_number lines)%list.
Proof.
  induction lines as [|line rest IH]; intros n acc.
  - simpl. now rewrite app_nil_r.
  - cbn [read_lines entries]. cbv zeta.
    rewrite <- (strip_words line).
    destruct (strip line) as [|c r] eqn:St.
    + apply IH.
    + destruct (words_of_a_word_start c r (strip_head _ _ _ St)) as (w & ws & Ws).
      rewrite Ws. cbn [PyStr.first hd_error]. rewrite IH, <- app_assoc. reflexivity.
Qed.

Lemma lookup_entries lines : forall line_number i,
  lookup i (entries line_number lines)
  = if (i <? line_number)%nat then None
    else match nth_error lines (i - line_number) with
         | Some line => PyStr.first (split_words line)
         | None => None
         end.
Proof.
  induction lines as [|line rest IH]; intros n i.
  - simpl. destruct (i <? n)%nat; [reflexivity|]. now destruct (i - n)%nat.
  - cbn [entries].
    assert (Rest : lookup i (entries (S n) rest)
                   = if (i <=? n)%nat then None
                     else match nth_error (line :: rest) (i - n) with
                          | Some l => PyStr.first (split_words l)
                          | None => None
                          end).
    { rewrite IH. destruct (Nat.ltb_spec i (S n)), (Nat.leb_spec i n); try lia; [reflexivity|].
      replace (i - n)%nat with (S (i - S n)) by lia. reflexivity. }
    destruct (PyStr.first (split_words line)) as [word|] eqn:F.
    + cbn [lookup]. destruct (Nat.eqb_spec i n) as [->|N].
      * rewrite Nat.ltb_irrefl, Nat.sub_diag. simpl. now rewrite F.
      * rewrite Rest. destruct (Nat.ltb_spec i n), (Nat.leb_spec i n); try lia; reflexivity.
    + rewrite Rest. destruct (Nat.ltb_spec i n), (Nat.leb_spec i n); try lia; try reflexivity.
      assert (i = n) as -> by lia. rewrite Nat.sub_diag. simpl. now rewrite F.
Qed.

(** X15.  [read_txt_into_dict] never raises on the lines of a file: a
    line that is not blank always has a first word.  The dictionary it
    returns has, under the number of every such line (counted from 0, blank
    lines included in the count), the first word of the line, and no other
    key; a stored word is not empty and holds no white space. *)
Theorem read_txt_into_dict_by_line_number :
  forall lines,
    exists result,
      read_txt_into_dict lines = Returned result
      /\ (forall i, lookup i result
                    = match nth_error lines i with
                      | Some line => PyStr.first (split_words line)
                      | None => None
                      end)
      /\ (forall i line, nth_error lines i = Some line ->
                         (blank line = true <-> lookup i result = None))
      /\ (forall i word, lookup i result = Some word ->
                         word <> ""%string /\ no_space word = true).
Proof.
  intros lines. exists (entries 0 lines).
  assert (L : forall i, lookup i (entries 0 lines)
                        = match nth_error lines i with
                          | Some line => PyStr.first (split_words line)
                          | None => None
                          end).
  { intros i. rewrite lookup_entries. simpl. now rewrite Nat.sub_0_r. }
  split; [|split; [exact L|split]].
  - unfold read_txt_into_dict. now rewrite read_lines_entries.
  - intros i line Hn. rewrite L, Hn. unfold blank. rewrite <- (strip_words line).
    destruct (strip line) as [|c r] eqn:St.
    + split; reflexivity.
    + destruct (words_of_a_word_start c r (strip_head _ _ _ St)) as (w & ws & Ws).
      rewrite Ws. split; discriminate.
  - intros i word Hl. rewrite L in Hl.
    destruct (nth_error lines i) as [line|]; [|discriminate].
    apply (words_have_no_space line).
    unfold PyStr.first in Hl. destruct (split_words line); [discriminate|].
    inversion Hl. now left.
Qed.

End ConvertFacts.

(** ** The processor resolver *)

Section AutoFacts.

Import Auto AutoSpec.

(** *** Framing *)

Lemma framed_ret {A : Type} (a : A) : framed (ret a).
Proof. intros tr0. unfold ret. simpl. now rewrite app_nil_r. Qed.

Lemma framed_raise {A : Type} c msg : framed (@raise Trace A c msg).
Proof. intros tr0. unfold raise. simpl. now rewrite app_nil_r. Qed.

Lemma framed_emit ev : framed (emit ev).
Proof. intros tr0. reflexivity. Qed.

Lemma framed_call {A : Type} ev (o : Outcome A) : framed (call ev o).
Proof. intros tr0. unfold call, emit, modify, bind. destruct o; reflexivity. Qed.

Lemma framed_bind {A B : Type} (m : Res A) (k : A -> Res B) :
  framed m -> (forall a, framed (k a)) -> framed (bind m k).
Proof.
  intros Hm Hk tr0. unfold bind. rewrite (Hm tr0).
  destruct (m []) as [[a|e] n1]; simpl.
  - rewrite (Hk a (tr0 ++ n1)%list), (Hk a n1). simpl. now rewrite app_assoc.
  - reflexivity.
Qed.

Lemma framed_try {A : Type} (body handler : Res A) :
  framed body -> framed handler -> framed (try_except_Exception body handler).
Proof.
  intros Hb Hh tr0. unfold try_except_Exception. rewrite (Hb tr0).
  destruct (body []) as [[a|e] n1]; simpl; [reflexivity|].
  destruct (is_Exception (exc_class e)); [|reflexivity].
  rewrite (Hh (tr0 ++ n1)%list), (Hh n1). simpl. now rewrite app_assoc.
Qed.

Ltac framed_step :=
  match goal with
  | |- framed (bind _ _) => apply framed_bind; [|intros ?]
  | |- framed (ret _) => apply framed_ret
  | |- framed (raise _ _) => apply framed_raise
  | |- framed (emit _) => apply framed_emit
  | |- framed (call _ _) => apply framed_call
  | |- framed (try_except_Exception _ _) => apply framed_try
  | |- framed (if ?b then _ else _) => destruct b
  | |- framed (match ?x with _ => _ end) => destruct x
  end.

Ltac framed := repeat (cbv zeta; framed_step); auto.

Lemma probe_sources_framed w id passed cfg trust :
  framed (probe_sources w id passed cfg trust).
Proof.
  unfold probe_sources, probe_processor_config, probe_preprocessor_configs,
    probe_tokenizer_config, probe_model_config.
  framed.
Qed.



(** *** Parts of a run that an observation does not see *)

Section Unseen.

Context {X : Type} (obs : Trace -> X).

Lemma unseen_refl tr : unseen obs tr tr.
Proof. reflexivity. Qed.

Lemma unseen_trans a b c : unseen obs a b -> unseen obs b c -> unseen obs a c.
Proof. unfold unseen. congruence. Qed.

Lemma emit_unseen ev : silent obs ev -> keeps (unseen obs) (emit ev).
Proof. intros H. apply keeps_modify. intros tr. apply H. Qed.

Lemma call_unseen {A : Type} ev (o : Outcome A) :
  silent obs ev -> keeps (unseen obs) (call ev o).
Proof.
  intros H. unfold call. apply keeps_bind.
  - exact unseen_trans.
  - now apply emit_unseen.
  - intros _ tr r tr' E. inversion E. reflexivity.
Qed.

End Unseen.

Lemma consulted_app tr tr' :
  consulted (tr ++ tr')%list = (consulted tr ++ consulted tr')%list.
Proof. apply flat_map_app. Qed.

(** An event that is not the one looked for is silent. *)
Ltac silence :=
  intros ?tr;
  first [ rewrite consulted_app; simpl; apply app_nil_r
        | rewrite existsb_app; simpl; now rewrite ?orb_false_r ].

Ltac unseen_step :=
  match goal with
  | |- keeps _ (bind _ _) => apply keeps_bind; [apply unseen_trans | | intros ?]
  | |- keeps _ (ret _) => apply keeps_ret; apply unseen_refl
  | |- keeps _ (raise _ _) => apply keeps_raise; apply unseen_refl
  | |- keeps _ (emit _) => apply emit_unseen; silence
  | |- keeps _ (call _ _) => apply call_unseen; silence
  | |- keeps _ (try_except_Exception _ _) => apply keeps_try; [apply unseen_trans | |]
  | |- keeps _ (if ?b then _ else _) => destruct b
  | |- keeps _ (match ?x with _ => _ end) => destruct x
  end.

Ltac unseen := repeat (cbv zeta; unseen_step); auto.







(** *** The probes, path by path *)

Ltac case_on_scrutinee H :=
  match type of H with
  | context [match ?x with _ => _ end] =>
      lazymatch x with
      | context [match _ with _ => _ end] => fail
      | _ => destruct x eqn:?; simpl in H
      end
  end.









(** The video processor config and the feature extractor config are looked
    for only while no preprocessor config file has been found: a
    preprocessor config that declares no class sends the run on to the
    tokenizer config. *)
Lemma preprocessor_file_skips_video w id passed v path d tr :
  cached_file w id FEATURE_EXTRACTOR_NAME passed = Returned (Some path) ->
  get_image_processor_dict w id passed = Returned d ->
  probe_preprocessor_configs w id passed v tr
  = (Returned (extract d v),
     (tr ++ [CachedFile FEATURE_EXTRACTOR_NAME; GetImageProcessorDict;
             Consulted PreprocessorConfig (dict_processor_class d)])%list).
Proof.
  intros Hf Hd.
  unfold probe_preprocessor_configs, call, emit, modify, bind, ret.
  rewrite Hf, Hd. simpl. now rewrite <- !app_assoc.
Qed.

(** *** A declared class *)




#[local] Arguments processor_class_from_name : simpl never.





(** *** The last resort *)

Lemma from_pretrained_probed w id kwargs passed cfg found tr1 :
  probed w id kwargs passed cfg found tr1 ->
  from_pretrained w id kwargs []
  = dispatch w id passed cfg (trust_remote_code kwargs) found tr1.
Proof.
  intros (tr0 & P & S). unfold from_pretrained, bind. now rewrite P, S.
Qed.

Lemma dispatch_last_resort w id passed cfg trust found tr :
  processor_class found = None ->
  mapping_contains w (type_of cfg) = false ->
  no_remote_code w id trust false (processor_auto_map found) ->
  dispatch w id passed cfg trust found tr
  = last_resort w id passed (effective_trust trust (processor_auto_map found))
                (tr ++ before_last_resort cfg (processor_auto_map found))%list.
Proof.
  intros Hc Hm Hr. unfold dispatch, before_last_resort, no_remote_code, effective_trust in *.
  rewrite Hc. unfold call, emit, modify, bind, ret.
  destruct (processor_auto_map found) as [reference|]; simpl.
  - rewrite Hm, Hr. simpl. now rewrite <- !app_assoc.
  - rewrite Hm. now rewrite <- !app_assoc.
Qed.

Lemma last_resort_runs w id passed trust tr :
  let tokenizer := AutoTokenizer_from_pretrained w id trust passed in
  let image_processor := AutoImageProcessor_from_pretrained w id trust passed in
  let feature_extractor := AutoFeatureExtractor_from_pretrained w id trust passed in
  (forall o, tokenizer = Returned o ->
     last_resort w id passed trust tr
     = (Returned o, (tr ++ [AutoTokenizerFromPretrained])%list))
  /\ (forall o, fails tokenizer -> image_processor = Returned o ->
        last_resort w id passed trust tr
        = (Returned o,
           (tr ++ [AutoTokenizerFromPretrained; AutoImageProcessorFromPretrained])%list))
  /\ (forall o, fails tokenizer -> fails image_processor -> feature_extractor = Returned o ->
        last_resort w id passed trust tr
        = (Returned o,
           (tr ++ [AutoTokenizerFromPretrained; AutoImageProcessorFromPretrained;
                   AutoFeatureExtractorFromPretrained])%list))
  /\ (fails tokenizer -> fails image_processor -> fails feature_extractor ->
        last_resort w id passed trust tr
        = (Raised (mkExc ValueError (unrecognized_message id)),
           (tr ++ [AutoTokenizerFromPretrained; AutoImageProcessorFromPretrained;
                   AutoFeatureExtractorFromPretrained])%list)).
Proof.
  cbv zeta. unfold last_resort, try_except_Exception, call, emit, modify, bind, raise, fails.
  repeat split.
  - intros o ->. reflexivity.
  - intros o (e & -> & E) ->. simpl. rewrite E. now rewrite <- !app_assoc.
  - intros o (e1 & -> & E1) (e2 & -> & E2) ->. simpl. rewrite E1, E2.
    now rewrite <- !app_assoc.
  - intros (e1 & -> & E1) (e2 & -> & E2) (e3 & -> & E3). simpl. rewrite E1, E2, E3.
    now rewrite <- !app_assoc.
Qed.

(** C7.  When the probes return without a declared class, the type of the
    configuration is not in [PROCESSOR_MAPPING] and no remote code applies,
    the run tries [AutoTokenizer], then [AutoImageProcessor], then
    [AutoFeatureExtractor], in that order; it returns what the first one
    that loads returns, and a loader that fails leaves nothing behind but
    the record of its call. *)
Theorem last_resort_tries_three_loaders_in_order :
  forall w pretrained_model_name_or_path kwargs passed cfg found tr1,
    probed w pretrained_model_name_or_path kwargs passed cfg found tr1 ->
    processor_class found = None ->
    mapping_contains w (type_of cfg) = false ->
    no_remote_code w pretrained_model_name_or_path (trust_remote_code kwargs) false
                   (processor_auto_map found) ->
    let trust := effective_trust (trust_remote_code kwargs) (processor_auto_map found) in
    let tr2 := (tr1 ++ before_last_resort cfg (processor_auto_map found))%list in
    let tokenizer :=
      AutoTokenizer_from_pretrained w pretrained_model_name_or_path trust passed in
    let image_processor :=
      AutoImageProcessor_from_pretrained w pretrained_model_name_or_path trust passed in
    let feature_extractor :=
      AutoFeatureExtractor_from_pretrained w pretrained_model_name_or_path trust passed in
    (forall o, tokenizer = Returned o ->
       from_pretrained w pretrained_model_name_or_path kwargs []
       = (Returned o, (tr2 ++ [AutoTokenizerFromPretrained])%list))
    /\ (forall o, fails tokenizer -> image_processor = Returned o ->
          from_pretrained w pretrained_model_name_or_path kwargs []
          = (Returned o,
             (tr2 ++ [AutoTokenizerFromPretrained; AutoImageProcessorFromPretrained])%list))
    /\ (forall o, fails tokenizer -> fails image_processor ->
                  feature_extractor = Returned o ->
          from_pretrained w pretrained_model_name_or_path kwargs []
          = (Returned o,
             (tr2 ++ [AutoTokenizerFromPretrained; AutoImageProcessorFromPretrained;
                      AutoFeatureExtractorFromPretrained])%list)).
Proof.
  intros w id kwargs passed cfg found tr1 Hp Hc Hm Hr. cbv zeta.
  rewrite (from_pretrained_probed _ _ _ _ _ _ _ Hp).
  rewrite (dispatch_last_resort _ _ _ _ _ _ _ Hc Hm Hr).
  destruct (last_resort_runs w id passed
              (effective_trust (trust_remote_code kwargs) (processor_auto_map found))
              (tr1 ++ before_last_resort cfg (processor_auto_map found))%list)
    as (H1 & H2 & H3 & _).
  repeat split; assumption.
Qed.

Lemma last_resort_tries_three_loaders_in_order_witness :
  let image := mkObject ViTImageProcessor "org/model" in
  exists tr,
    from_pretrained (bare_repo not_found (Returned image) not_found) "org/model" no_kwargs []
    = (Returned image,
       (tr ++ [AutoTokenizerFromPretrained; AutoImageProcessorFromPretrained])%list).
Proof.
  cbv zeta.
  set (w := bare_repo not_found
                      (Returned (mkObject ViTImageProcessor "org/model")) not_found).
  assert (Hp : probed w "org/model" no_kwargs (mkPassed None []) (Some UnknownConfig)
                      (mkFound None None)
                      (snd (probe_sources w "org/model" (mkPassed None []) None None [])))
    by (exists []; split; reflexivity).
  destruct (last_resort_tries_three_loaders_in_order
              w "org/model" no_kwargs _ _ _ _ Hp eq_refl eq_refl I) as (_ & H & _).
  eexists. apply H; [|reflexivity].
  exists (mkExc OSError "not found"). split; reflexivity.
Defined.

(** C8.  In the same situation, when the three loaders all fail, the run
    raises a [ValueError] whose message holds the identifier. *)
Theorem unrecognized_processing_class_is_an_error :
  forall w pretrained_model_name_or_path kwargs passed cfg found tr1,
    probed w pretrained_model_name_or_path kwargs passed cfg found tr1 ->
    processor_class found = None ->
    mapping_contains w (type_of cfg) = false ->
    no_remote_code w pretrained_model_name_or_path (trust_remote_code kwargs) false
                   (processor_auto_map found) ->
    let trust := effective_trust (trust_remote_code kwargs) (processor_auto_map found) in
    fails (AutoTokenizer_from_pretrained w pretrained_model_name_or_path trust passed) ->
    fails (AutoImageProcessor_from_pretrained w pretrained_model_name_or_path trust passed) ->
    fails (AutoFeatureExtractor_from_pretrained w pretrained_model_name_or_path trust passed) ->
    exists msg,
      from_pretrained w pretrained_model_name_or_path kwargs []
      = (Raised (mkExc ValueError msg),
         (tr1 ++ before_last_resort cfg (processor_auto_map found)
          ++ [AutoTokenizerFromPretrained; AutoImageProcessorFromPretrained;
              AutoFeatureExtractorFromPretrained])%list)
      /\ PyStr.contains pretrained_model_name_or_path msg = true.
Proof.
  intros w id kwargs passed cfg found tr1 Hp Hc Hm Hr trust Ht Hi Hf. subst trust.
  set (trust := effective_trust (trust_remote_code kwargs) (processor_auto_map found)) in *.
  rewrite (from_pretrained_probed _ _ _ _ _ _ _ Hp).
  rewrite (dispatch_last_resort _ _ _ _ _ _ _ Hc Hm Hr). fold trust.
  destruct (last_resort_runs w id passed trust
              (tr1 ++ before_last_resort cfg (processor_auto_map found))%list)
    as (_ & _ & _ & H).
  exists (unrecognized_message id). split.
  - rewrite (H Ht Hi Hf). now rewrite <- app_assoc.
  - unfold unrecognized_message. apply contains_right, contains_here.
Qed.

Lemma unrecognized_processing_class_is_an_error_witness :
  exists msg tr,
    from_pretrained (bare_repo not_found not_found not_found) "org/model" no_kwargs []
    = (Raised (mkExc ValueError msg), tr)
    /\ PyStr.contains "org/model" msg = true.
Proof.
  set (w := bare_repo not_found not_found not_found).
  assert (Hp : probed w "org/model" no_kwargs (mkPassed None []) (Some UnknownConfig)
                      (mkFound None None)
                      (snd (probe_sources w "org/model" (mkPassed None []) None None [])))
    by (exists []; split; reflexivity).
  assert (Hfail : fails (@not_found PyObject))
    by (exists (mkExc OSError "not found"); split; reflexivity).
  destruct (unrecognized_processing_class_is_an_error
              w "org/model" no_kwargs _ _ _ _ Hp eq_refl eq_refl I Hfail Hfail Hfail)
    as (msg & Hrun & Hmsg).
  exists msg. eexists. split; [exact Hrun | exact Hmsg].
Defined.

(** *** The constructor *)

(** C10.  [AutoProcessor()] always raises the [OSError] of [__init__],
    whose message points to [AutoProcessor.from_pretrained]; it never returns
    an object. *)
Theorem AutoProcessor_cannot_be_instantiated :
  forall tr,
    AutoProcessor_init tr = (Raised (mkExc OSError init_message), tr)
    /\ AutoProcessor_new tr = (Raised (mkExc OSError init_message), tr)
    /\ PyStr.contains "using the `AutoProcessor.from_pretrained(pretrained_model_name_or_path)` method"
                      init_message = true
    /\ forall o tr', AutoProcessor_new tr <> (Returned o, tr').
Proof.
  intros tr. repeat split; try reflexivity. intros o tr' H. discriminate H.
Qed.

Lemma AutoProcessor_cannot_be_instantiated_witness :
  AutoProcessor_new [] = (Raised (mkExc OSError init_message), [])
  /\ forall o tr', AutoProcessor_new [] <> (Returned o, tr').
Proof.
  destruct (AutoProcessor_cannot_be_instantiated []) as (_ & Hraises & _ & Hnever).
  split; [exact Hraises | exact Hnever].
Defined.

(** *** The keyword arguments *)

Import AutoMore.

(** X16.  With both [token] and [use_auth_token] given, [from_pretrained]
    raises a [ValueError] after the deprecation warning and before anything
    else: no file is looked for and no collaborator is called. *)
Theorem both_tokens_are_refused :
  forall w pretrained_model_name_or_path kwargs t t' tr,
    use_auth_token kwargs = Some t ->
    token kwargs = Some t' ->
    from_pretrained w pretrained_model_name_or_path kwargs tr
    = (Raised (mkExc ValueError both_tokens_message),
       (tr ++ [Warn deprecation_message])%list).
Proof.
  intros w id kwargs t t' tr Hu Ht.
  unfold from_pretrained, prelude, bind. rewrite Hu, Ht. reflexivity.
Qed.

Lemma both_tokens_are_refused_witness :
  from_pretrained wav2vec2_repo "facebook/wav2vec2-base-960h"
                  (mkKwargs (Some "hf_old") (Some "hf_new") None None []) []
  = (Raised (mkExc ValueError both_tokens_message), [Warn deprecation_message]).
Proof.
  exact (both_tokens_are_refused wav2vec2_repo "facebook/wav2vec2-base-960h"
                                 (mkKwargs (Some "hf_old") (Some "hf_new") None None [])
                                 "hf_old" "hf_new" [] eq_refl eq_refl).
Defined.

(** X17.  Passing [use_auth_token] alone is passing the same value as
    [token], with the deprecation warning first: the rest of the run is the
    same, call for call. *)
Theorem use_auth_token_is_token :
  forall w pretrained_model_name_or_path t config trust_remote_code others tr,
    from_pretrained w pretrained_model_name_or_path
                    (mkKwargs (Some t) None config trust_remote_code others) tr
    = from_pretrained w pretrained_model_name_or_path
                      (mkKwargs None (Some t) config trust_remote_code others)
                      (tr ++ [Warn deprecation_message])%list.
Proof. reflexivity. Qed.

(** *** What the probes never do *)

Lemma probe_sources_reads_no_feature_extractor_dict w id passed cfg trust r tr :
  probe_sources w id passed cfg trust [] = (r, tr) ->
  existsb reads_feature_extractor_dict tr = false.
Proof.
  intros H.
  unfold probe_sources, probe_processor_config, probe_preprocessor_configs,
    probe_tokenizer_config, probe_model_config, call, emit, modify, bind, ret, extract in H.
  simpl in H.
  repeat case_on_scrutinee H; inversion H; subst; reflexivity.
Qed.

Lemma probe_sources_no_feature_extractor_dict w id passed cfg trust :
  keeps (unseen (existsb reads_feature_extractor_dict)) (probe_sources w id passed cfg trust).
Proof.
  intros tr0 r tr H. rewrite (probe_sources_framed w id passed cfg trust tr0) in H.
  destruct (probe_sources w id passed cfg trust []) as [r1 n1] eqn:E.
  inversion H; subst. unfold unseen. cbn [snd].
  rewrite existsb_app, (probe_sources_reads_no_feature_extractor_dict _ _ _ _ _ _ _ E).
  apply orb_false_r.
Qed.

Lemma names_loop_no_feature_extractor_dict w items class_name :
  keeps (unseen (existsb reads_feature_extractor_dict)) (names_loop w items class_name).
Proof. induction items as [|[module_name processors] rest IH]; simpl; unseen. Qed.

Lemma dispatch_no_feature_extractor_dict w id passed cfg trust found :
  keeps (unseen (existsb reads_feature_extractor_dict))
        (dispatch w id passed cfg trust found).
Proof.
  unfold dispatch, processor_class_from_name, last_resort.
  pose proof (names_loop_no_feature_extractor_dict w). unseen.
Qed.

(** X18.  As long as [cached_file] gives one answer for one file during
    a run, [get_feature_extractor_dict] is never called: the block that
    looks for a feature extractor config asks for the file that the
    preprocessor block has already asked for, and is entered only when it
    was not found. *)
Theorem feature_extractor_dict_is_never_read :
  forall w pretrained_model_name_or_path kwargs tr0 r tr,
    from_pretrained w pretrained_model_name_or_path kwargs tr0 = (r, tr) ->
    existsb reads_feature_extractor_dict tr = existsb reads_feature_extractor_dict tr0.
Proof.
  intros w id kwargs tr0 r tr H.
  assert (K : keeps (unseen (existsb reads_feature_extractor_dict))
                    (from_pretrained w id kwargs)).
  { unfold from_pretrained. apply keeps_bind; [apply unseen_trans | | intros passed].
    - unfold prelude. unseen.
    - apply keeps_bind; [apply unseen_trans | | intros x].
      + apply probe_sources_no_feature_extractor_dict.
      + apply dispatch_no_feature_extractor_dict. }
  exact (K _ _ _ H).
Qed.

Lemma feature_extractor_dict_is_never_read_witness :
  let run := from_pretrained feature_extractor_repo "org/model" no_kwargs [] in
  existsb reads_feature_extractor_dict (snd run) = false
  /\ In AutoFeatureExtractorFromPretrained (snd run).
Proof.
  cbv zeta. split.
  - apply (feature_extractor_dict_is_never_read
             feature_extractor_repo "org/model" no_kwargs []
             (fst (from_pretrained feature_extractor_repo "org/model" no_kwargs []))).
    vm_compute. reflexivity.
  - vm_compute. tauto.
Defined.

Lemma probe_sources_keeps_the_config w id passed c trust :
  keeps (unseen (existsb loads_model_config)) (probe_sources w id passed (Some c) trust).
Proof.
  unfold probe_sources, probe_processor_config, probe_preprocessor_configs,
    probe_tokenizer_config, probe_model_config.
  cbv beta iota. unseen.
Qed.

Lemma names_loop_loads_no_config w items class_name :
  keeps (unseen (existsb loads_model_config)) (names_loop w items class_name).
Proof. induction items as [|[module_name processors] rest IH]; simpl; unseen. Qed.

Lemma dispatch_loads_no_config w id passed cfg trust found :
  keeps (unseen (existsb loads_model_config)) (dispatch w id passed cfg trust found).
Proof.
  unfold dispatch, processor_class_from_name, last_resort.
  pose proof (names_loop_loads_no_config w). unseen.
Qed.

(** X19.  When a configuration is passed as [config], the run never
    calls [AutoConfig.from_pretrained]. *)
Theorem passed_config_is_not_reloaded :
  forall w pretrained_model_name_or_path kwargs c tr0 r tr,
    config kwargs = Some c ->
    from_pretrained w pretrained_model_name_or_path kwargs tr0 = (r, tr) ->
    existsb loads_model_config tr = existsb loads_model_config tr0.
Proof.
  intros w id kwargs c tr0 r tr Hc H.
  assert (K : keeps (unseen (existsb loads_model_config)) (from_pretrained w id kwargs)).
  { unfold from_pretrained. rewrite Hc.
    apply keeps_bind; [apply unseen_trans | | intros passed].
    - unfold prelude. unseen.
    - apply keeps_bind; [apply unseen_trans | | intros x].
      + apply probe_sources_keeps_the_config.
      + apply dispatch_loads_no_config. }
  exact (K _ _ _ H).
Qed.

Lemma passed_config_is_not_reloaded_witness :
  let kwargs := mkKwargs None None (Some Wav2Vec2Config) None [] in
  let run := from_pretrained tokenizer_only_repo "org/model" kwargs [] in
  existsb loads_model_config (snd run) = false
  /\ In (Consulted ModelConfig (Some "Wav2Vec2Processor")) (snd run).
Proof.
  cbv zeta. split.
  - apply (passed_config_is_not_reloaded
             tokenizer_only_repo "org/model"
             (mkKwargs None None (Some Wav2Vec2Config) None []) Wav2Vec2Config []
             (fst (from_pretrained tokenizer_only_repo "org/model"
                                   (mkKwargs None None (Some Wav2Vec2Config) None []) []))).
    + reflexivity.
    + vm_compute. reflexivity.
  - vm_compute. tauto.
Defined.

(** X20.  When none of the four config files is found, no configuration
    is passed and the model configuration cannot be loaded, the run ends
    with the exception of [AutoConfig.from_pretrained]: the tokenizer, the
    image processor and the feature extractor are never tried. *)
Theorem unloadable_model_config_is_fatal :
  forall w pretrained_model_name_or_path kwargs passed tr0 e,
    prelude kwargs [] = (Returned passed, tr0) ->
    (forall f, cached_file w pretrained_model_name_or_path f passed = Returned None) ->
    config kwargs = None ->
    AutoConfig_from_pretrained w pretrained_model_name_or_path (trust_remote_code kwargs)
                               passed = Raised e ->
    from_pretrained w pretrained_model_name_or_path kwargs []
    = (Raised e, (tr0 ++ no_file_found ++ [AutoConfigFromPretrained])%list).
Proof.
  intros w id kwargs passed tr0 e P Hf Hc He.
  unfold from_pretrained, bind at 1. rewrite P, Hc.
  unfold probe_sources, probe_processor_config, probe_preprocessor_configs,
    probe_tokenizer_config, probe_model_config, call, emit, modify, bind, ret.
  rewrite !Hf. simpl. rewrite ?Hf. simpl. rewrite He.
  unfold no_file_found. now rewrite <- !app_assoc.
Qed.

Lemma unloadable_model_config_is_fatal_witness :
  from_pretrained tokenizer_only_repo "org/model" no_kwargs []
  = (Raised (mkExc OSError "not found"),
     ([] ++ no_file_found ++ [AutoConfigFromPretrained])%list)
  /\ AutoTokenizer_from_pretrained tokenizer_only_repo "org/model" None (mkPassed None [])
     <> not_found.
Proof.
  split.
  - apply (unloadable_model_config_is_fatal
             tokenizer_only_repo "org/model" no_kwargs (mkPassed None []) []
             (mkExc OSError "not found")); reflexivity.
  - discriminate.
Defined.

(** *** After the probes *)

(** X21.  A declared class name that [processor_class_from_name] cannot
    resolve counts for nothing: the rest of the function runs as if no
    source had declared a class. *)
Theorem unresolved_name_is_no_name :
  forall w pretrained_model_name_or_path passed cfg trust name reference tr tr1,
    processor_class_from_name w name tr = (Returned None, tr1) ->
    dispatch w pretrained_model_name_or_path passed cfg trust
             (mkFound (Some name) reference) tr
    = dispatch w pretrained_model_name_or_path passed cfg trust
               (mkFound None reference) tr1.
Proof.
  intros w id passed cfg trust name reference tr tr1 H.
  unfold dispatch. cbn [processor_class processor_auto_map].
  unfold bind at 1. rewrite H. reflexivity.
Qed.

Lemma unresolved_name_is_no_name_witness :
  dispatch wav2vec2_repo "org/model" (mkPassed None []) None None
           (mkFound (Some "NoSuchProcessor") None) []
  = dispatch wav2vec2_repo "org/model" (mkPassed None []) None None
             (mkFound None None) [NamesItems; ExtraContentValues; ImportMain].
Proof.
  apply (unresolved_name_is_no_name wav2vec2_repo "org/model" (mkPassed None []) None None
                                    "NoSuchProcessor" None []).
  vm_compute. reflexivity.
Defined.

(** X22.  Remote code that is declared and trusted wins over a class of
    the library: the class comes from [get_class_from_dynamic_module], is
    registered, and is loaded with [trust_remote_code=True] and the keyword
    arguments without [code_revision], which only the dynamic module
    loader has seen. *)
Theorem trusted_remote_code_wins :
  forall w pretrained_model_name_or_path passed cfg trust name reference local remote tr tr1,
    processor_class_from_name w name tr = (Returned (Some local), tr1) ->
    resolve_trust_remote_code w trust pretrained_model_name_or_path true true
                              (upstream_repo reference) = Returned true ->
    get_class_from_dynamic_module w reference pretrained_model_name_or_path passed
    = Returned remote ->
    register_for_auto_class w remote = Returned tt ->
    dispatch w pretrained_model_name_or_path passed cfg trust
             (mkFound (Some name) (Some reference)) tr
    = (class_from_pretrained w remote pretrained_model_name_or_path (Some (Some true))
                             (pop "code_revision" passed),
       (tr1 ++ [ResolveTrust; GetClassFromDynamicModule reference;
                RegisterForAutoClass remote; ClassFromPretrained remote])%list).
Proof.
  intros w id passed cfg trust name reference local remote tr tr1 Hn Hr Hg Hreg.
  unfold dispatch. cbn [processor_class processor_auto_map].
  unfold bind at 1. rewrite Hn.
  unfold call, emit, modify, bind, ret. rewrite Hr, Hg, Hreg.
  now rewrite <- !app_assoc.
Qed.

Lemma trusted_remote_code_wins_witness :
  dispatch wav2vec2_repo_with_remote_code "org/model"
           (mkPassed None [("code_revision", "v2"); ("revision", "main")]) None (Some true)
           (mkFound (Some "Wav2Vec2Processor") (Some "processing_custom.CustomProcessor")) []
  = (class_from_pretrained wav2vec2_repo_with_remote_code CustomProcessor "org/model"
                           (Some (Some true))
                           (pop "code_revision"
                                (mkPassed None [("code_revision", "v2"); ("revision", "main")])),
     (snd (processor_class_from_name wav2vec2_repo_with_remote_code "Wav2Vec2Processor" [])
      ++ [ResolveTrust; GetClassFromDynamicModule "processing_custom.CustomProcessor";
          RegisterForAutoClass CustomProcessor; ClassFromPretrained CustomProcessor])%list).
Proof.
  apply (trusted_remote_code_wins
           wav2vec2_repo_with_remote_code "org/model"
           (mkPassed None [("code_revision", "v2"); ("revision", "main")]) None (Some true)
           "Wav2Vec2Processor" "processing_custom.CustomProcessor" Wav2Vec2Processor
           CustomProcessor []);
    reflexivity.
Defined.

(** X23.  When no class is declared, remote code does not apply and the
    type of the configuration is in [PROCESSOR_MAPPING], the run returns
    what the mapped class's [from_pretrained] returns.  That call is the
    only one of the function's loaders that is not given
    [trust_remote_code]; the fallback loaders are not tried. *)
Theorem mapped_configuration_type_is_loaded :
  forall w pretrained_model_name_or_path kwargs passed cfg found tr1 c,
    probed w pretrained_model_name_or_path kwargs passed cfg found tr1 ->
    processor_class found = None ->
    mapping_contains w (type_of cfg) = true ->
    no_remote_code w pretrained_model_name_or_path (trust_remote_code kwargs) true
                   (processor_auto_map found) ->
    mapping_getitem w (type_of cfg) = Returned c ->
    from_pretrained w pretrained_model_name_or_path kwargs []
    = (class_from_pretrained w c pretrained_model_name_or_path None passed,
       (tr1 ++ before_last_resort cfg (processor_auto_map found)
            ++ [MappingGetitem (type_of cfg); ClassFromPretrained c])%list).
Proof.
  intros w id kwargs passed cfg found tr1 c Hp Hc Hm Hr Hg.
  rewrite (from_pretrained_probed _ _ _ _ _ _ _ Hp).
  unfold dispatch, before_last_resort, no_remote_code in *.
  rewrite Hc. unfold call, emit, modify, bind, ret.
  destruct (processor_auto_map found) as [reference|]; simpl.
  - rewrite Hm, Hr. simpl. rewrite ?Hm, Hg. now rewrite <- !app_assoc.
  - rewrite Hm, Hg. now rewrite <- !app_assoc.
Qed.

Lemma mapped_configuration_type_is_loaded_witness :
  exists tr,
    from_pretrained mapped_repo "facebook/wav2vec2-base-960h"
                    (mkKwargs None None None (Some true) []) []
    = (Returned (mkObject Wav2Vec2Processor "facebook/wav2vec2-base-960h"), tr)
    /\ In (MappingGetitem (config_type Wav2Vec2Config)) tr.
Proof.
  set (w := mapped_repo).
  set (kwargs := mkKwargs None None None (Some true) []).
  assert (Hp : probed w "facebook/wav2vec2-base-960h" kwargs (mkPassed None [])
                      (Some Wav2Vec2Config_silent) (mkFound None None)
                      (snd (probe_sources w "facebook/wav2vec2-base-960h" (mkPassed None [])
                                          None (Some true) [])))
    by (exists []; split; reflexivity).
  eexists. split.
  - exact (mapped_configuration_type_is_loaded
             w "facebook/wav2vec2-base-960h" kwargs _ _ _ _ Wav2Vec2Processor
             Hp eq_refl eq_refl I eq_refl).
  - vm_compute. tauto.
Defined.

(** X24.  The last resort swallows only what is an [Exception]: an
    exception of another kind (a [KeyboardInterrupt], a [SystemExit]) raised
    by one of the three loaders ends the run at once, and the loaders after
    it are not tried. *)
Theorem last_resort_lets_other_exceptions_through :
  forall w pretrained_model_name_or_path passed trust tr e,
    is_Exception (exc_class e) = false ->
    let tokenizer :=
      AutoTokenizer_from_pretrained w pretrained_model_name_or_path trust passed in
    let image_processor :=
      AutoImageProcessor_from_pretrained w pretrained_model_name_or_path trust passed in
    let feature_extractor :=
      AutoFeatureExtractor_from_pretrained w pretrained_model_name_or_path trust passed in
    (tokenizer = Raised e ->
     last_resort w pretrained_model_name_or_path passed trust tr
     = (Raised e, (tr ++ [AutoTokenizerFromPretrained])%list))
    /\ (fails tokenizer -> image_processor = Raised e ->
        last_resort w pretrained_model_name_or_path passed trust tr
        = (Raised e,
           (tr ++ [AutoTokenizerFromPretrained; AutoImageProcessorFromPretrained])%list))
    /\ (fails tokenizer -> fails image_processor -> feature_extractor = Raised e ->
        last_resort w pretrained_model_name_or_path passed trust tr
        = (Raised e,
           (tr ++ [AutoTokenizerFromPretrained; AutoImageProcessorFromPretrained;
                   AutoFeatureExtractorFromPretrained])%list)).
Proof.
  intros w id passed trust tr e He. cbv zeta.
  unfold last_resort, try_except_Exception, call, emit, modify, bind, raise, fails.
  repeat split.
  - intros ->. simpl. now rewrite He.
  - intros (e1 & -> & E1) ->. simpl. rewrite E1, He. now rewrite <- !app_assoc.
  - intros (e1 & -> & E1) (e2 & -> & E2) ->. simpl. rewrite E1, E2, He.
    now rewrite <- !app_assoc.
Qed.

Lemma last_resort_lets_other_exceptions_through_witness :
  let interrupted := Raised (mkExc KeyboardInterrupt "") in
  let image := Returned (mkObject ViTImageProcessor "org/model") in
  last_resort (bare_repo interrupted image not_found) "org/model" (mkPassed None []) None []
  = (interrupted, [AutoTokenizerFromPretrained]).
Proof.
  cbv zeta.
  exact (proj1 (last_resort_lets_other_exceptions_through
                  (bare_repo (Raised (mkExc KeyboardInterrupt ""))
                             (Returned (mkObject ViTImageProcessor "org/model")) not_found)
                  "org/model" (mkPassed None []) None [] (mkExc KeyboardInterrupt "") eq_refl)
               eq_refl).
Defined.

End AutoFacts.
